(** * VVCode authentication service (src/services/auth/vv/VVAuthService.ts)

    A shallow embedding of the OAuth2/PKCE login service: the host's
    key-value state manager, the provider client seen as an oracle, the
    service's own fields, and the public operations written in a small
    state-and-exception monad that follows the TypeScript statement by
    statement. *)

From Stdlib Require Import String ZArith.
From stdpp Require Import gmap strings list fin_maps pretty.

Open Scope string_scope.

(** ** Data model *)

(** Modelled from the spec: the record types of
    src/shared/storage/state-keys.ts are not among the sources.  A user
    profile is an arbitrary record; the settings page reads its
    [username]. *)
Record VVUserInfo := { username : string }.

(** Modelled from the spec: [VVUserConfig] is an arbitrary preference
    record, never inspected by the service. *)
Record VVUserConfig := { preferences : list (string * string) }.

(** Modelled from the spec: a group item is
    [{ type, apiKey, defaultModelId, apiBaseUrl, isDefault }].  The service
    tests [apiKey] and the base URL for truthiness, so both may be absent. *)
Record VVGroupItem := {
  type : string;
  apiKey : option string;
  defaultModelId : string;
  apiBaseUrl : option string;
  isDefault : bool;
}.

Definition VVGroupConfig := list VVGroupItem.

(** [VVAuthInfo] of providers/VVAuthProvider.ts: the result of the code
    exchange. *)
Record VVAuthInfo := { accessToken : string; userId : Z }.

(** The values the service keeps in the host's global state. *)
Inductive StateValue :=
| VString (s : string)
| VUserInfo (u : VVUserInfo)
| VUserConfig (c : VVUserConfig)
| VGroupConfig (g : VVGroupConfig).

#[global] Instance VVUserInfo_eq_dec : EqDecision VVUserInfo.
Proof. solve_decision. Defined.
#[global] Instance VVUserConfig_eq_dec : EqDecision VVUserConfig.
Proof. solve_decision. Defined.
#[global] Instance VVGroupItem_eq_dec : EqDecision VVGroupItem.
Proof. solve_decision. Defined.
#[global] Instance VVAuthInfo_eq_dec : EqDecision VVAuthInfo.
Proof. solve_decision. Defined.
#[global] Instance StateValue_eq_dec : EqDecision StateValue.
Proof. solve_decision. Defined.

(** JavaScript truthiness of a string that may be [undefined]: the empty
    string and [undefined] are falsy. *)
Definition truthyString (v : option string) : bool :=
  match v with
  | Some s => negb (bool_decide (s = ""))
  | None => false
  end.

(** JavaScript truthiness of a stored value: objects and arrays (also the
    empty array) are truthy. *)
Definition truthy (v : option StateValue) : bool :=
  match v with
  | Some (VString s) => truthyString (Some s)
  | Some _ => true
  | None => false
  end.

(** [Number.isSafeInteger(n)]: the integers that a JavaScript number holds
    exactly, together with their neighbours. *)
Definition isSafeInteger (n : Z) : Prop :=
  (- (2 ^ 53 - 1) ≤ n ≤ 2 ^ 53 - 1)%Z.

(** [String(n)] / [n.toString()] for a safe integer [n]: its decimal
    notation.  For larger numbers JavaScript prints the shortest digits
    that round to the number, and from 10^21 on uses exponent notation;
    the properties that depend on the digits are stated for safe
    integers. *)
Definition toString (n : Z) : string := pretty n.

(** [hay.includes(needle)]. *)
Fixpoint includes (hay needle : string) : bool :=
  String.prefix needle hay ||
  match hay with
  | EmptyString => false
  | String _ rest => includes rest needle
  end.

(** ** URL and URLSearchParams *)

Record URL := { base : string; searchParams : list (string * string) }.

#[global] Instance URL_eq_dec : EqDecision URL.
Proof. solve_decision. Defined.

Module URLSearchParams.

(** [set(name, value)]: the first pair named [name] takes the value and
    the later ones are deleted; without such a pair one is appended. *)
Fixpoint set (name value : string) (ps : list (string * string))
  : list (string * string) :=
  match ps with
  | [] => [(name, value)]
  | (n, v) :: rest =>
      if decide (n = name)
      then (name, value) :: filter (λ p, p.1 ≠ name) rest
      else (n, v) :: set name value rest
  end.

(** [get(name)]: the value of the first pair named [name]. *)
Fixpoint get (name : string) (ps : list (string * string)) : option string :=
  match ps with
  | [] => None
  | (n, v) :: rest => if decide (n = name) then Some v else get name rest
  end.

End URLSearchParams.

Definition URL_set (name value : string) (u : URL) : URL :=
  {| base := base u; searchParams := URLSearchParams.set name value (searchParams u) |}.

(** ** The host's state manager

    Modelled from the spec: the controller, its [stateManager] and its
    extension [context] belong to the host and are not among the sources.
    The spec's contract is a key-value store with [get(key)],
    [set(key, value | undefined-to-delete)] and [flush()], in two
    namespaces (secrets and general state), where [flush()] guarantees
    durability before returning.  The state manager answers reads from an
    in-memory cache, records the keys written since the last flush, and
    [flushPendingState] copies exactly those keys into the extension
    context's durable stores. *)

(** Modelled from the spec: the host's state manager (not among the
    sources), a cache for each namespace and the keys written since the
    last flush. *)
Record StateManager := {
  globalStateCache : gmap string StateValue;
  secretsCache : gmap string string;
  pendingGlobalState : gset string;
  pendingSecrets : gset string;
}.

(** Modelled from the spec: the host's extension context (not among the
    sources), the durable store of each namespace. *)
Record ExtensionContext := {
  globalState : gmap string StateValue;
  secrets : gmap string string;
}.

(** Modelled from the spec: the host's controller (not among the sources),
    as far as the service uses it. *)
Record Controller := {
  stateManager : StateManager;
  context : ExtensionContext;
}.

(** Writing [undefined] deletes the key. *)
Definition store {V} (key : string) (value : option V) (m : gmap string V)
  : gmap string V :=
  match value with
  | Some v => <[key := v]> m
  | None => delete key m
  end.

(** One durable update per pending key, with the cached value. *)
Definition persist {V} (pending : list string) (cache durable : gmap string V)
  : gmap string V :=
  foldr (λ key d, store key (cache !! key) d) durable pending.

Module StateManagerOps.

Definition getGlobalStateKey (key : string) (c : Controller)
  : option StateValue :=
  globalStateCache (stateManager c) !! key.

Definition getSecretKey (key : string) (c : Controller) : option string :=
  secretsCache (stateManager c) !! key.

Definition setGlobalState (key : string) (value : option StateValue)
    (c : Controller) : Controller :=
  let sm := stateManager c in
  {| stateManager :=
       {| globalStateCache := store key value (globalStateCache sm);
          secretsCache := secretsCache sm;
          pendingGlobalState := {[ key ]} ∪ pendingGlobalState sm;
          pendingSecrets := pendingSecrets sm |};
     context := context c |}.

Definition setSecret (key : string) (value : option string)
    (c : Controller) : Controller :=
  let sm := stateManager c in
  {| stateManager :=
       {| globalStateCache := globalStateCache sm;
          secretsCache := store key value (secretsCache sm);
          pendingGlobalState := pendingGlobalState sm;
          pendingSecrets := {[ key ]} ∪ pendingSecrets sm |};
     context := context c |}.

Definition flushPendingState (c : Controller) : Controller :=
  let sm := stateManager c in
  {| stateManager :=
       {| globalStateCache := globalStateCache sm;
          secretsCache := secretsCache sm;
          pendingGlobalState := ∅;
          pendingSecrets := ∅ |};
     context :=
       {| globalState :=
            persist (elements (pendingGlobalState sm))
                    (globalStateCache sm) (globalState (context c));
          secrets :=
            persist (elements (pendingSecrets sm))
                    (secretsCache sm) (secrets (context c)) |} |}.

(** [controller.context.globalState.get(key)]: the durable store read
    directly, past the cache. *)
Definition context_globalState_get (key : string) (c : Controller)
  : option StateValue :=
  globalState (context c) !! key.

(** [controller.context.secrets.get(key)]: the durable secret read
    directly. *)
Definition context_secrets_get (key : string) (c : Controller)
  : option string :=
  secrets (context c) !! key.

End StateManagerOps.

(** ** The service, its collaborators and its effects *)

(** How a call completes: normally with a value, or by throwing.  A thrown
    value is represented by its message, the string the callback handler
    computes as [error instanceof Error ? error.message : String(error)]. *)
Inductive Completion (A : Type) :=
| Normal (value : A)
| Thrown (message : string).
Arguments Normal {A} value.
Arguments Thrown {A} message.

(** The status sent to subscribers: [{ user?: VVUserInfo }]. *)
Record VVAuthState := { user : option StateValue }.

#[global] Instance VVAuthState_eq_dec : EqDecision VVAuthState.
Proof. solve_decision. Defined.

(** What a subscriber's [responseStream(authState, false)] does: the
    returned promise resolves, the promise rejects, or the call throws. *)
Inductive Delivery := Delivered | Rejects | Throws.

(** The calls that leave the service, in the order they are made (newest
    first). *)
Inductive Event :=
| ExchangeCodeForToken (code : string) (codeVerifier : option StateValue)
    (state : string)
| GetUserInfo (token : string) (uid : Z)
| GetUserConfig (token : string) (uid : Z)
| GetGroupTokens (token : string) (uid : Z)
| Logout (token : string)
| FlushPendingState
| OpenExternal (url : URL)
| ResponseStream (subscription : nat) (authState : VVAuthState).

#[global] Instance Event_eq_dec : EqDecision Event.
Proof. solve_decision. Defined.

Module VVAuthProvider.

(** The HTTP client of providers/VVAuthProvider.ts, seen from the service:
    what each remote call answers. *)
Record t := {
  exchangeCodeForToken :
    string -> option StateValue -> string -> Completion VVAuthInfo;
  getUserInfo : string -> Z -> Completion VVUserInfo;
  getUserConfig : string -> Z -> Completion VVUserConfig;
  getGroupTokens : string -> Z -> Completion VVGroupConfig;
  logout : string -> Completion unit;
}.

End VVAuthProvider.

(** Everything outside the service that one operation consults: the
    process environment, the random generators and the challenge function
    of shared/vv-crypto, the browser launcher, the provider's answers and
    the subscribers' streams. *)
Record World := {
  process_env : gmap string string;
  generateState : string;
  generateCodeVerifier : string;
  generateCodeChallenge : string -> string;
  openExternal : URL -> Completion unit;
  _provider : VVAuthProvider.t;
  responseStream : nat -> VVAuthState -> Delivery;
}.

(** The fields of the [VVAuthService] instance.  [_controller] holds the
    host controller together with its state; a subscription object is
    represented by its identity, a fresh number; [trace] records the
    outgoing calls. *)
Record VVAuthService := {
  _controller : option Controller;
  _authenticated : bool;
  _activeAuthStatusUpdateSubscriptions : list nat;
  _processingAuthCallback : bool;
  _lastProcessedCode : option string;
  AUTH_PAGE_URL : URL;
  nextSubscription : nat;
  trace : list Event;
}.

Definition PUBLISHER : string := "PiuQiuPiaQia".
Definition EXTENSION_ID : string := "vvcode".

(** Field updates. *)
Definition with_controller (c : option Controller) (s : VVAuthService)
  : VVAuthService :=
  let '(Build_VVAuthService _ a subs p lc url n t) := s in
  Build_VVAuthService c a subs p lc url n t.

Definition with_authenticated (b : bool) (s : VVAuthService) : VVAuthService :=
  let '(Build_VVAuthService c _ subs p lc url n t) := s in
  Build_VVAuthService c b subs p lc url n t.

Definition with_subscriptions (l : list nat) (next : nat) (s : VVAuthService)
  : VVAuthService :=
  let '(Build_VVAuthService c a _ p lc url _ t) := s in
  Build_VVAuthService c a l p lc url next t.

Definition with_processingAuthCallback (b : bool) (s : VVAuthService)
  : VVAuthService :=
  let '(Build_VVAuthService c a subs _ lc url n t) := s in
  Build_VVAuthService c a subs b lc url n t.

Definition with_lastProcessedCode (code : option string) (s : VVAuthService)
  : VVAuthService :=
  let '(Build_VVAuthService c a subs p _ url n t) := s in
  Build_VVAuthService c a subs p code url n t.

Definition with_trace (t : list Event) (s : VVAuthService) : VVAuthService :=
  let '(Build_VVAuthService c a subs p lc url n _) := s in
  Build_VVAuthService c a subs p lc url n t.

(** ** A state-and-exception monad for the service's methods *)

Definition Eff (A : Type) : Type :=
  VVAuthService -> Completion A * VVAuthService.

Definition ret {A} (a : A) : Eff A := λ s, (Normal a, s).

Definition throw {A} (message : string) : Eff A := λ s, (Thrown message, s).

Definition bind {A B} (m : Eff A) (k : A -> Eff B) : Eff B :=
  λ s, match m s with
       | (Normal a, s') => k a s'
       | (Thrown e, s') => (Thrown e, s')
       end.

(** [try { m } catch (error) { handler }]. *)
Definition try_catch {A} (m : Eff A) (handler : string -> Eff A) : Eff A :=
  λ s, match m s with
       | (Normal a, s') => (Normal a, s')
       | (Thrown e, s') => handler e s'
       end.

(** [try { m } finally { cleanup }]: the cleanup runs in every case and the
    completion of [m] stands unless the cleanup itself throws. *)
Definition try_finally {A} (m : Eff A) (cleanup : Eff unit) : Eff A :=
  λ s, match m s with
       | (r, s') =>
           match cleanup s' with
           | (Normal _, s'') => (r, s'')
           | (Thrown e, s'') => (Thrown e, s'')
           end
       end.

Declare Scope eff_scope.
Delimit Scope eff_scope with eff.
Bind Scope eff_scope with Eff.
Notation "x <- m ;; k" := (bind m (λ x, k))
  (at level 100, m at next level, k at level 200, right associativity)
  : eff_scope.
Notation "m ;; k" := (bind m (λ _, k))
  (at level 100, k at level 200, right associativity) : eff_scope.
Open Scope eff_scope.

Definition gets {A} (f : VVAuthService -> A) : Eff A := λ s, (Normal (f s), s).

Definition modify (f : VVAuthService -> VVAuthService) : Eff unit :=
  λ s, (Normal tt, f s).

(** [if (cond) { body }]. *)
Definition when (cond : bool) (body : Eff unit) : Eff unit :=
  if cond then body else ret tt.

(** [for (const x of l) { body }]. *)
Fixpoint forEach {A} (l : list A) (body : A -> Eff unit) : Eff unit :=
  match l with
  | [] => ret tt
  | x :: rest => body x ;; forEach rest body
  end.

(** An outgoing call: it is recorded, and completes as the world answers. *)
Definition call {A} (e : Event) (answer : Completion A) : Eff A :=
  λ s, (answer, with_trace (e :: trace s) s).

(** ** Access to the controller *)

Definition requireController : Eff Controller :=
  λ s, match _controller s with
       | Some c => (Normal c, s)
       | None => (Thrown "Controller has not been initialized", s)
       end.

Definition getGlobalStateKey (key : string) : Eff (option StateValue) :=
  c <- requireController ;;
  ret (StateManagerOps.getGlobalStateKey key c).

Definition getSecretKey (key : string) : Eff (option string) :=
  c <- requireController ;;
  ret (StateManagerOps.getSecretKey key c).

Definition context_globalState_get (key : string) : Eff (option StateValue) :=
  c <- requireController ;;
  ret (StateManagerOps.context_globalState_get key c).

Definition setGlobalState (key : string) (value : option StateValue) : Eff unit :=
  c <- requireController ;;
  modify (with_controller (Some (StateManagerOps.setGlobalState key value c))).

Definition setSecret (key : string) (value : option string) : Eff unit :=
  c <- requireController ;;
  modify (with_controller (Some (StateManagerOps.setSecret key value c))).

Definition flushPendingState : Eff unit :=
  c <- requireController ;;
  modify (with_controller (Some (StateManagerOps.flushPendingState c))) ;;
  call FlushPendingState (Normal tt).

(** ** The methods of [VVAuthService] *)

(** [getInfo()]: [{ user: user || undefined }]. *)
Definition getInfo : Eff VVAuthState :=
  requireController ;;
  user <- getGlobalStateKey "vvUserInfo" ;;
  ret {| user := if truthy user then user else None |}.

(** [get isAuthenticated()]: [!!accessToken]. *)
Definition isAuthenticated : Eff bool :=
  requireController ;;
  accessToken <- getSecretKey "vv:accessToken" ;;
  ret (truthyString accessToken).

Definition getAccessToken : Eff (option string) :=
  requireController ;;
  getSecretKey "vv:accessToken".

Definition getUserInfo : Eff (option StateValue) :=
  requireController ;;
  getGlobalStateKey "vvUserInfo".

Definition getUserConfig : Eff (option StateValue) :=
  requireController ;;
  getGlobalStateKey "vvUserConfig".

Definition getGroupConfig : Eff (option StateValue) :=
  requireController ;;
  getGlobalStateKey "vvGroupConfig".

(** [this._activeAuthStatusUpdateSubscriptions.delete(subscription)]. *)
Definition subscriptions_delete (subscription : nat) : Eff unit :=
  modify (λ s, with_subscriptions
                 (filter (λ x, x ≠ subscription)
                         (_activeAuthStatusUpdateSubscriptions s))
                 (nextSubscription s) s).


(** [sendAuthStatusUpdate()]: one delivery attempt per registered
    subscription, all with the same status.  A subscription whose stream
    throws is deleted in the [catch] block and the loop goes on; for a
    stream that returns a promise the loop only attaches
    [deliveryRejected] and goes on, whether the promise will resolve or
    reject. *)
Definition sendAuthStatusUpdate (w : World) : Eff unit :=
  authState <- getInfo ;;
  subscriptions <- gets _activeAuthStatusUpdateSubscriptions ;;
  forEach subscriptions (λ subscription,
    outcome <- call (ResponseStream subscription authState)
                    (Normal (responseStream w subscription authState)) ;;
    match outcome with
    | Delivered => ret tt
    | Rejects => ret tt
    | Throws => subscriptions_delete subscription
    end).

(** [subscribeToAuthStatusUpdate(controller, _request, responseStream)]: the
    new subscription object is added, the current status is sent to it at
    once (a rejection is only logged, a synchronous throw propagates), and
    the identity of the subscription stands for the returned unsubscribe
    function. *)
Definition subscribeToAuthStatusUpdate (w : World) : Eff nat :=
  subscription <- gets nextSubscription ;;
  modify (λ s, with_subscriptions
                 (_activeAuthStatusUpdateSubscriptions s ++ [subscription])
                 (S subscription) s) ;;
  authState <- getInfo ;;
  outcome <- call (ResponseStream subscription authState)
                  (Normal (responseStream w subscription authState)) ;;
  match outcome with
  | Delivered => ret subscription
  | Rejects => ret subscription
  | Throws => throw "responseStream threw"
  end.


(** [process.env.IS_DEV === "true"]. *)
Definition isDev (w : World) : bool :=
  bool_decide (process_env w !! "IS_DEV" = Some "true").

(** [process.env.DEV_BASE_URL || "http://127.0.0.1:3000"]. *)
Definition devBaseUrl (w : World) : string :=
  match process_env w !! "DEV_BASE_URL" with
  | Some url => if truthyString (Some url) then url else "http://127.0.0.1:3000"
  | None => "http://127.0.0.1:3000"
  end.

(** [applyGroupConfig(group)]. *)
Definition applyGroupConfig (w : World) (group : VVGroupItem) : Eff unit :=
  requireController ;;
  setSecret "apiKey" (apiKey group) ;;
  setGlobalState "planModeApiModelId" (Some (VString (defaultModelId group))) ;;
  setGlobalState "actModeApiModelId" (Some (VString (defaultModelId group))) ;;
  let baseUrl := if isDev w then Some (devBaseUrl w) else apiBaseUrl group in
  when (truthyString baseUrl)
       (setGlobalState "anthropicBaseUrl" (VString <$> baseUrl)) ;;
  flushPendingState.

Definition dquote : string := String (Ascii.ascii_of_nat 34) EmptyString.

(** [{ ...g, isDefault: g.type === groupType }]. *)
Definition markDefault (groupType : string) (g : VVGroupItem) : VVGroupItem :=
  {| type := type g;
     apiKey := apiKey g;
     defaultModelId := defaultModelId g;
     apiBaseUrl := apiBaseUrl g;
     isDefault := bool_decide (type g = groupType) |}.

(** [switchGroup(groupType)].  A stored value that is not an array has no
    [find] method, which is a [TypeError]. *)
Definition switchGroup (w : World) (groupType : string) : Eff unit :=
  requireController ;;
  groupConfig <- getGlobalStateKey "vvGroupConfig" ;;
  if negb (truthy groupConfig)
  then throw "Group config not found. Please login first."
  else
    match groupConfig with
    | Some (VGroupConfig groupConfig) =>
        match find (λ g, bool_decide (type g = groupType)) groupConfig with
        | None =>
            throw ("Group " +:+ dquote +:+ groupType +:+ dquote +:+ " not found")
        | Some targetGroup =>
            if negb (truthyString (apiKey targetGroup))
            then throw ("Group " +:+ dquote +:+ groupType +:+ dquote +:+
                        " has no API key configured. Please configure it first.")
            else
              let updatedConfig := map (markDefault groupType) groupConfig in
              setGlobalState "vvGroupConfig" (Some (VGroupConfig updatedConfig)) ;;
              applyGroupConfig w targetGroup ;;
              flushPendingState ;;
              sendAuthStatusUpdate w
        end
    | _ => throw "groupConfig.find is not a function"
    end.

(** [createAuthRequest()].  The returned record stands for the string
    [authUrl.toString()]. *)
Definition createAuthRequest (w : World) : Eff URL :=
  requireController ;;
  let state := generateState w in
  let codeVerifier := generateCodeVerifier w in
  let codeChallenge := generateCodeChallenge w codeVerifier in
  setGlobalState "vv:authState" (Some (VString state)) ;;
  setGlobalState "vv:codeVerifier" (Some (VString codeVerifier)) ;;
  flushPendingState ;;
  savedState <- getGlobalStateKey "vv:authState" ;;
  savedVerifier <- getGlobalStateKey "vv:codeVerifier" ;;
  if negb (truthy savedState) || negb (truthy savedVerifier)
  then throw "Failed to save authentication state. Please try again."
  else
    let callbackUri :=
      "vscode://" +:+ PUBLISHER +:+ "." +:+ EXTENSION_ID +:+ "/vv-callback" in
    authUrl <- gets AUTH_PAGE_URL ;;
    let authUrl := URL_set "state" state authUrl in
    let authUrl := URL_set "code_challenge" codeChallenge authUrl in
    let authUrl := URL_set "redirect_uri" callbackUri authUrl in
    call (OpenExternal authUrl) (openExternal w authUrl) ;;
    ret authUrl.

(** The message the callback handler's [catch] block throws for a caught
    error with message [errorMessage]. *)
Definition rethrownMessage (errorMessage : string) : string :=
  if includes errorMessage "Too Many Requests" || includes errorMessage "429"
  then "Authentication rate limit exceeded. Please wait a moment and try logging in again."
  else "Authentication failed: " +:+ errorMessage.

(** Steps 4 to 11 of the [try] block of [handleAuthCallback], from the
    storing of the exchanged token to the broadcast. *)
Definition handleAuthCallback_login (w : World) (code : string)
    (authInfo : VVAuthInfo) : Eff unit :=
  setSecret "vv:accessToken" (Some (accessToken authInfo)) ;;
  setSecret "vv:userId" (Some (toString (userId authInfo))) ;;
  userInfo <- call (GetUserInfo (accessToken authInfo) (userId authInfo))
                   (VVAuthProvider.getUserInfo (_provider w)
                      (accessToken authInfo) (userId authInfo)) ;;
  setGlobalState "vvUserInfo" (Some (VUserInfo userInfo)) ;;
  try_catch
    (userConfig <- call (GetUserConfig (accessToken authInfo) (userId authInfo))
                        (VVAuthProvider.getUserConfig (_provider w)
                           (accessToken authInfo) (userId authInfo)) ;;
     setGlobalState "vvUserConfig" (Some (VUserConfig userConfig)))
    (λ _, ret tt) ;;
  try_catch
    (groupConfig <- call (GetGroupTokens (accessToken authInfo) (userId authInfo))
                         (VVAuthProvider.getGroupTokens (_provider w)
                            (accessToken authInfo) (userId authInfo)) ;;
     setGlobalState "vvGroupConfig" (Some (VGroupConfig groupConfig)) ;;
     match find isDefault groupConfig with
     | Some defaultGroup =>
         when (truthyString (apiKey defaultGroup))
              (applyGroupConfig w defaultGroup)
     | None => ret tt
     end)
    (λ _, ret tt) ;;
  flushPendingState ;;
  setGlobalState "vv:authState" None ;;
  setGlobalState "vv:codeVerifier" None ;;
  flushPendingState ;;
  modify (with_lastProcessedCode (Some code)) ;;
  modify (with_authenticated true) ;;
  sendAuthStatusUpdate w.

(** The [try] block of [handleAuthCallback]: steps 1 to 3, then the
    steps above. *)
Definition handleAuthCallback_try (w : World) (code state : string) : Eff unit :=
  storedState <- getGlobalStateKey "vv:authState" ;;
  storedState <- (if negb (truthy storedState)
                  then context_globalState_get "vv:authState"
                  else ret storedState) ;;
  when (negb (truthy storedState))
       (throw "Authentication state not found. This may happen if the extension was reloaded. Please try logging in again.") ;;
  when (negb (bool_decide (Some (VString state) = storedState)))
       (throw "Invalid state parameter - possible CSRF attack") ;;
  codeVerifier <- getGlobalStateKey "vv:codeVerifier" ;;
  codeVerifier <- (if negb (truthy codeVerifier)
                   then context_globalState_get "vv:codeVerifier"
                   else ret codeVerifier) ;;
  when (negb (truthy codeVerifier))
       (throw "Code verifier not found. Please try logging in again.") ;;
  authInfo <- call (ExchangeCodeForToken code codeVerifier state)
                   (VVAuthProvider.exchangeCodeForToken (_provider w)
                      code codeVerifier state) ;;
  handleAuthCallback_login w code authInfo.

(** The [catch] block of [handleAuthCallback]. *)
Definition handleAuthCallback_catch (errorMessage : string) : Eff unit :=
  setGlobalState "vv:authState" None ;;
  setGlobalState "vv:codeVerifier" None ;;
  flushPendingState ;;
  throw (rethrownMessage errorMessage).

(** [handleAuthCallback(code, state)]. *)
Definition handleAuthCallback (w : World) (code state : string) : Eff unit :=
  requireController ;;
  processing <- gets _processingAuthCallback ;;
  if processing then ret tt
  else
    lastProcessedCode <- gets _lastProcessedCode ;;
    if bool_decide (lastProcessedCode = Some code) then ret tt
    else
      modify (with_processingAuthCallback true) ;;
      try_finally
        (try_catch (handleAuthCallback_try w code state)
                   handleAuthCallback_catch)
        (modify (with_processingAuthCallback false)).

(** [handleDeauth()]. *)
Definition handleDeauth (w : World) : Eff unit :=
  requireController ;;
  accessToken <- getSecretKey "vv:accessToken" ;;
  match accessToken with
  | Some token =>
      when (truthyString accessToken)
           (try_catch (call (Logout token)
                            (VVAuthProvider.logout (_provider w) token))
                      (λ _, ret tt))
  | None => ret tt
  end ;;
  setSecret "vv:accessToken" None ;;
  setSecret "vv:refreshToken" None ;;
  setGlobalState "vvUserInfo" None ;;
  setGlobalState "vvUserConfig" None ;;
  setGlobalState "vv:authState" None ;;
  setGlobalState "vv:codeVerifier" None ;;
  flushPendingState ;;
  modify (with_authenticated false) ;;
  sendAuthStatusUpdate w.

(** ** Vocabulary for the statements *)

#[global] Instance Delivery_eq_dec : EqDecision Delivery.
Proof. solve_decision. Defined.

(** The status [getInfo] reports for a controller. *)
Definition statusOf (c : Controller) : VVAuthState :=
  {| user := if truthy (StateManagerOps.getGlobalStateKey "vvUserInfo" c)
             then StateManagerOps.getGlobalStateKey "vvUserInfo" c
             else None |}.

(** The delivery attempts of one broadcast to the subscriptions [l], newest
    first. *)
Definition broadcastEvents (authState : VVAuthState) (l : list nat) : list Event :=
  rev (map (λ subscription, ResponseStream subscription authState) l).

(** The subscriptions of [subs] left when a broadcast to [l] returns:
    those not addressed and those whose stream did not throw. *)
Definition survivors (w : World) (authState : VVAuthState) (l subs : list nat)
  : list nat :=
  filter (λ x, x ∉ l ∨ responseStream w x authState ≠ Throws) subs.

(** The number of token exchanges recorded in a trace. *)
Definition isExchange (e : Event) : bool :=
  match e with
  | ExchangeCodeForToken _ _ _ => true
  | _ => false
  end.

Definition exchanges (t : list Event) : nat := length (List.filter isExchange t).

(** A key is gone from the cache and from the durable store. *)
Definition globalStateCleared (key : string) (c : Controller) : Prop :=
  StateManagerOps.getGlobalStateKey key c = None ∧
  StateManagerOps.context_globalState_get key c = None.

Definition secretCleared (key : string) (c : Controller) : Prop :=
  StateManagerOps.getSecretKey key c = None ∧
  StateManagerOps.context_secrets_get key c = None.

(** Nothing is waiting to be written. *)
Definition flushed (c : Controller) : Prop :=
  pendingSecrets (stateManager c) = ∅ ∧
  pendingGlobalState (stateManager c) = ∅.

(** The value [handleAuthCallback] finds for a transient session key: the
    cached one, or the durable one when the cache has nothing truthy. *)
Definition storedSession (key : string) (c : Controller) : option StateValue :=
  if negb (truthy (StateManagerOps.getGlobalStateKey key c))
  then StateManagerOps.context_globalState_get key c
  else StateManagerOps.getGlobalStateKey key c.

(** [m] keeps the property [P] of the service, however it completes. *)
Definition preserves {A} (P : VVAuthService -> Prop) (m : Eff A) : Prop :=
  ∀ s, P s -> P (m s).2.

(** [m] makes at most [n] token exchanges. *)
Definition exchangesAtMost {A} (n : nat) (m : Eff A) : Prop :=
  ∀ s, (exchanges (trace (m s).2) ≤ n + exchanges (trace s))%nat.

(** The controller is bound. *)
Definition bound (s : VVAuthService) : Prop := is_Some (_controller s).

(** The controller after [applyGroupConfig(group)]. *)
Definition appliedGroup (w : World) (group : VVGroupItem) (c : Controller)
  : Controller :=
  let c := StateManagerOps.setSecret "apiKey" (apiKey group) c in
  let c := StateManagerOps.setGlobalState "planModeApiModelId"
             (Some (VString (defaultModelId group))) c in
  let c := StateManagerOps.setGlobalState "actModeApiModelId"
             (Some (VString (defaultModelId group))) c in
  let baseUrl := if isDev w then Some (devBaseUrl w) else apiBaseUrl group in
  let c := if truthyString baseUrl
           then StateManagerOps.setGlobalState "anthropicBaseUrl"
                  (VString <$> baseUrl) c
           else c in
  StateManagerOps.flushPendingState c.

(** The controller after the [catch] block of [handleAuthCallback]. *)
Definition sessionDropped (c : Controller) : Controller :=
  StateManagerOps.flushPendingState
    (StateManagerOps.setGlobalState "vv:codeVerifier" None
       (StateManagerOps.setGlobalState "vv:authState" None c)).

(** The controller after a handshake in which the user info [userInfo] and
    the group configuration [groupConfig] were fetched. *)
Definition loggedIn (w : World) (authInfo : VVAuthInfo) (userInfo : VVUserInfo)
    (groupConfig : VVGroupConfig) (c : Controller) : Controller :=
  let c := StateManagerOps.setSecret "vv:accessToken"
             (Some (accessToken authInfo)) c in
  let c := StateManagerOps.setSecret "vv:userId"
             (Some (toString (userId authInfo))) c in
  let c := StateManagerOps.setGlobalState "vvUserInfo"
             (Some (VUserInfo userInfo)) c in
  let c := match VVAuthProvider.getUserConfig (_provider w)
                   (accessToken authInfo) (userId authInfo) with
           | Normal userConfig =>
               StateManagerOps.setGlobalState "vvUserConfig"
                 (Some (VUserConfig userConfig)) c
           | Thrown _ => c
           end in
  let c := StateManagerOps.setGlobalState "vvGroupConfig"
             (Some (VGroupConfig groupConfig)) c in
  let c := match find isDefault groupConfig with
           | Some defaultGroup =>
               if truthyString (apiKey defaultGroup)
               then appliedGroup w defaultGroup c
               else c
           | None => c
           end in
  sessionDropped (StateManagerOps.flushPendingState c).

(** The host's active API settings are those of [group]. *)
Definition groupApplied (w : World) (group : VVGroupItem) (c c' : Controller)
  : Prop :=
  StateManagerOps.getSecretKey "apiKey" c' = apiKey group ∧
  StateManagerOps.getGlobalStateKey "planModeApiModelId" c' =
    Some (VString (defaultModelId group)) ∧
  StateManagerOps.getGlobalStateKey "actModeApiModelId" c' =
    Some (VString (defaultModelId group)) ∧
  StateManagerOps.getGlobalStateKey "anthropicBaseUrl" c' =
    (if isDev w then Some (VString (devBaseUrl w))
     else if truthyString (apiBaseUrl group)
          then VString <$> apiBaseUrl group
          else StateManagerOps.getGlobalStateKey "anthropicBaseUrl" c).

(** The host's active API settings are as before. *)
Definition hostSettingsUnchanged (c c' : Controller) : Prop :=
  StateManagerOps.getSecretKey "apiKey" c' =
    StateManagerOps.getSecretKey "apiKey" c ∧
  StateManagerOps.getGlobalStateKey "planModeApiModelId" c' =
    StateManagerOps.getGlobalStateKey "planModeApiModelId" c ∧
  StateManagerOps.getGlobalStateKey "actModeApiModelId" c' =
    StateManagerOps.getGlobalStateKey "actModeApiModelId" c ∧
  StateManagerOps.getGlobalStateKey "anthropicBaseUrl" c' =
    StateManagerOps.getGlobalStateKey "anthropicBaseUrl" c.

(** The controller after [createAuthRequest] has stored and flushed the
    session. *)
Definition sessionSaved (w : World) (c : Controller) : Controller :=
  StateManagerOps.flushPendingState
    (StateManagerOps.setGlobalState "vv:codeVerifier"
       (Some (VString (generateCodeVerifier w)))
       (StateManagerOps.setGlobalState "vv:authState"
          (Some (VString (generateState w))) c)).

(** The callback URI of the extension. *)
Definition callbackUri : string :=
  "vscode://" +:+ PUBLISHER +:+ "." +:+ EXTENSION_ID +:+ "/vv-callback".

(** ** Sample inputs *)

Module Sample.

Definition daily : VVGroupItem :=
  {| type := "daily"; apiKey := Some "key-daily"; defaultModelId := "model-d";
     apiBaseUrl := Some "https://daily.example"; isDefault := false |}.

Definition performance : VVGroupItem :=
  {| type := "performance"; apiKey := Some "key-perf";
     defaultModelId := "model-p"; apiBaseUrl := None; isDefault := true |}.

Definition discount : VVGroupItem :=
  {| type := "discount"; apiKey := None; defaultModelId := "model-c";
     apiBaseUrl := None; isDefault := false |}.

(** A second item of type [daily]. *)
Definition daily2 : VVGroupItem :=
  {| type := "daily"; apiKey := Some "key-daily-2"; defaultModelId := "model-e";
     apiBaseUrl := None; isDefault := false |}.

Definition groups : VVGroupConfig := [daily; performance; discount].

Definition authInfo : VVAuthInfo := {| accessToken := "tok"; userId := 7 |}.

Definition ann : VVUserInfo := {| username := "ann" |}.

(** A provider that answers every call but the user-config one. *)
Definition provider : VVAuthProvider.t :=
  {| VVAuthProvider.exchangeCodeForToken := λ _ _ _, Normal authInfo;
     VVAuthProvider.getUserInfo := λ _ _, Normal ann;
     VVAuthProvider.getUserConfig := λ _ _, Thrown "HTTP 500";
     VVAuthProvider.getGroupTokens := λ _ _, Normal groups;
     VVAuthProvider.logout := λ _, Normal tt |}.

(** The same provider, whose user-info endpoint is down. *)
Definition providerNoUserInfo : VVAuthProvider.t :=
  {| VVAuthProvider.exchangeCodeForToken := λ _ _ _, Normal authInfo;
     VVAuthProvider.getUserInfo := λ _ _, Thrown "HTTP 502";
     VVAuthProvider.getUserConfig := λ _ _, Thrown "HTTP 500";
     VVAuthProvider.getGroupTokens := λ _ _, Normal groups;
     VVAuthProvider.logout := λ _, Normal tt |}.

(** The same provider, answering a group list without a default item. *)
Definition providerNoDefault : VVAuthProvider.t :=
  {| VVAuthProvider.exchangeCodeForToken := λ _ _ _, Normal authInfo;
     VVAuthProvider.getUserInfo := λ _ _, Normal ann;
     VVAuthProvider.getUserConfig := λ _ _, Thrown "HTTP 500";
     VVAuthProvider.getGroupTokens := λ _ _, Normal [daily];
     VVAuthProvider.logout := λ _, Normal tt |}.

Definition worldWith (env : gmap string string) (state verifier : string)
    (p : VVAuthProvider.t) : World :=
  {| process_env := env;
     generateState := state;
     generateCodeVerifier := verifier;
     generateCodeChallenge := λ v, "challenge-of-" +:+ v;
     openExternal := λ _, Normal tt;
     _provider := p;
     responseStream := λ n _, if decide (n = 1) then Rejects else Delivered |}.

Definition world : World := worldWith ∅ "S" "V" provider.
Definition worldNoUserInfo : World := worldWith ∅ "S" "V" providerNoUserInfo.
Definition worldNoDefault : World := worldWith ∅ "S" "V" providerNoDefault.
Definition worldDev : World := worldWith {[ "IS_DEV" := "true" ]} "S" "V" provider.
Definition worldEmptyState : World := worldWith ∅ "" "V" provider.


Definition controllerWith (cache : gmap string StateValue)
    (secretValues : gmap string string) : Controller :=
  {| stateManager :=
       {| globalStateCache := cache; secretsCache := secretValues;
          pendingGlobalState := ∅; pendingSecrets := ∅ |};
     context := {| globalState := cache; secrets := secretValues |} |}.

Definition serviceWith (c : Controller) (processing : bool)
    (last : option string) : VVAuthService :=
  {| _controller := Some c;
     _authenticated := false;
     _activeAuthStatusUpdateSubscriptions := [0; 1; 2];
     _processingAuthCallback := processing;
     _lastProcessedCode := last;
     AUTH_PAGE_URL :=
       {| base := "https://vvcode.top/oauth/vscode/login"; searchParams := [] |};
     nextSubscription := 3;
     trace := [] |}.

(** Nothing stored yet. *)
Definition freshController : Controller := controllerWith ∅ ∅.
Definition fresh : VVAuthService := serviceWith freshController false None.

(** A login was requested: the session [S], [V] is stored. *)
Definition pendingController : Controller :=
  controllerWith
    (<["vv:authState" := VString "S"]>
       (<["vv:codeVerifier" := VString "V"]> ∅)) ∅.
Definition pending : VVAuthService := serviceWith pendingController false None.
Definition pendingBusy : VVAuthService := serviceWith pendingController true None.
Definition pendingSeen : VVAuthService :=
  serviceWith pendingController false (Some "abc").

(** A user is logged in and has the three sample groups. *)
Definition loggedInController : Controller :=
  controllerWith
    (<["vvUserInfo" := VUserInfo ann]>
       (<["vvGroupConfig" := VGroupConfig groups]> ∅))
    (<["vv:accessToken" := "tok"]> (<["vv:userId" := "7"]> ∅)).
Definition loggedInService : VVAuthService :=
  serviceWith loggedInController false (Some "abc").

(** A stored configuration with two items of the same type. *)
Definition duplicateController : Controller :=
  controllerWith (<["vvGroupConfig" := VGroupConfig [daily; daily2]]> ∅) ∅.
Definition duplicateService : VVAuthService :=
  serviceWith duplicateController false None.

End Sample.



(** ** The rest of the service: construction, singleton, refresh *)

(** [s.slice(n)]. *)
Fixpoint dropString (n : nat) (s : string) : string :=
  match n, s with
  | O, _ => s
  | S n, String _ rest => dropString n rest
  | S _, EmptyString => EmptyString
  end.

(** [s.replace(pattern, replacement)] for a string pattern and a
    replacement without [$]: the first occurrence of the pattern, if any,
    is replaced. *)
Fixpoint replace (pattern replacement s : string) : string :=
  if String.prefix pattern s
  then replacement +:+ dropString (String.length pattern) s
  else match s with
       | EmptyString => EmptyString
       | String c rest => String c (replace pattern replacement rest)
       end.

(** [process.env.IS_DEV === "true" || process.env.VV_API_BASE_URL !== undefined]. *)
Definition isDevelopment (w : World) : bool :=
  isDev w || negb (bool_decide (process_env w !! "VV_API_BASE_URL" = None)).

(** The constructor's [API_BASE_URL]. *)
Definition API_BASE_URL (w : World) : string :=
  let override := process_env w !! "VV_API_BASE_URL" in
  if truthyString override then default "" override
  else if isDevelopment w then devBaseUrl w +:+ "/api"
  else "https://vvcode.top/api".

(** The constructor's [AUTH_PAGE_URL], as a string. *)
Definition AUTH_PAGE_URL_string (w : World) : string :=
  let override := process_env w !! "VV_API_BASE_URL" in
  if truthyString override
  then replace "/api" "" (default "" override) +:+ "/oauth/vscode/login"
  else if isDevelopment w then devBaseUrl w +:+ "/oauth/vscode/login"
  else "https://vvcode.top/oauth/vscode/login".

(** The collaborators that only the operations below consult: the URL
    parser behind [new URL(...)], the provider's answer when the user id
    it is given is [NaN], and the host's [postStateToWebview]. *)
Record Host := {
  URL_parse : string -> URL;
  getGroupTokensNaN : string -> Completion VVGroupConfig;
  postStateToWebview : Completion unit;
}.

(** [new VVAuthService()]: the fields' initial values. *)
Definition newVVAuthService (h : Host) (w : World) : VVAuthService :=
  {| _controller := None;
     _authenticated := false;
     _activeAuthStatusUpdateSubscriptions := [];
     _processingAuthCallback := false;
     _lastProcessedCode := None;
     AUTH_PAGE_URL := URL_parse h (AUTH_PAGE_URL_string w);
     nextSubscription := 0;
     trace := [] |}.

(** White space for [parseInt], among the characters below 256. *)
Definition isWhiteSpace (c : Ascii.ascii) : bool :=
  let n := Ascii.nat_of_ascii c in
  bool_decide (n = 9 ∨ n = 10 ∨ n = 11 ∨ n = 12 ∨ n = 13 ∨ n = 32 ∨ n = 160)%nat.

Fixpoint trimStart (s : string) : string :=
  match s with
  | String c rest => if isWhiteSpace c then trimStart rest else s
  | EmptyString => EmptyString
  end.

(** The value of a decimal digit. *)
Definition digitValue (c : Ascii.ascii) : option N :=
  let n := Ascii.N_of_ascii c in
  if bool_decide (48 ≤ n ∧ n ≤ 57)%N then Some (n - 48)%N else None.

(** The number written by the longest prefix of digits, after [acc]. *)
Fixpoint parseDigits (acc : N) (s : string) : N :=
  match s with
  | String c rest =>
      match digitValue c with
      | Some d => parseDigits (10 * acc + d)%N rest
      | None => acc
      end
  | EmptyString => acc
  end.

(** The Number value for the integer [z]: the nearest double, a tie going
    to the even significand.  (From 2^1024 on JavaScript gives [Infinity],
    which is not represented here.) *)
Definition numberValue (z : Z) : Z :=
  let a := Z.abs z in
  if (a <? 2 ^ 53)%Z then z
  else
    let e := (Z.log2 a - 52)%Z in
    let q := (a / 2 ^ e)%Z in
    let r := (a mod 2 ^ e)%Z in
    let half := (2 ^ (e - 1))%Z in
    let q := if (r <? half)%Z then q
             else if (half <? r)%Z then (q + 1)%Z
             else if Z.even q then q else (q + 1)%Z in
    (Z.sgn z * (q * 2 ^ e))%Z.

(** [parseInt(s, 10)], [None] standing for [NaN]: leading white space and
    one sign ([-] is character 45, [+] is 43) are skipped and the digits
    that follow are read; anything after them is ignored.  The result is
    the Number value for the integer read. *)
Definition parseInt (s : string) : option Z :=
  let s := trimStart s in
  let '(negative, s) :=
    match s with
    | String c rest =>
        if bool_decide (Ascii.nat_of_ascii c = 45)%nat then (true, rest)
        else if bool_decide (Ascii.nat_of_ascii c = 43)%nat then (false, rest)
        else (false, s)
    | EmptyString => (false, s)
    end in
  match s with
  | String c _ =>
      match digitValue c with
      | Some _ =>
          let n := Z.of_N (parseDigits 0 s) in
          Some (numberValue (if negative then (- n)%Z else n))
      | None => None
      end
  | EmptyString => None
  end.

(** [this._provider.getGroupTokens(accessToken, userId)] for a user id
    that may be [NaN]; the trace records the calls with an integer id. *)
Definition getGroupTokensFor (w : World) (h : Host) (accessToken : string)
    (userId : option Z) : Eff VVGroupConfig :=
  match userId with
  | Some uid =>
      call (GetGroupTokens accessToken uid)
           (VVAuthProvider.getGroupTokens (_provider w) accessToken uid)
  | None => λ s, (getGroupTokensNaN h accessToken, s)
  end.

(** [refreshGroupConfig()]. *)
Definition refreshGroupConfig (w : World) (h : Host) : Eff (option VVGroupConfig) :=
  requireController ;;
  accessToken <- getSecretKey "vv:accessToken" ;;
  userId <- getSecretKey "vv:userId" ;;
  if negb (truthyString accessToken) || negb (truthyString userId)
  then ret None
  else
    try_catch
      (groupConfig <- getGroupTokensFor w h (default "" accessToken)
                        (parseInt (default "" userId)) ;;
       setGlobalState "vvGroupConfig" (Some (VGroupConfig groupConfig)) ;;
       flushPendingState ;;
       ret (Some groupConfig))
      (λ _, ret None).

(** [initGroupConfigIfAuthenticated()]. *)
Definition initGroupConfigIfAuthenticated (w : World) (h : Host) : Eff unit :=
  authenticated <- isAuthenticated ;;
  if negb authenticated then ret tt
  else try_catch (refreshGroupConfig w h ;; ret tt) (λ _, ret tt).

(** [VVAuthService.initialize(controller)], acting on the static
    [instance]: the instance is created when there is none, the controller
    is bound, and the group configuration is fetched in the background;
    the result is the instance once that fetch has settled (a failure of
    it is dropped). *)
Definition initialize (w : World) (h : Host) (controller : Controller)
    (instance : option VVAuthService) : VVAuthService :=
  let s := match instance with
           | Some s => s
           | None => newVVAuthService h w
           end in
  (initGroupConfigIfAuthenticated w h (with_controller (Some controller) s)).2.

(** [VVAuthService.getInstance()]. *)
Definition getInstance (instance : option VVAuthService)
  : Completion VVAuthService :=
  match instance with
  | Some s =>
      match _controller s with
      | Some _ => Normal s
      | None => Thrown "VVAuthService not initialized. Call VVAuthService.initialize(controller) first."
      end
  | None => Thrown "VVAuthService not initialized. Call VVAuthService.initialize(controller) first."
  end.

(** [vvRefreshGroupConfig(controller, _request)] of
    core/controller/vVAccount/vvRefreshGroupConfig.ts, acting on the
    static instance; [Normal tt] stands for the returned [Empty]. *)
Definition vvRefreshGroupConfig (w : World) (h : Host)
    (instance : option VVAuthService)
  : Completion unit * option VVAuthService :=
  match getInstance instance with
  | Thrown e => (Thrown e, instance)
  | Normal s =>
      match refreshGroupConfig w h s with
      | (Thrown e, s') => (Thrown e, Some s')
      | (Normal _, s') =>
          (match postStateToWebview h with
           | Normal _ => Normal tt
           | Thrown e => Thrown e
           end, Some s')
      end
  end.

(** ** Further vocabulary *)

(** The controller after [handleDeauth]. *)
Definition loggedOut (c : Controller) : Controller :=
  StateManagerOps.flushPendingState
    (StateManagerOps.setGlobalState "vv:codeVerifier" None
       (StateManagerOps.setGlobalState "vv:authState" None
          (StateManagerOps.setGlobalState "vvUserConfig" None
             (StateManagerOps.setGlobalState "vvUserInfo" None
                (StateManagerOps.setSecret "vv:refreshToken" None
                   (StateManagerOps.setSecret "vv:accessToken" None c)))))).

(** The revoke call of [handleDeauth], if it is made. *)
Definition revokeEvents (c : Controller) : list Event :=
  match StateManagerOps.getSecretKey "vv:accessToken" c with
  | Some token => if truthyString (Some token) then [Logout token] else []
  | None => []
  end.

(** The controller after a successful [switchGroup]. *)
Definition switched (w : World) (groupType : string)
    (groupConfig : VVGroupConfig) (targetGroup : VVGroupItem) (c : Controller)
  : Controller :=
  StateManagerOps.flushPendingState
    (appliedGroup w targetGroup
       (StateManagerOps.setGlobalState "vvGroupConfig"
          (Some (VGroupConfig (map (markDefault groupType) groupConfig))) c)).

(** The controller after steps 4 to 11 of the callback, when the user info
    [userInfo] was fetched, whatever the two optional fetches gave. *)
Definition afterLogin (w : World) (authInfo : VVAuthInfo) (userInfo : VVUserInfo)
    (c : Controller) : Controller :=
  let c := StateManagerOps.setSecret "vv:accessToken"
             (Some (accessToken authInfo)) c in
  let c := StateManagerOps.setSecret "vv:userId"
             (Some (toString (userId authInfo))) c in
  let c := StateManagerOps.setGlobalState "vvUserInfo"
             (Some (VUserInfo userInfo)) c in
  let c := match VVAuthProvider.getUserConfig (_provider w)
                   (accessToken authInfo) (userId authInfo) with
           | Normal userConfig =>
               StateManagerOps.setGlobalState "vvUserConfig"
                 (Some (VUserConfig userConfig)) c
           | Thrown _ => c
           end in
  let c := match VVAuthProvider.getGroupTokens (_provider w)
                   (accessToken authInfo) (userId authInfo) with
           | Normal groupConfig =>
               let c := StateManagerOps.setGlobalState "vvGroupConfig"
                          (Some (VGroupConfig groupConfig)) c in
               match find isDefault groupConfig with
               | Some defaultGroup =>
                   if truthyString (apiKey defaultGroup)
                   then appliedGroup w defaultGroup c
                   else c
               | None => c
               end
           | Thrown _ => c
           end in
  sessionDropped (StateManagerOps.flushPendingState c).

(** The session is valid for a callback carrying [state]. *)
Definition validSession (state : string) (c : Controller) : Prop :=
  state ≠ "" ∧
  storedSession "vv:authState" c = Some (VString state) ∧
  truthy (storedSession "vv:codeVerifier" c) = true.

(** A call of [handleAuthCallback] for [code] is not dropped. *)
Definition accepted (code : string) (s : VVAuthService) : Prop :=
  _processingAuthCallback s = false ∧ _lastProcessedCode s ≠ Some code.

(** The number of pairs named [name]. *)
Definition occurrences (name : string) (ps : list (string * string)) : nat :=
  length (filter (λ p, p.1 = name) ps).

(** The pairs with another name than the three that [createAuthRequest]
    sets. *)
Definition otherParams (ps : list (string * string)) : list (string * string) :=
  filter (λ p, p.1 ≠ "state" ∧ p.1 ≠ "code_challenge" ∧ p.1 ≠ "redirect_uri") ps.

(** The authorization URL that [createAuthRequest] builds. *)
Definition authorizationUrl (w : World) (s : VVAuthService) : URL :=
  URL_set "redirect_uri" callbackUri
    (URL_set "code_challenge" (generateCodeChallenge w (generateCodeVerifier w))
       (URL_set "state" (generateState w) (AUTH_PAGE_URL s))).

(** The three errors of the session checks, as [handleAuthCallback]
    rethrows them. *)
Definition stateNotFoundError : string :=
  "Authentication failed: Authentication state not found. This may happen if the extension was reloaded. Please try logging in again.".

Definition verifierMissingError : string :=
  "Authentication failed: Code verifier not found. Please try logging in again.".

Definition rateLimitError : string :=
  "Authentication rate limit exceeded. Please wait a moment and try logging in again.".

(** The service after a callback that failed in state [s1] of its [try]
    block, which it entered from a state with the guard free. *)
Definition failedAt (s1 : VVAuthService) (c1 : Controller) : VVAuthService :=
  with_processingAuthCallback false
    (with_trace (FlushPendingState :: trace s1)
       (with_controller (Some (sessionDropped c1)) s1)).

(** [needle] occurs in [hay]. *)
Definition occursIn (needle hay : string) : Prop :=
  ∃ pre post, hay = pre +:+ needle +:+ post.

(** The controller after [refreshGroupConfig] has stored [groupConfig]. *)
Definition refreshed (groupConfig : VVGroupConfig) (c : Controller) : Controller :=
  StateManagerOps.flushPendingState
    (StateManagerOps.setGlobalState "vvGroupConfig"
       (Some (VGroupConfig groupConfig)) c).

(** The credentials [refreshGroupConfig] needs are stored. *)
Definition credentials (token userId : string) (c : Controller) : Prop :=
  StateManagerOps.getSecretKey "vv:accessToken" c = Some token ∧ token ≠ "" ∧
  StateManagerOps.getSecretKey "vv:userId" c = Some userId ∧ userId ≠ "".

(** ** The dynamic configuration: config.ts and config-fetcher.ts *)

(** config.ts comes in two versions.  This one reads the environment. *)
Module ConfigEnv.

Definition API_BASE_URL (w : World) : string :=
  if isDev w then devBaseUrl w else "https://vvcode.top".

Definition CONFIG_ENDPOINT (w : World) : string := API_BASE_URL w +:+ "/api".

End ConfigEnv.

(** The other version of config.ts holds one fixed address. *)
Module ConfigFixed.

Definition API_BASE_URL : string := "http://vvcode.top".

Definition CONFIG_ENDPOINT : string := API_BASE_URL +:+ "/api".

End ConfigFixed.

(** config-fetcher.ts.  The request goes to [CONFIG_ENDPOINT] of whichever
    config.ts is in place; what it answers is the network's. *)
Module ConfigFetcher.

(** The two optional strings of an [anthropic] entry. *)
Record Anthropic := { apiKey : option string; baseUrl : option string }.

(** [DynamicConfigResponse]: [{ anthropic?: ... }]. *)
Record DynamicConfigResponse := { response_anthropic : option Anthropic }.

(** [ResolvedConfig]: [{ anthropic: ... }]. *)
Record ResolvedConfig := { anthropic : Anthropic }.

(** What [axios.get] resolves to: the status and the data, [None] for data
    that is not truthy. *)
Record AxiosResponse := { status : Z; data : option DynamicConfigResponse }.

(** The module's state: the variable [cachedConfig], and the number of
    requests sent so far. *)
Record State := { cachedConfig : option ResolvedConfig; requests : nat }.

(** The network: the completion of the request sent after [n] others. *)
Definition Network : Type := nat -> Completion AxiosResponse.

(** [fetchRemoteConfig()]. *)
Definition fetchRemoteConfig (net : Network) (m : State)
  : option DynamicConfigResponse * State :=
  let m' := {| cachedConfig := cachedConfig m; requests := S (requests m) |} in
  match net (requests m) with
  | Normal response =>
      if bool_decide (status response = 200%Z)
      then match data response with
           | Some d => (Some d, m')
           | None => (None, m')
           end
      else (None, m')
  | Thrown _ => (None, m')
  end.

(** [resolveConfig(remoteConfig)]: [remoteConfig?.anthropic?.apiKey] and
    [remoteConfig?.anthropic?.baseUrl]. *)
Definition resolveConfig (remoteConfig : option DynamicConfigResponse)
  : ResolvedConfig :=
  {| anthropic :=
       {| apiKey := (remoteConfig ≫= response_anthropic) ≫= apiKey;
          baseUrl := (remoteConfig ≫= response_anthropic) ≫= baseUrl |} |}.

(** [getDynamicConfig(forceRefresh)], one call at a time. *)
Definition getDynamicConfig (net : Network) (forceRefresh : bool) (m : State)
  : ResolvedConfig * State :=
  let refetch :=
    let '(remoteConfig, m1) := fetchRemoteConfig net m in
    let config := resolveConfig remoteConfig in
    (config, {| cachedConfig := Some config; requests := requests m1 |}) in
  match cachedConfig m with
  | Some config => if negb forceRefresh then (config, m) else refetch
  | None => refetch
  end.

(** [getCachedConfig()]. *)
Definition getCachedConfig (m : State) : option ResolvedConfig := cachedConfig m.

(** [clearConfigCache()]. *)
Definition clearConfigCache (m : State) : State :=
  {| cachedConfig := None; requests := requests m |}.

(** The configuration without any value. *)
Definition noConfig : ResolvedConfig :=
  {| anthropic := {| apiKey := None; baseUrl := None |} |}.

(** The request gave no usable configuration. *)
Definition failed (answer : Completion AxiosResponse) : Prop :=
  match answer with
  | Normal response => status response ≠ 200%Z ∨ data response = None
  | Thrown _ => True
  end.

End ConfigFetcher.

(** ** Further sample inputs *)

Module SampleHost.

Definition host : Host :=
  {| URL_parse := λ url, {| base := url; searchParams := [] |};
     getGroupTokensNaN := λ _, Thrown "Request failed with status code 400";
     postStateToWebview := Normal tt |}.

(** A provider that answers the exchange and the user info, and fails the
    two optional fetches. *)
Definition providerBare : VVAuthProvider.t :=
  {| VVAuthProvider.exchangeCodeForToken := λ _ _ _, Normal Sample.authInfo;
     VVAuthProvider.getUserInfo := λ _ _, Normal Sample.ann;
     VVAuthProvider.getUserConfig := λ _ _, Thrown "Network Error";
     VVAuthProvider.getGroupTokens := λ _ _, Thrown "Network Error";
     VVAuthProvider.logout := λ _, Normal tt |}.

(** A provider whose exchange is rate limited. *)
Definition providerBusy : VVAuthProvider.t :=
  {| VVAuthProvider.exchangeCodeForToken :=
       λ _ _ _, Thrown "Request failed with status code 429";
     VVAuthProvider.getUserInfo := λ _ _, Normal Sample.ann;
     VVAuthProvider.getUserConfig := λ _ _, Thrown "Network Error";
     VVAuthProvider.getGroupTokens := λ _ _, Thrown "Network Error";
     VVAuthProvider.logout := λ _, Normal tt |}.

Definition worldBare : World := Sample.worldWith ∅ "S" "V" providerBare.
Definition worldBusy : World := Sample.worldWith ∅ "S" "V" providerBusy.

Definition worldOverride : World :=
  Sample.worldWith {[ "VV_API_BASE_URL" := "https://example.test/api/v1" ]}
    "S" "V" Sample.provider.

Definition worldEmptyOverride : World :=
  Sample.worldWith {[ "VV_API_BASE_URL" := "" ]} "S" "V" Sample.provider.

(** The network is down for the first request and up afterwards. *)
Definition network : ConfigFetcher.Network :=
  λ n, match n with
       | O => Thrown "timeout of 5000ms exceeded"
       | S _ =>
           Normal {| ConfigFetcher.status := 200;
                     ConfigFetcher.data :=
                       Some {| ConfigFetcher.response_anthropic :=
                                 Some {| ConfigFetcher.apiKey := Some "key";
                                         ConfigFetcher.baseUrl := None |} |} |}
       end.

(** The extension was reloaded after a login request: the session is in
    the durable store only. *)
Definition reloadedController : Controller :=
  {| stateManager :=
       {| globalStateCache := ∅; secretsCache := ∅;
          pendingGlobalState := ∅; pendingSecrets := ∅ |};
     context :=
       {| globalState :=
            <["vv:authState" := VString "S"]>
              (<["vv:codeVerifier" := VString "V"]> ∅);
          secrets := ∅ |} |}.
Definition reloaded : VVAuthService :=
  Sample.serviceWith reloadedController false None.

Definition unfetched : ConfigFetcher.State :=
  {| ConfigFetcher.cachedConfig := None; ConfigFetcher.requests := 0 |}.

(** A configuration was cached after one request. *)
Definition fetched : ConfigFetcher.State :=
  {| ConfigFetcher.cachedConfig := Some ConfigFetcher.noConfig;
     ConfigFetcher.requests := 1 |}.

End SampleHost.

(** * Properties *)

(** ** The key-value stores *)

Lemma lookup_store {V} (key key' : string) (value : option V) (m : gmap string V) :
  store key value m !! key' = if decide (key = key') then value else m !! key'.
Proof.
  unfold store. destruct value as [v|].
  - rewrite lookup_insert. reflexivity.
  - rewrite lookup_delete. destruct (decide (key = key')); reflexivity.
Qed.

Lemma lookup_persist {V} (pending : list string) (cache durable : gmap string V)
    (key : string) :
  persist pending cache durable !! key =
  if decide (key ∈ pending) then cache !! key else durable !! key.
Proof.
  induction pending as [|k pending IH]; simpl.
  - destruct (decide (key ∈ [])) as [Hin|_]; [|reflexivity].
    inversion Hin.
  - rewrite lookup_store. destruct (decide (k = key)) as [->|Hne].
    + rewrite decide_True by left. reflexivity.
    + rewrite IH. destruct (decide (key ∈ pending)) as [Hin|Hnin].
      * rewrite decide_True by (right; exact Hin). reflexivity.
      * rewrite decide_False; [reflexivity|].
        intros Hin. apply elem_of_cons in Hin as [->|Hin]; tauto.
Qed.

(** What a flush leaves in a durable store. *)
Lemma lookup_persist_elements {V} (pending : gset string)
    (cache durable : gmap string V) (key : string) :
  persist (elements pending) cache durable !! key =
  if decide (key ∈ pending) then cache !! key else durable !! key.
Proof.
  rewrite lookup_persist.
  destruct (decide (key ∈ elements pending)) as [Hin|Hnin];
    destruct (decide (key ∈ pending)) as [Hin'|Hnin']; try reflexivity;
    rewrite elem_of_elements in *; tauto.
Qed.

Opaque store persist.

(** ** The state manager: reads after writes and flushes *)

(** Reads of concrete keys through a chain of writes and flushes: unfold
    the state manager's operations down to [store] and [persist], then
    decide the comparisons of key names and the memberships in the pending
    sets. *)
Ltac store_unfold :=
  unfold globalStateCleared, secretCleared, flushed in *;
  cbv beta iota zeta delta
    [StateManagerOps.getSecretKey StateManagerOps.getGlobalStateKey
     StateManagerOps.context_globalState_get StateManagerOps.context_secrets_get
     StateManagerOps.flushPendingState StateManagerOps.setSecret
     StateManagerOps.setGlobalState
     stateManager context globalStateCache secretsCache pendingGlobalState
     pendingSecrets globalState secrets].

(** A key written since the last flush is pending. *)
Ltac pending_solver :=
  first [ apply elem_of_union_l, elem_of_singleton_2; reflexivity
        | apply elem_of_union_r; pending_solver ].

Ltac store_step :=
  match goal with
  | |- context [persist (elements ?p) ?c ?d !! ?k] =>
      rewrite (lookup_persist_elements p c d k)
  | |- context [store ?k ?v ?m !! ?k'] =>
      rewrite (lookup_store k k' v m)
  | |- context [decide (?k = ?k')] =>
      first [ rewrite (decide_True (P := k = k')) by reflexivity
            | rewrite (decide_False (P := k = k')) by discriminate ]
  | |- context [decide (?k ∈ ?p)] =>
      first [ rewrite (decide_True (P := k ∈ p)) by pending_solver
            | rewrite (decide_False (P := k ∈ p)) by apply not_elem_of_empty ]
  end.

Ltac store_simpl := store_unfold; repeat store_step.

(** ** URLSearchParams *)

Lemma searchParams_get_set_eq name value ps :
  URLSearchParams.get name (URLSearchParams.set name value ps) = Some value.
Proof.
  induction ps as [|[n v] ps IH]; simpl.
  - rewrite decide_True; reflexivity.
  - destruct (decide (n = name)) as [->|Hne]; simpl.
    + rewrite decide_True; reflexivity.
    + rewrite decide_False by exact Hne. exact IH.
Qed.

Lemma searchParams_get_filter_ne name name' ps :
  name ≠ name' ->
  URLSearchParams.get name (filter (λ p, p.1 ≠ name') ps) =
  URLSearchParams.get name ps.
Proof.
  intros Hne. induction ps as [|[n v] ps IH]; [reflexivity|].
  rewrite filter_cons. simpl.
  destruct (decide (n ≠ name')) as [Hn|Hn]; simpl.
  - rewrite IH. reflexivity.
  - rewrite IH. rewrite decide_False; [reflexivity|].
    intros ->. apply Hn. exact Hne.
Qed.

Lemma searchParams_get_set_ne name name' value ps :
  name ≠ name' ->
  URLSearchParams.get name (URLSearchParams.set name' value ps) =
  URLSearchParams.get name ps.
Proof.
  intros Hne. induction ps as [|[n v] ps IH]; simpl.
  - rewrite decide_False by (intros Heq; apply Hne; symmetry; exact Heq).
    reflexivity.
  - destruct (decide (n = name')) as [->|Hn]; simpl.
    + rewrite !decide_False
        by (intros Heq; apply Hne; symmetry; exact Heq).
      apply searchParams_get_filter_ne. exact Hne.
    + rewrite IH. reflexivity.
Qed.

(** Runs the monadic code as far as the answers of the world are known,
    leaving the state manager's operations, the broadcast and the group
    application folded. *)
Ltac run :=
  cbv beta iota zeta delta
    [bind ret throw try_catch try_finally gets modify when call
     requireController getGlobalStateKey getSecretKey context_globalState_get
     setGlobalState setSecret flushPendingState
     with_controller with_authenticated with_subscriptions
     with_processingAuthCallback with_lastProcessedCode with_trace
     _controller _authenticated _activeAuthStatusUpdateSubscriptions
     _processingAuthCallback _lastProcessedCode AUTH_PAGE_URL
     nextSubscription trace fst snd].

(** ** Status broadcast *)

Arguments StateManagerOps.getGlobalStateKey : simpl never.
Arguments StateManagerOps.getSecretKey : simpl never.
Arguments StateManagerOps.setGlobalState : simpl never.
Arguments StateManagerOps.setSecret : simpl never.
Arguments StateManagerOps.flushPendingState : simpl never.
Arguments StateManagerOps.context_globalState_get : simpl never.

Lemma getInfo_spec s c :
  _controller s = Some c -> getInfo s = (Normal (statusOf c), s).
Proof.
  intros Hc. destruct s; simpl in Hc; subst. reflexivity.
Qed.

Lemma survivors_nil w authState subs : survivors w authState [] subs = subs.
Proof.
  unfold survivors. induction subs as [|y subs IHs]; [reflexivity|].
  rewrite filter_cons_True by (left; apply not_elem_of_nil).
  rewrite IHs. reflexivity.
Qed.

Lemma survivors_cons_kept w authState x l subs :
  responseStream w x authState ≠ Throws ->
  survivors w authState l subs = survivors w authState (x :: l) subs.
Proof.
  intros Hd. unfold survivors. apply list_filter_iff. intros y.
  rewrite not_elem_of_cons. destruct (decide (y = x)) as [->|Hy]; tauto.
Qed.

Lemma survivors_cons_thrown w authState x l subs :
  responseStream w x authState = Throws ->
  survivors w authState l (filter (λ y, y ≠ x) subs) =
  survivors w authState (x :: l) subs.
Proof.
  intros Hd. unfold survivors. rewrite list_filter_filter.
  apply list_filter_iff. intros y. rewrite not_elem_of_cons. split.
  - intros [[Hy|Hy] Hne]; tauto.
  - intros [[Hne Hy]|Hy]; [tauto|].
    split; [tauto|]. intros ->. contradiction.
Qed.

Lemma broadcastEvents_cons authState x l (t : list Event) :
  (broadcastEvents authState (x :: l) ++ t)%list =
  (broadcastEvents authState l ++ ResponseStream x authState :: t)%list.
Proof. unfold broadcastEvents. cbn [map rev]. rewrite <- app_assoc. reflexivity. Qed.

Arguments survivors : simpl never.
Arguments broadcastEvents : simpl never.

(** The loop of [sendAuthStatusUpdate] never throws; it records one
    delivery attempt per element and deletes the subscriptions whose
    stream throws. *)
Lemma broadcast_loop w authState l : ∀ s,
  forEach l (λ subscription,
    outcome <- call (ResponseStream subscription authState)
                    (Normal (responseStream w subscription authState)) ;;
    match outcome with
    | Delivered => ret tt
    | Rejects => ret tt
    | Throws => subscriptions_delete subscription
    end) s =
  (Normal tt,
   with_trace (broadcastEvents authState l ++ trace s)
     (with_subscriptions
        (survivors w authState l (_activeAuthStatusUpdateSubscriptions s))
        (nextSubscription s) s)).
Proof.
  induction l as [|x l IH]; intros [c a subs p lc url n t].
  - unfold forEach, ret. rewrite survivors_nil. reflexivity.
  - cbn [forEach]. unfold bind at 1. unfold bind at 1. unfold call at 1.
    destruct (responseStream w x authState) eqn:Hout; cbn;
      rewrite IH; cbn; rewrite broadcastEvents_cons.
    + rewrite <- (survivors_cons_kept w authState x l subs)
        by (rewrite Hout; discriminate).
      reflexivity.
    + rewrite <- (survivors_cons_kept w authState x l subs)
        by (rewrite Hout; discriminate).
      reflexivity.
    + rewrite survivors_cons_thrown by exact Hout.
      reflexivity.
Qed.

Lemma filter_iff_in {A} (P1 P2 : A -> Prop)
    `{!∀ x, Decision (P1 x), !∀ x, Decision (P2 x)} (l : list A) :
  (∀ x, x ∈ l -> P1 x ↔ P2 x) -> filter P1 l = filter P2 l.
Proof.
  induction l as [|a l IH]; intros Hiff; [reflexivity|].
  rewrite !filter_cons.
  rewrite IH by (intros x Hx; apply Hiff; right; exact Hx).
  apply decide_ext. apply Hiff. left.
Qed.

Lemma sendAuthStatusUpdate_spec w s c :
  _controller s = Some c ->
  sendAuthStatusUpdate w s =
  (Normal tt,
   with_trace
     (broadcastEvents (statusOf c) (_activeAuthStatusUpdateSubscriptions s)
        ++ trace s)
     (with_subscriptions
        (filter (λ x, responseStream w x (statusOf c) ≠ Throws)
                (_activeAuthStatusUpdateSubscriptions s))
        (nextSubscription s) s)).
Proof.
  intros Hc. unfold sendAuthStatusUpdate. unfold bind at 1.
  rewrite (getInfo_spec s c Hc). unfold bind at 1, gets at 1.
  rewrite broadcast_loop. f_equal. f_equal. f_equal.
  unfold survivors. apply filter_iff_in. intros x Hx. tauto.
Qed.

Arguments sendAuthStatusUpdate : simpl never.


(** ** Properties kept by every step *)

Section Preserves.
Context (P : VVAuthService -> Prop).

Lemma preserves_ret {A} (a : A) : preserves P (ret a).
Proof. intros s H. exact H. Qed.

Lemma preserves_throw {A} msg : preserves P (@throw A msg).
Proof. intros s H. exact H. Qed.

Lemma preserves_gets {A} (f : VVAuthService -> A) : preserves P (gets f).
Proof. intros s H. exact H. Qed.

Lemma preserves_requireController : preserves P requireController.
Proof. intros s H. unfold requireController. destruct (_controller s); exact H. Qed.

Lemma preserves_bind {A B} (m : Eff A) (k : A -> Eff B) :
  preserves P m -> (∀ a, preserves P (k a)) -> preserves P (bind m k).
Proof.
  intros Hm Hk s H. unfold bind. specialize (Hm s H).
  destruct (m s) as [[a|e] s1]; simpl in *; [apply Hk; exact Hm|exact Hm].
Qed.

Lemma preserves_try_catch {A} (m : Eff A) (h : string -> Eff A) :
  preserves P m -> (∀ e, preserves P (h e)) -> preserves P (try_catch m h).
Proof.
  intros Hm Hh s H. unfold try_catch. specialize (Hm s H).
  destruct (m s) as [[a|e] s1]; simpl in *; [exact Hm|apply Hh; exact Hm].
Qed.

Lemma preserves_try_finally {A} (m : Eff A) (f : Eff unit) :
  preserves P m -> preserves P f -> preserves P (try_finally m f).
Proof.
  intros Hm Hf s H. unfold try_finally. specialize (Hm s H).
  destruct (m s) as [r s1]; simpl in *. specialize (Hf s1 Hm).
  destruct (f s1) as [[[]|e] s2]; exact Hf.
Qed.

Lemma preserves_when (b : bool) (m : Eff unit) :
  preserves P m -> preserves P (when b m).
Proof. intros Hm. destruct b; [exact Hm|apply preserves_ret]. Qed.

Lemma preserves_modify (f : VVAuthService -> VVAuthService) :
  (∀ s, P s -> P (f s)) -> preserves P (modify f).
Proof. intros Hf s H. apply Hf. exact H. Qed.

Lemma preserves_call {A} (e : Event) (answer : Completion A) :
  (∀ s, P s -> P (with_trace (e :: trace s) s)) -> preserves P (call e answer).
Proof. intros He s H. apply He. exact H. Qed.

Lemma preserves_forEach {A} (l : list A) (body : A -> Eff unit) :
  (∀ x, preserves P (body x)) -> preserves P (forEach l body).
Proof.
  intros Hb. induction l as [|x l IH]; simpl.
  - apply preserves_ret.
  - apply preserves_bind; [apply Hb|intros _; exact IH].
Qed.

End Preserves.

(** Walks the code of a method: every primitive keeps [P] provided the
    field updates and the recorded calls do, which is left to [side]. *)
Ltac preserves_walk side :=
  repeat first
    [ apply preserves_ret
    | apply preserves_throw
    | apply preserves_gets
    | apply preserves_requireController
    | apply preserves_bind; [|intros ?]
    | apply preserves_try_catch; [|intros ?]
    | apply preserves_try_finally
    | apply preserves_when
    | apply preserves_forEach; intros ?
    | apply preserves_modify; side
    | apply preserves_call; side
    | match goal with
      | |- preserves _ (match ?x with _ => _ end) => destruct x
      end
    | progress unfold getGlobalStateKey, getSecretKey, context_globalState_get,
        setGlobalState, setSecret, flushPendingState, getInfo,
        sendAuthStatusUpdate, subscriptions_delete, applyGroupConfig ].

Ltac side_bound :=
  let s := fresh "s" in let H := fresh "H" in
  intros s H; destruct s; cbn in *;
  first [ exact H | eexists; reflexivity ].

Lemma handleAuthCallback_try_bound w code state :
  preserves bound (handleAuthCallback_try w code state).
Proof.
  unfold handleAuthCallback_try, handleAuthCallback_login.
  preserves_walk side_bound.
Qed.

(** ** The callback handler, block by block *)

Lemma applyGroupConfig_spec w group s c :
  _controller s = Some c ->
  applyGroupConfig w group s =
  (Normal tt,
   with_trace (FlushPendingState :: trace s)
     (with_controller (Some (appliedGroup w group c)) s)).
Proof.
  intros Hc. destruct s as [c0 a subs p lc url n t]. simpl in Hc. subst c0.
  unfold applyGroupConfig, appliedGroup. cbn.
  destruct (truthyString (if isDev w then Some (devBaseUrl w) else apiBaseUrl group));
    reflexivity.
Qed.

Arguments applyGroupConfig : simpl never.

(** Steps 1 to 3: the three checks, then the exchange. *)
Lemma handleAuthCallback_try_unfold w code state s c :
  _controller s = Some c ->
  handleAuthCallback_try w code state s =
  if negb (truthy (storedSession "vv:authState" c))
  then (Thrown "Authentication state not found. This may happen if the extension was reloaded. Please try logging in again.", s)
  else if negb (bool_decide (Some (VString state) = storedSession "vv:authState" c))
  then (Thrown "Invalid state parameter - possible CSRF attack", s)
  else if negb (truthy (storedSession "vv:codeVerifier" c))
  then (Thrown "Code verifier not found. Please try logging in again.", s)
  else
    (authInfo <- call (ExchangeCodeForToken code
                         (storedSession "vv:codeVerifier" c) state)
                      (VVAuthProvider.exchangeCodeForToken (_provider w) code
                         (storedSession "vv:codeVerifier" c) state) ;;
     handleAuthCallback_login w code authInfo) s.
Proof.
  intros Hc. destruct s as [c0 a subs p lc url n t]. simpl in Hc. subst c0.
  unfold handleAuthCallback_try, storedSession. cbn.
  destruct (truthy (StateManagerOps.getGlobalStateKey "vv:authState" c)) eqn:H1;
    cbn.
  - rewrite H1. cbn.
    destruct (bool_decide (Some (VString state) =
                StateManagerOps.getGlobalStateKey "vv:authState" c)); cbn;
      [|reflexivity].
    destruct (truthy (StateManagerOps.getGlobalStateKey "vv:codeVerifier" c))
      eqn:H2; cbn.
    + rewrite H2. reflexivity.
    + destruct (truthy (StateManagerOps.context_globalState_get "vv:codeVerifier" c));
        reflexivity.
  - destruct (truthy (StateManagerOps.context_globalState_get "vv:authState" c));
      cbn; [|reflexivity].
    destruct (bool_decide (Some (VString state) =
                StateManagerOps.context_globalState_get "vv:authState" c)); cbn;
      [|reflexivity].
    destruct (truthy (StateManagerOps.getGlobalStateKey "vv:codeVerifier" c))
      eqn:H2; cbn.
    + rewrite H2. reflexivity.
    + destruct (truthy (StateManagerOps.context_globalState_get "vv:codeVerifier" c));
        reflexivity.
Qed.

Arguments handleAuthCallback_try : simpl never.
Arguments handleAuthCallback_login : simpl never.

(** The call is dropped while another one is in flight. *)
Lemma handleAuthCallback_processing w code state s c :
  _controller s = Some c ->
  _processingAuthCallback s = true ->
  handleAuthCallback w code state s = (Normal tt, s).
Proof.
  intros Hc Hp. destruct s. simpl in *. subst. reflexivity.
Qed.

(** The call is dropped for the code processed last. *)
Lemma handleAuthCallback_lastProcessed w code state s c :
  _controller s = Some c ->
  _lastProcessedCode s = Some code ->
  handleAuthCallback w code state s = (Normal tt, s).
Proof.
  intros Hc Hl. destruct s as [c0 a subs [] lc url n t]; simpl in *; subst.
  - reflexivity.
  - unfold handleAuthCallback. cbn.
    rewrite bool_decide_true by reflexivity. reflexivity.
Qed.

(** A call that is not dropped runs the [try] block with the guard set;
    a normal completion releases the guard, and a thrown error goes
    through the [catch] block first. *)
Lemma handleAuthCallback_run w code state s c :
  _controller s = Some c ->
  _processingAuthCallback s = false ->
  _lastProcessedCode s ≠ Some code ->
  handleAuthCallback w code state s =
  match handleAuthCallback_try w code state
          (with_processingAuthCallback true s) with
  | (Normal _, s1) => (Normal tt, with_processingAuthCallback false s1)
  | (Thrown e, s1) =>
      match _controller s1 with
      | Some c1 =>
          (Thrown (rethrownMessage e),
           with_processingAuthCallback false
             (with_trace (FlushPendingState :: trace s1)
                (with_controller (Some (sessionDropped c1)) s1)))
      | None =>
          (Thrown "Controller has not been initialized",
           with_processingAuthCallback false s1)
      end
  end.
Proof.
  intros Hc Hp Hl. destruct s as [c0 a subs p lc url n t]; simpl in *; subst.
  unfold handleAuthCallback. cbn.
  rewrite bool_decide_false by exact Hl. cbn.
  unfold try_finally, try_catch.
  destruct (handleAuthCallback_try w code state _) as [[[]|e] s1]; cbn.
  - reflexivity.
  - destruct s1 as [[c1|] a1 subs1 p1 lc1 url1 n1 t1]; reflexivity.
Qed.

(** ** C1: a state that does not match *)

(** C1.  When a call that is not dropped finds a session whose recorded
    state differs from the [state] argument, it throws the CSRF error
    (wrapped by the handler's [catch] block), makes no provider call, and
    leaves every secret as it was: the cached secrets are unchanged, and
    the durable ones change only by the flush of writes that were already
    pending before the call. *)
Theorem handleAuthCallback_csrf_mismatch w code state s c :
  _controller s = Some c ->
  _processingAuthCallback s = false ->
  _lastProcessedCode s ≠ Some code ->
  truthy (storedSession "vv:authState" c) = true ->
  storedSession "vv:authState" c ≠ Some (VString state) ->
  ∃ s' c',
    handleAuthCallback w code state s =
      (Thrown "Authentication failed: Invalid state parameter - possible CSRF attack",
       s') ∧
    _controller s' = Some c' ∧
    (∀ key, StateManagerOps.getSecretKey key c' =
            StateManagerOps.getSecretKey key c) ∧
    (∀ key, StateManagerOps.context_secrets_get key c' =
            if decide (key ∈ pendingSecrets (stateManager c))
            then StateManagerOps.getSecretKey key c
            else StateManagerOps.context_secrets_get key c) ∧
    trace s' = FlushPendingState :: trace s.
Proof.
  intros Hc Hp Hl Htruthy Hne.
  rewrite (handleAuthCallback_run w code state s c Hc Hp Hl).
  destruct s as [c0 a subs p lc url n t]; simpl in *; subst.
  cbn [with_processingAuthCallback].
  erewrite handleAuthCallback_try_unfold by reflexivity.
  rewrite Htruthy. cbn [negb].
  rewrite bool_decide_false by congruence. cbn.
  do 2 eexists. split; [reflexivity|]. split; [reflexivity|].
  split; [|split]; [intros key..|reflexivity].
  - reflexivity.
  - unfold sessionDropped. store_simpl. reflexivity.
Qed.

(** ** C3: cleanup after a failure *)

Lemma processingAuthCallback_with_false s :
  _processingAuthCallback (with_processingAuthCallback false s) = false.
Proof. destruct s. reflexivity. Qed.

Lemma handleAuthCallback_try_bound_at w code state s c :
  _controller s = Some c ->
  ∃ c1, _controller
          (handleAuthCallback_try w code state
             (with_processingAuthCallback true s)).2 = Some c1.
Proof.
  intros Hc. apply (handleAuthCallback_try_bound w code state).
  destruct s; simpl in *; subst. eexists; reflexivity.
Qed.

(** C3.  For a call that enters with the guard free, the guard is free
    again when the call completes, normally or not.  If moreover the code
    is not the one processed last and the [try] block (steps 1 to 9 and the
    rest of the handshake) throws an error with message [errorMessage],
    then the two transient session keys are deleted from the cache and,
    by a flush, from the durable store before the error is rethrown; the
    error thrown is the rate-limit message when [errorMessage] contains
    [Too Many Requests] or [429], and [Authentication failed: ] followed by
    [errorMessage] otherwise. *)
Theorem handleAuthCallback_failure_cleanup w code state s c :
  _controller s = Some c ->
  _processingAuthCallback s = false ->
  _processingAuthCallback (handleAuthCallback w code state s).2 = false ∧
  (_lastProcessedCode s ≠ Some code ->
   ∀ errorMessage s1,
     handleAuthCallback_try w code state (with_processingAuthCallback true s) =
       (Thrown errorMessage, s1) ->
     ∃ s' c',
       handleAuthCallback w code state s =
         (Thrown (rethrownMessage errorMessage), s') ∧
       _controller s' = Some c' ∧
       globalStateCleared "vv:authState" c' ∧
       globalStateCleared "vv:codeVerifier" c' ∧
       flushed c' ∧
       trace s' = FlushPendingState :: trace s1 ∧
       _processingAuthCallback s' = false ∧
       rethrownMessage errorMessage =
         if includes errorMessage "Too Many Requests" ||
            includes errorMessage "429"
         then "Authentication rate limit exceeded. Please wait a moment and try logging in again."
         else "Authentication failed: " +:+ errorMessage).
Proof.
  intros Hc Hp. split.
  - destruct (decide (_lastProcessedCode s = Some code)) as [Hl|Hl].
    + rewrite (handleAuthCallback_lastProcessed w code state s c Hc Hl).
      exact Hp.
    + rewrite (handleAuthCallback_run w code state s c Hc Hp Hl).
      destruct (handleAuthCallback_try w code state _) as [[[]|e] s1]; cbn.
      * apply processingAuthCallback_with_false.
      * destruct (_controller s1); cbn; apply processingAuthCallback_with_false.
  - intros Hl errorMessage s1 Htry.
    rewrite (handleAuthCallback_run w code state s c Hc Hp Hl).
    destruct (handleAuthCallback_try_bound_at w code state s c Hc) as [c1 Hc1].
    rewrite Htry in *. cbn in Hc1. rewrite Hc1.
    destruct s1 as [c0 a1 subs1 p1 lc1 url1 n1 t1]. cbn in *.
    do 2 eexists. split; [reflexivity|]. split; [reflexivity|].
    unfold sessionDropped.
    repeat match goal with |- _ ∧ _ => split end; try reflexivity;
      unfold globalStateCleared; try split; store_simpl; reflexivity.
Qed.

(** ** C2: duplicate deliveries *)

Lemma bind_Normal_inv {A B} (m : Eff A) (k : A -> Eff B) s b s' :
  bind m k s = (Normal b, s') ->
  ∃ a s1, m s = (Normal a, s1) ∧ k a s1 = (Normal b, s').
Proof.
  unfold bind. destruct (m s) as [[a|e] s1]; intros H.
  - exists a, s1. split; [reflexivity|exact H].
  - discriminate H.
Qed.

Ltac side_exchanges :=
  let s := fresh "s" in let H := fresh "H" in
  intros s H; destruct s; cbn in *; exact H.

(** After the exchange itself, the handshake makes no further exchange. *)
Lemma handleAuthCallback_login_exchanges w code authInfo n :
  preserves (λ s, exchanges (trace s) = n) (handleAuthCallback_login w code authInfo).
Proof. unfold handleAuthCallback_login. preserves_walk side_exchanges. Qed.

Lemma exchanges_with_processingAuthCallback b s :
  exchanges (trace (with_processingAuthCallback b s)) = exchanges (trace s).
Proof. destruct s. reflexivity. Qed.

(** The [try] block makes at most one exchange. *)
Lemma handleAuthCallback_try_exchanges w code state :
  exchangesAtMost 1 (handleAuthCallback_try w code state).
Proof.
  intros s. destruct (_controller s) as [c|] eqn:Hc.
  - rewrite (handleAuthCallback_try_unfold w code state s c Hc).
    repeat match goal with
           | |- context [if ?b then _ else _] => destruct b
           end; cbn [snd]; try lia.
    unfold bind, call.
    destruct (VVAuthProvider.exchangeCodeForToken _ _ _ _) as [authInfo|e].
    + rewrite (handleAuthCallback_login_exchanges w code authInfo
                 (S (exchanges (trace s)))). 1: lia.
      destruct s; reflexivity.
    + destruct s; cbn. lia.
  - destruct s; simpl in Hc; subst. unfold handleAuthCallback_try. cbn. lia.
Qed.

Lemma lastProcessedCode_with x s :
  _lastProcessedCode (with_lastProcessedCode x s) = x.
Proof. destruct s. reflexivity. Qed.

(** A handshake that completes normally has recorded its code. *)
Lemma handleAuthCallback_login_records w code authInfo s s' :
  handleAuthCallback_login w code authInfo s = (Normal tt, s') ->
  _lastProcessedCode s' = Some code.
Proof.
  unfold handleAuthCallback_login. intros H.
  do 10 (apply bind_Normal_inv in H as (? & ? & _ & H)).
  apply bind_Normal_inv in H as (? & s1 & Hset & H).
  assert (Hs1 : _lastProcessedCode s1 = Some code).
  { unfold modify in Hset. injection Hset as _ <-.
    apply lastProcessedCode_with. }
  assert (Hkeep : preserves (λ s, _lastProcessedCode s = Some code)
            (modify (with_authenticated true) ;; sendAuthStatusUpdate w)).
  { preserves_walk side_exchanges. }
  specialize (Hkeep s1 Hs1). rewrite H in Hkeep. exact Hkeep.
Qed.

Lemma handleAuthCallback_try_records w code state s c s' :
  _controller s = Some c ->
  handleAuthCallback_try w code state s = (Normal tt, s') ->
  _lastProcessedCode s' = Some code.
Proof.
  intros Hc. rewrite (handleAuthCallback_try_unfold w code state s c Hc).
  repeat match goal with
         | |- context [if ?b then _ else _] => destruct b
         end; try discriminate.
  intros H. apply bind_Normal_inv in H as (authInfo & s1 & _ & H).
  exact (handleAuthCallback_login_records w code authInfo s1 s' H).
Qed.

Lemma storedSession_sessionDropped c :
  storedSession "vv:authState" (sessionDropped c) = None.
Proof.
  unfold storedSession, sessionDropped.
  assert (H1 : StateManagerOps.getGlobalStateKey "vv:authState"
                 (StateManagerOps.flushPendingState
                    (StateManagerOps.setGlobalState "vv:codeVerifier" None
                       (StateManagerOps.setGlobalState "vv:authState" None c)))
               = None) by (store_simpl; reflexivity).
  rewrite H1. cbn [truthy negb]. store_simpl. reflexivity.
Qed.

(** Once the [catch] block has dropped the session, the next call fails
    before the exchange. *)
Lemma handleAuthCallback_after_failure w code state s c :
  _controller s = Some (sessionDropped c) ->
  exchanges (trace (handleAuthCallback w code state s).2) = exchanges (trace s).
Proof.
  intros Hc.
  destruct (_processingAuthCallback s) eqn:Hp.
  { rewrite (handleAuthCallback_processing w code state s _ Hc Hp). reflexivity. }
  destruct (decide (_lastProcessedCode s = Some code)) as [Hl|Hl].
  { rewrite (handleAuthCallback_lastProcessed w code state s _ Hc Hl). reflexivity. }
  rewrite (handleAuthCallback_run w code state s _ Hc Hp Hl).
  destruct s as [c0 a subs p lc url n t]; simpl in *; subst.
  erewrite handleAuthCallback_try_unfold by reflexivity.
  rewrite storedSession_sessionDropped. cbn. reflexivity.
Qed.

(** C2.  A call that arrives while another one is in flight, or with the
    code processed last, returns normally and changes nothing.  A second
    delivery after a call that returned normally is such a call.  And two
    deliveries of the same code in a row, whatever the provider answers
    and whatever [state] they carry, make at most one token exchange. *)
Theorem handleAuthCallback_idempotent w1 w2 code state1 state2 s c :
  _controller s = Some c ->
  (_processingAuthCallback s = true ∨ _lastProcessedCode s = Some code ->
   handleAuthCallback w1 code state1 s = (Normal tt, s)) ∧
  (∀ s1, handleAuthCallback w1 code state1 s = (Normal tt, s1) ->
         handleAuthCallback w2 code state2 s1 = (Normal tt, s1)) ∧
  (exchanges
     (trace (handleAuthCallback w2 code state2
               (handleAuthCallback w1 code state1 s).2).2)
   ≤ 1 + exchanges (trace s))%nat.
Proof.
  intros Hc.
  assert (Hdrop : _processingAuthCallback s = true ∨
                  _lastProcessedCode s = Some code ->
                  handleAuthCallback w1 code state1 s = (Normal tt, s)).
  { intros [Hp|Hl].
    - exact (handleAuthCallback_processing w1 code state1 s c Hc Hp).
    - exact (handleAuthCallback_lastProcessed w1 code state1 s c Hc Hl). }
  split; [exact Hdrop|].
  destruct (_processingAuthCallback s) eqn:Hp.
  { rewrite (Hdrop (or_introl eq_refl)). split.
    - intros s1 [= <-].
      exact (handleAuthCallback_processing w2 code state2 s c Hc Hp).
    - cbn [snd].
      rewrite (handleAuthCallback_processing w2 code state2 s c Hc Hp).
      cbn [snd]. lia. }
  destruct (decide (_lastProcessedCode s = Some code)) as [Hl|Hl].
  { rewrite (Hdrop (or_intror Hl)). split.
    - intros s1 [= <-].
      exact (handleAuthCallback_lastProcessed w2 code state2 s c Hc Hl).
    - cbn [snd].
      rewrite (handleAuthCallback_lastProcessed w2 code state2 s c Hc Hl).
      cbn [snd]. lia. }
  rewrite (handleAuthCallback_run w1 code state1 s c Hc Hp Hl).
  pose proof (handleAuthCallback_try_exchanges w1 code state1
                (with_processingAuthCallback true s)) as Hmost.
  rewrite exchanges_with_processingAuthCallback in Hmost.
  destruct (handleAuthCallback_try_bound_at w1 code state1 s c Hc) as [c1 Hc1].
  destruct (handleAuthCallback_try w1 code state1
              (with_processingAuthCallback true s)) as [[[]|e] st] eqn:Htry;
    cbn [snd] in *.
  - assert (Hrec : _lastProcessedCode st = Some code).
    { apply (handleAuthCallback_try_records w1 code state1
               (with_processingAuthCallback true s) c st); [|exact Htry].
      destruct s; simpl in *; subst; reflexivity. }
    assert (Hnoop : handleAuthCallback w2 code state2
                      (with_processingAuthCallback false st) =
                    (Normal tt, with_processingAuthCallback false st)).
    { apply (handleAuthCallback_lastProcessed w2 code state2 _ c1);
        destruct st; simpl in *; subst; reflexivity. }
    split.
    + intros s1 [= <-]. exact Hnoop.
    + rewrite Hnoop. cbn [snd].
      rewrite exchanges_with_processingAuthCallback. exact Hmost.
  - rewrite Hc1. split; [intros s1 [=]|]. cbn [snd].
    rewrite (handleAuthCallback_after_failure w2 code state2 _ c1)
      by (destruct st; reflexivity).
    destruct st; cbn in *. exact Hmost.
Qed.

(** ** C10: a failure after the exchange *)


Lemma truthy_VString state : state ≠ "" -> truthy (Some (VString state)) = true.
Proof.
  intros Hne. cbn. rewrite bool_decide_false by exact Hne. reflexivity.
Qed.


(** ** C5 and C6: switching the group *)

Lemma find_none_iff {A} (f : A -> bool) (l : list A) :
  find f l = None ↔ ∀ x, x ∈ l -> f x = false.
Proof.
  induction l as [|y l IH]; simpl.
  - split; [intros _ x Hx; inversion Hx|reflexivity].
  - destruct (f y) eqn:Hy.
    + split; [discriminate|]. intros H. specialize (H y (list_elem_of_here _ _)).
      congruence.
    + rewrite IH. split.
      * intros H x Hx. apply elem_of_cons in Hx as [->|Hx]; auto.
      * intros H x Hx. apply H. right. exact Hx.
Qed.

Lemma find_some_elem {A} (f : A -> bool) (l : list A) x :
  find f l = Some x -> x ∈ l ∧ f x = true.
Proof.
  induction l as [|y l IH]; simpl; [discriminate|].
  destruct (f y) eqn:Hy.
  - intros [= ->]. split; [left|exact Hy].
  - intros H. destruct (IH H) as [Hin Hf]. split; [right; exact Hin|exact Hf].
Qed.

(** C5.  With a stored group configuration: when no item has the requested
    type, [switchGroup] throws [Group "<type>" not found]; when the item
    that the lookup selects has no API key, it throws the [has no API key
    configured] error; in both cases the service is left exactly as it
    was, so the stored configuration, the [apiKey] secret, the two model
    ids and the base URL are unchanged and nothing is sent. *)
Theorem switchGroup_rejects w groupType s c groupConfig :
  _controller s = Some c ->
  StateManagerOps.getGlobalStateKey "vvGroupConfig" c =
    Some (VGroupConfig groupConfig) ->
  ((∀ g, g ∈ groupConfig -> type g ≠ groupType) ->
   switchGroup w groupType s =
     (Thrown ("Group " +:+ dquote +:+ groupType +:+ dquote +:+ " not found"),
      s)) ∧
  (∀ targetGroup,
     find (λ g, bool_decide (type g = groupType)) groupConfig = Some targetGroup ->
     truthyString (apiKey targetGroup) = false ->
     switchGroup w groupType s =
       (Thrown ("Group " +:+ dquote +:+ groupType +:+ dquote +:+
                " has no API key configured. Please configure it first."),
        s)).
Proof.
  intros Hc Hgc. destruct s as [c0 a subs p lc url n t]; simpl in *; subst.
  split.
  - intros Hnone.
    assert (Hfind : find (λ g, bool_decide (type g = groupType)) groupConfig = None).
    { apply find_none_iff. intros g Hg. apply bool_decide_eq_false, Hnone, Hg. }
    unfold switchGroup. cbn. rewrite Hgc. cbn. rewrite Hfind. reflexivity.
  - intros targetGroup Hfind Hkey.
    unfold switchGroup. cbn. rewrite Hgc. cbn. rewrite Hfind, Hkey. reflexivity.
Qed.

Lemma devBaseUrl_truthy w : truthyString (Some (devBaseUrl w)) = true.
Proof.
  unfold devBaseUrl. destruct (process_env w !! "DEV_BASE_URL") as [url|].
  - destruct (truthyString (Some url)) eqn:H; [exact H|reflexivity].
  - reflexivity.
Qed.

Lemma NoDup_fmap_inj {A B} (f : A -> B) (l : list A) x y :
  NoDup (map f l) -> x ∈ l -> y ∈ l -> f x = f y -> x = y.
Proof.
  induction l as [|z l IH]; simpl; intros Hnd Hx Hy Hf; [inversion Hx|].
  apply NoDup_cons in Hnd as [Hz Hnd].
  apply elem_of_cons in Hx as [->|Hx]; apply elem_of_cons in Hy as [->|Hy].
  - reflexivity.
  - exfalso. apply Hz. rewrite Hf. apply (list_elem_of_fmap_2 f). exact Hy.
  - exfalso. apply Hz. rewrite <- Hf. apply (list_elem_of_fmap_2 f). exact Hx.
  - apply IH; assumption.
Qed.

(** C6, as the code has it.  When the lookup selects an item with an API
    key, [switchGroup] returns normally and the stored configuration, in
    the cache and durably, is the old one with [isDefault] recomputed:
    true for every item of the requested type and false for the others, so
    exactly the selected item is the default when the types in the
    configuration are distinct.  The selected item's API key becomes the
    [apiKey] secret and its model id both model selections; the base URL
    becomes the development URL in development mode, and otherwise the
    item's own URL when it has one (it is left alone when it has none).
    Everything is flushed, and the status is sent to every subscriber. *)
Theorem switchGroup_applies w groupType s c groupConfig targetGroup :
  _controller s = Some c ->
  StateManagerOps.getGlobalStateKey "vvGroupConfig" c =
    Some (VGroupConfig groupConfig) ->
  find (λ g, bool_decide (type g = groupType)) groupConfig = Some targetGroup ->
  truthyString (apiKey targetGroup) = true ->
  ∃ s' c',
    switchGroup w groupType s = (Normal tt, s') ∧
    _controller s' = Some c' ∧
    StateManagerOps.getGlobalStateKey "vvGroupConfig" c' =
      Some (VGroupConfig (map (markDefault groupType) groupConfig)) ∧
    StateManagerOps.context_globalState_get "vvGroupConfig" c' =
      Some (VGroupConfig (map (markDefault groupType) groupConfig)) ∧
    (∀ g, isDefault (markDefault groupType g) = true ↔ type g = groupType) ∧
    (NoDup (map type groupConfig) ->
     ∀ g, g ∈ groupConfig ->
          isDefault (markDefault groupType g) = true ↔ g = targetGroup) ∧
    StateManagerOps.getSecretKey "apiKey" c' = apiKey targetGroup ∧
    StateManagerOps.context_secrets_get "apiKey" c' = apiKey targetGroup ∧
    StateManagerOps.getGlobalStateKey "planModeApiModelId" c' =
      Some (VString (defaultModelId targetGroup)) ∧
    StateManagerOps.context_globalState_get "planModeApiModelId" c' =
      Some (VString (defaultModelId targetGroup)) ∧
    StateManagerOps.getGlobalStateKey "actModeApiModelId" c' =
      Some (VString (defaultModelId targetGroup)) ∧
    StateManagerOps.context_globalState_get "actModeApiModelId" c' =
      Some (VString (defaultModelId targetGroup)) ∧
    StateManagerOps.getGlobalStateKey "anthropicBaseUrl" c' =
      (if isDev w then Some (VString (devBaseUrl w))
       else if truthyString (apiBaseUrl targetGroup)
            then VString <$> apiBaseUrl targetGroup
            else StateManagerOps.getGlobalStateKey "anthropicBaseUrl" c) ∧
    flushed c' ∧
    trace s' =
      (broadcastEvents (statusOf c) (_activeAuthStatusUpdateSubscriptions s)
       ++ FlushPendingState :: FlushPendingState :: trace s)%list.
Proof.
  intros Hc Hgc Hfind Hkey.
  destruct s as [c0 a subs p lc url n t]; simpl in *; subst.
  unfold switchGroup. cbn. rewrite Hgc. cbn. rewrite Hfind, Hkey. cbn.
  unfold bind at 1. erewrite applyGroupConfig_spec by reflexivity. cbn.
  erewrite sendAuthStatusUpdate_spec by reflexivity. cbn.
  set (c' := StateManagerOps.flushPendingState _).
  assert (Hstatus : statusOf c' = statusOf c).
  { unfold statusOf.
    assert (Hu : StateManagerOps.getGlobalStateKey "vvUserInfo" c' =
                 StateManagerOps.getGlobalStateKey "vvUserInfo" c).
    { subst c'. unfold appliedGroup. cbv zeta.
      destruct (truthyString (if isDev w then _ else _)); store_simpl; reflexivity. }
    rewrite Hu. reflexivity. }
  rewrite Hstatus.
  do 2 eexists. split; [reflexivity|]. split; [reflexivity|].
  subst c'. unfold appliedGroup. cbv zeta.
  assert (Hbase : truthyString (if isDev w then Some (devBaseUrl w)
                                else apiBaseUrl targetGroup) =
                  if isDev w then true else truthyString (apiBaseUrl targetGroup)).
  { destruct (isDev w); [apply devBaseUrl_truthy|reflexivity]. }
  rewrite Hbase. clear Hbase Hstatus.
  repeat match goal with |- _ ∧ _ => split end.
  3: { intros g. cbn. apply bool_decide_eq_true. }
  3: { intros Hnd g Hg. cbn. rewrite bool_decide_eq_true.
       apply find_some_elem in Hfind as [Hin Htype].
       apply bool_decide_eq_true in Htype. split.
       - intros Heq.
         apply (NoDup_fmap_inj type groupConfig g targetGroup Hnd Hg Hin).
         congruence.
       - intros ->. exact Htype. }
  11: reflexivity.
  all: destruct (isDev w);
    [|destruct (truthyString (apiBaseUrl targetGroup)) eqn:Hb];
    try (unfold flushed; split); store_simpl; reflexivity.
Qed.

(** ** C4: the default group after a successful callback *)

Lemma handleAuthCallback_login_success w code authInfo userInfo groupConfig s c :
  _controller s = Some c ->
  VVAuthProvider.getUserInfo (_provider w) (accessToken authInfo)
    (userId authInfo) = Normal userInfo ->
  VVAuthProvider.getGroupTokens (_provider w) (accessToken authInfo)
    (userId authInfo) = Normal groupConfig ->
  ∃ s',
    handleAuthCallback_login w code authInfo s = (Normal tt, s') ∧
    _controller s' = Some (loggedIn w authInfo userInfo groupConfig c).
Proof.
  intros Hc Hui Hgc. destruct s as [c0 a subs p lc url n t]; simpl in *; subst.
  unfold handleAuthCallback_login, loggedIn. cbv zeta. rewrite Hui, Hgc.
  destruct (VVAuthProvider.getUserConfig _ _ _) as [userConfig|e]; run;
    (destruct (find isDefault groupConfig) as [defaultGroup|]; run;
     [destruct (truthyString (apiKey defaultGroup)); run|]).
  all: try (erewrite applyGroupConfig_spec by reflexivity; run).
  all: erewrite sendAuthStatusUpdate_spec by reflexivity; run.
  all: eexists; split; reflexivity.
Qed.

Lemma loggedIn_vvGroupConfig w authInfo userInfo groupConfig c :
  StateManagerOps.getGlobalStateKey "vvGroupConfig"
    (loggedIn w authInfo userInfo groupConfig c) =
    Some (VGroupConfig groupConfig) ∧
  StateManagerOps.context_globalState_get "vvGroupConfig"
    (loggedIn w authInfo userInfo groupConfig c) =
    Some (VGroupConfig groupConfig).
Proof.
  unfold loggedIn, sessionDropped, appliedGroup. cbv zeta.
  destruct (VVAuthProvider.getUserConfig _ _ _);
    (destruct (find isDefault groupConfig) as [g|];
     [destruct (truthyString (apiKey g));
      [destruct (truthyString (if isDev w then _ else _))|]|]);
    split; store_simpl; reflexivity.
Qed.

Lemma loggedIn_settings w authInfo userInfo groupConfig c :
  match find isDefault groupConfig with
  | Some defaultGroup =>
      if truthyString (apiKey defaultGroup)
      then groupApplied w defaultGroup c
             (loggedIn w authInfo userInfo groupConfig c)
      else hostSettingsUnchanged c (loggedIn w authInfo userInfo groupConfig c)
  | None => hostSettingsUnchanged c (loggedIn w authInfo userInfo groupConfig c)
  end.
Proof.
  unfold loggedIn, sessionDropped, appliedGroup, groupApplied,
    hostSettingsUnchanged. cbv zeta.
  destruct (find isDefault groupConfig) as [g|];
    [destruct (truthyString (apiKey g))|].
  - assert (Hbase : truthyString (if isDev w then Some (devBaseUrl w)
                                  else apiBaseUrl g) =
                    if isDev w then true else truthyString (apiBaseUrl g)).
    { destruct (isDev w); [apply devBaseUrl_truthy|reflexivity]. }
    rewrite Hbase. clear Hbase.
    destruct (VVAuthProvider.getUserConfig _ _ _);
      (destruct (isDev w); [|destruct (truthyString (apiBaseUrl g))]);
      repeat split; store_simpl; reflexivity.
  - destruct (VVAuthProvider.getUserConfig _ _ _);
      repeat split; store_simpl; reflexivity.
  - destruct (VVAuthProvider.getUserConfig _ _ _);
      repeat split; store_simpl; reflexivity.
Qed.

(** C4, as the code has it.  After a callback with a valid session in
    which the exchange, the fetch of the user info and the fetch of the
    group configuration succeed, the call returns normally and the
    persisted group configuration is the fetched one, unchanged, in the
    cache and durably.  The first item flagged [isDefault], when there is
    one and it has an API key, is the one whose settings are the host's
    active API settings; otherwise no group is applied and those settings
    are as before. *)
Theorem handleAuthCallback_default_group
    w code state s c authInfo userInfo groupConfig :
  _controller s = Some c ->
  _processingAuthCallback s = false ->
  _lastProcessedCode s ≠ Some code ->
  state ≠ "" ->
  storedSession "vv:authState" c = Some (VString state) ->
  truthy (storedSession "vv:codeVerifier" c) = true ->
  VVAuthProvider.exchangeCodeForToken (_provider w) code
    (storedSession "vv:codeVerifier" c) state = Normal authInfo ->
  VVAuthProvider.getUserInfo (_provider w) (accessToken authInfo)
    (userId authInfo) = Normal userInfo ->
  VVAuthProvider.getGroupTokens (_provider w) (accessToken authInfo)
    (userId authInfo) = Normal groupConfig ->
  ∃ s' c',
    handleAuthCallback w code state s = (Normal tt, s') ∧
    _controller s' = Some c' ∧
    StateManagerOps.getGlobalStateKey "vvGroupConfig" c' =
      Some (VGroupConfig groupConfig) ∧
    StateManagerOps.context_globalState_get "vvGroupConfig" c' =
      Some (VGroupConfig groupConfig) ∧
    match find isDefault groupConfig with
    | Some defaultGroup =>
        if truthyString (apiKey defaultGroup)
        then groupApplied w defaultGroup c c'
        else hostSettingsUnchanged c c'
    | None => hostSettingsUnchanged c c'
    end.
Proof.
  intros Hc Hp Hl Hstate Hstored Hverifier Hexchange Hui Hgc.
  rewrite (handleAuthCallback_run w code state s c Hc Hp Hl).
  destruct s as [c0 a subs p lc url n t]; simpl in *; subst.
  erewrite handleAuthCallback_try_unfold by reflexivity.
  rewrite Hstored, Hverifier, (truthy_VString state Hstate).
  rewrite bool_decide_true by reflexivity. cbn [negb].
  unfold bind at 1, call at 1. rewrite Hexchange. cbn [with_trace trace].
  destruct (handleAuthCallback_login_success w code authInfo userInfo
              groupConfig
              {| _controller := Some c; _authenticated := a;
                 _activeAuthStatusUpdateSubscriptions := subs;
                 _processingAuthCallback := true; _lastProcessedCode := lc;
                 AUTH_PAGE_URL := url; nextSubscription := n;
                 trace := ExchangeCodeForToken code
                            (storedSession "vv:codeVerifier" c) state :: t |}
              c eq_refl Hui Hgc) as (s1 & Hrun & Hc1).
  rewrite Hrun.
  exists (with_processingAuthCallback false s1),
         (loggedIn w authInfo userInfo groupConfig c).
  split; [reflexivity|]. split; [destruct s1; exact Hc1|].
  destruct (loggedIn_vvGroupConfig w authInfo userInfo groupConfig c) as [H1 H2].
  split; [exact H1|]. split; [exact H2|].
  apply loggedIn_settings.
Qed.

(** ** C7: the authorization request *)

(** C7.  [createAuthRequest] first stores the generated state and code
    verifier and flushes them, so that both are in the cache and in the
    durable store with nothing pending.  It then reads both back: if
    either read-back is falsy it throws the retry-prompting error;
    otherwise it builds the authorization URL, whose [state] parameter is
    the generated state, whose [code_challenge] parameter is the challenge
    of the generated verifier and whose [redirect_uri] is the extension's
    callback URI, opens it in the browser and returns it (or throws what
    the launcher throws). *)
Theorem createAuthRequest_spec w s c :
  _controller s = Some c ->
  let c1 := sessionSaved w c in
  (StateManagerOps.getGlobalStateKey "vv:authState" c1 =
     Some (VString (generateState w)) ∧
   StateManagerOps.context_globalState_get "vv:authState" c1 =
     Some (VString (generateState w)) ∧
   StateManagerOps.getGlobalStateKey "vv:codeVerifier" c1 =
     Some (VString (generateCodeVerifier w)) ∧
   StateManagerOps.context_globalState_get "vv:codeVerifier" c1 =
     Some (VString (generateCodeVerifier w)) ∧
   flushed c1) ∧
  (truthy (StateManagerOps.getGlobalStateKey "vv:authState" c1) = false ∨
   truthy (StateManagerOps.getGlobalStateKey "vv:codeVerifier" c1) = false ->
   createAuthRequest w s =
     (Thrown "Failed to save authentication state. Please try again.",
      with_trace (FlushPendingState :: trace s)
        (with_controller (Some c1) s))) ∧
  (truthy (StateManagerOps.getGlobalStateKey "vv:authState" c1) = true ->
   truthy (StateManagerOps.getGlobalStateKey "vv:codeVerifier" c1) = true ->
   ∃ authUrl,
     base authUrl = base (AUTH_PAGE_URL s) ∧
     URLSearchParams.get "state" (searchParams authUrl) =
       Some (generateState w) ∧
     URLSearchParams.get "code_challenge" (searchParams authUrl) =
       Some (generateCodeChallenge w (generateCodeVerifier w)) ∧
     URLSearchParams.get "redirect_uri" (searchParams authUrl) =
       Some callbackUri ∧
     createAuthRequest w s =
       (match openExternal w authUrl with
        | Normal _ => Normal authUrl
        | Thrown e => Thrown e
        end,
        with_trace (OpenExternal authUrl :: FlushPendingState :: trace s)
          (with_controller (Some c1) s))).
Proof.
  intros Hc c1. subst c1. unfold sessionSaved.
  destruct s as [c0 a subs p lc url n t]; simpl in *; subst.
  split; [|split].
  - unfold flushed. repeat split; store_simpl; reflexivity.
  - intros Hfalsy. unfold createAuthRequest. run.
    destruct Hfalsy as [H|H]; rewrite H; cbn [negb orb]; [reflexivity|].
    rewrite orb_true_r. reflexivity.
  - intros H1 H2.
    exists (URL_set "redirect_uri" callbackUri
              (URL_set "code_challenge"
                 (generateCodeChallenge w (generateCodeVerifier w))
                 (URL_set "state" (generateState w) url))).
    split; [|split; [|split; [|split]]].
    5: { unfold createAuthRequest. run. rewrite H1, H2. cbn [negb orb].
         destruct (openExternal w _) as [[]|e]; reflexivity. }
    + reflexivity.
    + cbn [searchParams URL_set].
      rewrite !searchParams_get_set_ne by discriminate.
      apply searchParams_get_set_eq.
    + cbn [searchParams URL_set].
      rewrite searchParams_get_set_ne by discriminate.
      apply searchParams_get_set_eq.
    + cbn [searchParams URL_set]. apply searchParams_get_set_eq.
Qed.

(** ** C9: subscriptions *)

Lemma elem_of_broadcastEvents authState l e :
  e ∈ broadcastEvents authState l ↔
  ∃ x, x ∈ l ∧ e = ResponseStream x authState.
Proof.
  unfold broadcastEvents. rewrite list_elem_of_In, <- in_rev, <- list_elem_of_In.
  rewrite list_elem_of_fmap. split; intros (x & H1 & H2); exists x; auto.
Qed.


(** ** Logout *)

(** C8.  From every state with a controller, [handleDeauth] returns
    normally; afterwards the access token, the refresh token, the user
    info, the user config and the two transient session keys are gone from
    the cache and from the durable stores, nothing is left unflushed, the
    service is unauthenticated, [getAccessToken] returns nothing, and every
    registered subscriber was sent a status without a user, after the flush
    and after the (optional) revoke call. *)
Theorem handleDeauth_clears w s c :
  _controller s = Some c ->
  ∃ s' c',
    handleDeauth w s = (Normal tt, s') ∧
    _controller s' = Some c' ∧
    secretCleared "vv:accessToken" c' ∧
    secretCleared "vv:refreshToken" c' ∧
    globalStateCleared "vvUserInfo" c' ∧
    globalStateCleared "vvUserConfig" c' ∧
    globalStateCleared "vv:authState" c' ∧
    globalStateCleared "vv:codeVerifier" c' ∧
    flushed c' ∧
    _authenticated s' = false ∧
    getAccessToken s' = (Normal None, s') ∧
    statusOf c' = {| user := None |} ∧
    ∃ revoke,
      trace s' =
        (broadcastEvents {| user := None |}
           (_activeAuthStatusUpdateSubscriptions s)
         ++ FlushPendingState :: revoke ++ trace s)%list ∧
      ∀ e, e ∈ revoke -> ∃ token, e = Logout token.
Proof.
  intros Hc. destruct s as [c0 a subs p lc url n t]. simpl in Hc. subst c0.
  unfold handleDeauth.
  assert (Hrevoke : ∃ revoke,
    (∀ e, e ∈ revoke -> ∃ token, e = Logout token) ∧
    ∀ s0,
    match StateManagerOps.getSecretKey "vv:accessToken" c with
    | Some token =>
       when (truthyString (StateManagerOps.getSecretKey "vv:accessToken" c))
         (try_catch (call (Logout token) (VVAuthProvider.logout (_provider w) token))
            (λ _ : string, ret ()))
    | None => ret ()
    end s0 = (Normal tt, with_trace (revoke ++ trace s0) s0)).
  { destruct (StateManagerOps.getSecretKey "vv:accessToken" c) as [token|].
    - destruct (truthyString (Some token)).
      + exists [Logout token]. split.
        * intros e He. apply list_elem_of_singleton in He. eauto.
        * intros [c0 a0 subs0 p0 lc0 url0 n0 t0]. cbn.
          unfold try_catch, call.
          destruct (VVAuthProvider.logout (_provider w) token) as [[]|msg];
            reflexivity.
      + exists []. split; [intros e He; inversion He|].
        intros []; reflexivity.
    - exists []. split; [intros e He; inversion He|].
      intros []; reflexivity. }
  destruct Hrevoke as (revoke & Hev & Hrun).
  cbn. unfold bind at 1. rewrite Hrun. cbn.
  erewrite sendAuthStatusUpdate_spec by reflexivity. cbn.
  assert (Hstatus : ∀ c', StateManagerOps.getGlobalStateKey "vvUserInfo" c' = None ->
                          statusOf c' = {| user := None |}).
  { intros c' H. unfold statusOf. rewrite H. reflexivity. }
  rewrite Hstatus by (store_simpl; reflexivity).
  do 2 eexists. split; [reflexivity|]. cbn.
  split; [reflexivity|].
  unfold globalStateCleared, secretCleared, flushed.
  repeat match goal with |- _ ∧ _ => split end.
  1-16: store_simpl; reflexivity.
  - apply Hstatus. store_simpl. reflexivity.
  - exists revoke. split; [reflexivity|exact Hev].
Qed.

(** ** The claims on the sample inputs *)

Lemma handleAuthCallback_csrf_mismatch_witness :
  ∃ s',
    handleAuthCallback Sample.world "abc" "wrong" Sample.pending =
      (Thrown "Authentication failed: Invalid state parameter - possible CSRF attack",
       s') ∧
    trace s' = [FlushPendingState].
Proof.
  destruct (handleAuthCallback_csrf_mismatch Sample.world "abc" "wrong"
              Sample.pending Sample.pendingController)
    as (s' & c' & Hrun & _ & _ & _ & Htrace).
  - reflexivity.
  - reflexivity.
  - discriminate.
  - vm_compute. reflexivity.
  - vm_compute. discriminate.
  - exists s'. split; [exact Hrun|exact Htrace].
Defined.

Lemma handleAuthCallback_idempotent_witness :
  handleAuthCallback Sample.world "abc" "S" Sample.pendingBusy =
    (Normal tt, Sample.pendingBusy) ∧
  handleAuthCallback Sample.world "abc" "S" Sample.pendingSeen =
    (Normal tt, Sample.pendingSeen) ∧
  (∃ s1, handleAuthCallback Sample.world "abc" "S" Sample.pending =
           (Normal tt, s1) ∧
         handleAuthCallback Sample.worldNoUserInfo "abc" "S" s1 =
           (Normal tt, s1)) ∧
  (exchanges
     (trace (handleAuthCallback Sample.worldNoUserInfo "abc" "S"
               (handleAuthCallback Sample.world "abc" "S" Sample.pending).2).2)
   ≤ 1)%nat.
Proof.
  destruct (handleAuthCallback_idempotent Sample.world Sample.world "abc" "S"
              "S" Sample.pendingBusy Sample.pendingController eq_refl)
    as (Hbusy & _ & _).
  destruct (handleAuthCallback_idempotent Sample.world Sample.world "abc" "S"
              "S" Sample.pendingSeen Sample.pendingController eq_refl)
    as (Hseen & _ & _).
  destruct (handleAuthCallback_idempotent Sample.world Sample.worldNoUserInfo
              "abc" "S" "S" Sample.pending Sample.pendingController eq_refl)
    as (_ & Hsecond & Hmost).
  split; [apply Hbusy; left; reflexivity|].
  split; [apply Hseen; right; reflexivity|].
  split; [|exact Hmost].
  exists (handleAuthCallback Sample.world "abc" "S" Sample.pending).2.
  assert (Hfirst : handleAuthCallback Sample.world "abc" "S" Sample.pending =
                   (Normal tt,
                    (handleAuthCallback Sample.world "abc" "S" Sample.pending).2))
    by (vm_compute; reflexivity).
  split; [exact Hfirst|]. apply Hsecond. exact Hfirst.
Defined.

Lemma handleAuthCallback_failure_cleanup_witness :
  _processingAuthCallback
    (handleAuthCallback Sample.worldNoUserInfo "abc" "S" Sample.pending).2 =
    false ∧
  ∃ s' c',
    handleAuthCallback Sample.worldNoUserInfo "abc" "S" Sample.pending =
      (Thrown "Authentication failed: HTTP 502", s') ∧
    _controller s' = Some c' ∧
    globalStateCleared "vv:authState" c' ∧
    globalStateCleared "vv:codeVerifier" c'.
Proof.
  destruct (handleAuthCallback_failure_cleanup Sample.worldNoUserInfo "abc" "S"
              Sample.pending Sample.pendingController eq_refl eq_refl)
    as (Hflag & Hfail).
  split; [exact Hflag|].
  destruct (Hfail ltac:(discriminate) "HTTP 502"
              (handleAuthCallback_try Sample.worldNoUserInfo "abc" "S"
                 (with_processingAuthCallback true Sample.pending)).2)
    as (s' & c' & Hrun & Hc' & H1 & H2 & _).
  - vm_compute. reflexivity.
  - exists s', c'. split; [exact Hrun|]. split; [exact Hc'|].
    split; [exact H1|exact H2].
Defined.


Lemma handleAuthCallback_default_group_witness :
  ∃ s' c',
    handleAuthCallback Sample.world "abc" "S" Sample.pending = (Normal tt, s') ∧
    _controller s' = Some c' ∧
    StateManagerOps.getGlobalStateKey "vvGroupConfig" c' =
      Some (VGroupConfig Sample.groups) ∧
    groupApplied Sample.world Sample.performance Sample.pendingController c'.
Proof.
  destruct (handleAuthCallback_default_group Sample.world "abc" "S"
              Sample.pending Sample.pendingController Sample.authInfo
              Sample.ann Sample.groups)
    as (s' & c' & Hrun & Hc' & Hcache & _ & Happlied).
  - reflexivity.
  - reflexivity.
  - discriminate.
  - discriminate.
  - vm_compute. reflexivity.
  - vm_compute. reflexivity.
  - reflexivity.
  - reflexivity.
  - reflexivity.
  - exists s', c'. split; [exact Hrun|]. split; [exact Hc'|].
    split; [exact Hcache|exact Happlied].
Defined.

(** C4 as claimed fails: the provider answers a non-empty group list
    without a default item, the callback succeeds and persists that list,
    and no item of the persisted configuration has [isDefault = true]. *)
Lemma handleAuthCallback_default_group_counterexample :
  (handleAuthCallback Sample.worldNoDefault "abc" "S" Sample.pending).1 =
    Normal tt ∧
  (StateManagerOps.getGlobalStateKey "vvGroupConfig" <$>
     _controller
       (handleAuthCallback Sample.worldNoDefault "abc" "S" Sample.pending).2) =
    Some (Some (VGroupConfig [Sample.daily])) ∧
  List.filter isDefault [Sample.daily] = [].
Proof. vm_compute. repeat split; reflexivity. Defined.

Lemma switchGroup_rejects_witness :
  switchGroup Sample.world "nightly" Sample.loggedInService =
    (Thrown ("Group " +:+ dquote +:+ "nightly" +:+ dquote +:+ " not found"),
     Sample.loggedInService) ∧
  switchGroup Sample.world "discount" Sample.loggedInService =
    (Thrown ("Group " +:+ dquote +:+ "discount" +:+ dquote +:+
             " has no API key configured. Please configure it first."),
     Sample.loggedInService).
Proof.
  destruct (switchGroup_rejects Sample.world "nightly" Sample.loggedInService
              Sample.loggedInController Sample.groups)
    as (Habsent & _); [reflexivity|vm_compute; reflexivity|].
  destruct (switchGroup_rejects Sample.world "discount" Sample.loggedInService
              Sample.loggedInController Sample.groups)
    as (_ & Hnokey); [reflexivity|vm_compute; reflexivity|].
  split.
  - apply Habsent. intros g Hg.
    repeat (apply elem_of_cons in Hg as [->|Hg]; [discriminate|]).
    inversion Hg.
  - apply (Hnokey Sample.discount); reflexivity.
Defined.

Lemma switchGroup_applies_witness :
  ∃ s' c',
    switchGroup Sample.world "daily" Sample.loggedInService = (Normal tt, s') ∧
    _controller s' = Some c' ∧
    StateManagerOps.getGlobalStateKey "vvGroupConfig" c' =
      Some (VGroupConfig (map (markDefault "daily") Sample.groups)) ∧
    StateManagerOps.getSecretKey "apiKey" c' = Some "key-daily" ∧
    (∀ g, g ∈ Sample.groups ->
          isDefault (markDefault "daily" g) = true ↔ g = Sample.daily).
Proof.
  destruct (switchGroup_applies Sample.world "daily" Sample.loggedInService
              Sample.loggedInController Sample.groups Sample.daily)
    as (s' & c' & Hrun & Hc' & Hcache & _ & _ & Hexact & Hkey & _).
  - reflexivity.
  - vm_compute. reflexivity.
  - reflexivity.
  - reflexivity.
  - exists s', c'. split; [exact Hrun|]. split; [exact Hc'|].
    split; [exact Hcache|]. split; [exact Hkey|].
    apply Hexact. apply (bool_decide_unpack _). vm_compute. exact I.
Defined.

(** C6 as claimed fails twice.  With two stored items of the requested
    type, both are flagged as default after the switch.  And in development
    mode the base URL written to the host settings is the development URL,
    not the selected group's. *)
Lemma switchGroup_applies_counterexample :
  ((switchGroup Sample.world "daily" Sample.duplicateService).1 = Normal tt ∧
   (StateManagerOps.getGlobalStateKey "vvGroupConfig" <$>
      _controller (switchGroup Sample.world "daily" Sample.duplicateService).2) =
     Some (Some (VGroupConfig
                   [markDefault "daily" Sample.daily;
                    markDefault "daily" Sample.daily2])) ∧
   map isDefault [markDefault "daily" Sample.daily;
                  markDefault "daily" Sample.daily2] = [true; true]) ∧
  ((switchGroup Sample.worldDev "daily" Sample.loggedInService).1 = Normal tt ∧
   apiBaseUrl Sample.daily = Some "https://daily.example" ∧
   (StateManagerOps.getGlobalStateKey "anthropicBaseUrl" <$>
      _controller (switchGroup Sample.worldDev "daily" Sample.loggedInService).2) =
     Some (Some (VString "http://127.0.0.1:3000"))).
Proof. vm_compute. repeat split; reflexivity. Defined.

Lemma createAuthRequest_spec_witness :
  (∃ authUrl s',
     createAuthRequest Sample.world Sample.fresh = (Normal authUrl, s') ∧
     URLSearchParams.get "state" (searchParams authUrl) = Some "S" ∧
     URLSearchParams.get "code_challenge" (searchParams authUrl) =
       Some "challenge-of-V") ∧
  (∃ s', createAuthRequest Sample.worldEmptyState Sample.fresh =
           (Thrown "Failed to save authentication state. Please try again.",
            s')).
Proof.
  destruct (createAuthRequest_spec Sample.world Sample.fresh
              Sample.freshController eq_refl) as (_ & _ & Hok).
  destruct (createAuthRequest_spec Sample.worldEmptyState Sample.fresh
              Sample.freshController eq_refl) as (_ & Hfail & _).
  split.
  - destruct Hok as (authUrl & _ & Hstate & Hchallenge & _ & Hrun).
    + vm_compute. reflexivity.
    + vm_compute. reflexivity.
    + exists authUrl. eexists. split; [exact Hrun|].
      split; [exact Hstate|exact Hchallenge].
  - eexists. apply Hfail. left. vm_compute. reflexivity.
Defined.

Lemma handleDeauth_clears_witness :
  ∃ s',
    handleDeauth Sample.world Sample.loggedInService = (Normal tt, s') ∧
    getAccessToken s' = (Normal None, s') ∧
    _authenticated s' = false.
Proof.
  destruct (handleDeauth_clears Sample.world Sample.loggedInService
              Sample.loggedInController eq_refl)
    as (s' & c' & Hrun & _ & _ & _ & _ & _ & _ & _ & _ & Hauth & Htoken & _).
  exists s'. repeat split; assumption.
Defined.



(** * Further properties of the service *)

(** ** Runs of whole operations *)

Lemma handleDeauth_run w s c :
  _controller s = Some c ->
  handleDeauth w s =
  (Normal tt,
   with_trace
     (broadcastEvents {| user := None |} (_activeAuthStatusUpdateSubscriptions s)
        ++ FlushPendingState :: revokeEvents c ++ trace s)%list
     (with_subscriptions
        (filter (λ x, responseStream w x {| user := None |} ≠ Throws)
                (_activeAuthStatusUpdateSubscriptions s))
        (nextSubscription s)
        (with_authenticated false (with_controller (Some (loggedOut c)) s)))).
Proof.
  intros Hc. destruct s as [c0 a subs p lc url n t]; simpl in *; subst.
  assert (Hstatus : statusOf (loggedOut c) = {| user := None |}).
  { unfold statusOf, loggedOut.
    assert (H : StateManagerOps.getGlobalStateKey "vvUserInfo"
                  (StateManagerOps.flushPendingState
                     (StateManagerOps.setGlobalState "vv:codeVerifier" None
                        (StateManagerOps.setGlobalState "vv:authState" None
                           (StateManagerOps.setGlobalState "vvUserConfig" None
                              (StateManagerOps.setGlobalState "vvUserInfo" None
                                 (StateManagerOps.setSecret "vv:refreshToken" None
                                    (StateManagerOps.setSecret "vv:accessToken"
                                       None c))))))) = None)
      by (store_simpl; reflexivity).
    rewrite H. reflexivity. }
  unfold handleDeauth, revokeEvents. run.
  destruct (StateManagerOps.getSecretKey "vv:accessToken" c) as [token|]; run.
  - destruct (truthyString (Some token)); run.
    + destruct (VVAuthProvider.logout (_provider w) token) as [[]|e]; run;
        erewrite sendAuthStatusUpdate_spec by reflexivity;
        fold (loggedOut c); rewrite Hstatus; reflexivity.
    + erewrite sendAuthStatusUpdate_spec by reflexivity.
      fold (loggedOut c). rewrite Hstatus. reflexivity.
  - erewrite sendAuthStatusUpdate_spec by reflexivity.
    fold (loggedOut c). rewrite Hstatus. reflexivity.
Qed.

Lemma switchGroup_run w groupType s c groupConfig targetGroup :
  _controller s = Some c ->
  StateManagerOps.getGlobalStateKey "vvGroupConfig" c =
    Some (VGroupConfig groupConfig) ->
  find (λ g, bool_decide (type g = groupType)) groupConfig = Some targetGroup ->
  truthyString (apiKey targetGroup) = true ->
  switchGroup w groupType s =
  (Normal tt,
   with_trace
     (broadcastEvents (statusOf (switched w groupType groupConfig targetGroup c))
        (_activeAuthStatusUpdateSubscriptions s)
      ++ FlushPendingState :: FlushPendingState :: trace s)%list
     (with_subscriptions
        (filter (λ x, responseStream w x
                        (statusOf (switched w groupType groupConfig targetGroup c))
                      ≠ Throws)
                (_activeAuthStatusUpdateSubscriptions s))
        (nextSubscription s)
        (with_controller
           (Some (switched w groupType groupConfig targetGroup c)) s))).
Proof.
  intros Hc Hgc Hfind Hkey.
  destruct s as [c0 a subs p lc url n t]; simpl in *; subst.
  unfold switchGroup. run. rewrite Hgc. cbn [truthy negb]. rewrite Hfind, Hkey.
  cbn [negb]. run.
  erewrite applyGroupConfig_spec by reflexivity. run.
  erewrite sendAuthStatusUpdate_spec by reflexivity. reflexivity.
Qed.

Lemma createAuthRequest_run w s c :
  _controller s = Some c ->
  generateState w ≠ "" ->
  generateCodeVerifier w ≠ "" ->
  createAuthRequest w s =
  (match openExternal w (authorizationUrl w s) with
   | Normal _ => Normal (authorizationUrl w s)
   | Thrown e => Thrown e
   end,
   with_trace (OpenExternal (authorizationUrl w s) :: FlushPendingState :: trace s)
     (with_controller (Some (sessionSaved w c)) s)).
Proof.
  intros Hc Hs Hv. destruct s as [c0 a subs p lc url n t]; simpl in *; subst.
  assert (H1 : truthy (StateManagerOps.getGlobalStateKey "vv:authState"
                         (sessionSaved w c)) = true).
  { unfold sessionSaved. store_simpl. apply truthy_VString, Hs. }
  assert (H2 : truthy (StateManagerOps.getGlobalStateKey "vv:codeVerifier"
                         (sessionSaved w c)) = true).
  { unfold sessionSaved. store_simpl. apply truthy_VString, Hv. }
  unfold createAuthRequest. run. fold (sessionSaved w c).
  rewrite H1, H2. cbn [negb orb]. unfold authorizationUrl, callbackUri. cbn [AUTH_PAGE_URL].
  destruct (openExternal w _) as [[]|e]; reflexivity.
Qed.

Lemma handleAuthCallback_login_run w code authInfo userInfo s c :
  _controller s = Some c ->
  VVAuthProvider.getUserInfo (_provider w) (accessToken authInfo)
    (userId authInfo) = Normal userInfo ->
  ∃ t',
    handleAuthCallback_login w code authInfo s =
    (Normal tt,
     with_trace
       (broadcastEvents (statusOf (afterLogin w authInfo userInfo c))
          (_activeAuthStatusUpdateSubscriptions s) ++ t')%list
       (with_subscriptions
          (filter (λ x, responseStream w x
                          (statusOf (afterLogin w authInfo userInfo c))
                        ≠ Throws)
                  (_activeAuthStatusUpdateSubscriptions s))
          (nextSubscription s)
          (with_authenticated true
             (with_lastProcessedCode (Some code)
                (with_controller (Some (afterLogin w authInfo userInfo c)) s))))) ∧
    exchanges t' = exchanges (trace s).
Proof.
  intros Hc Hui. destruct s as [c0 a subs p lc url n t]; simpl in *; subst.
  unfold handleAuthCallback_login, afterLogin. cbv zeta. rewrite Hui.
  destruct (VVAuthProvider.getUserConfig _ _ _) as [userConfig|e]; run;
    (destruct (VVAuthProvider.getGroupTokens _ _ _) as [groupConfig|e']; run;
     [destruct (find isDefault groupConfig) as [defaultGroup|]; run;
      [destruct (truthyString (apiKey defaultGroup)); run|]|]).
  all: try (erewrite applyGroupConfig_spec by reflexivity; run).
  all: erewrite sendAuthStatusUpdate_spec by reflexivity; run.
  all: eexists; split; [reflexivity|reflexivity].
Qed.


(** ** A successful callback *)

Ltac afterLogin_cases w authInfo :=
  unfold afterLogin, sessionDropped, appliedGroup; cbv zeta;
  destruct (VVAuthProvider.getUserConfig (_provider w) (accessToken authInfo)
              (userId authInfo));
  (destruct (VVAuthProvider.getGroupTokens (_provider w) (accessToken authInfo)
               (userId authInfo)) as [groupConfig|];
   [destruct (find isDefault groupConfig) as [defaultGroup|];
    [destruct (truthyString (apiKey defaultGroup));
     [destruct (truthyString (if isDev w then _ else _))|]|]|]).

Lemma afterLogin_login w authInfo userInfo c :
  let c' := afterLogin w authInfo userInfo c in
  StateManagerOps.getSecretKey "vv:accessToken" c' = Some (accessToken authInfo) ∧
  StateManagerOps.context_secrets_get "vv:accessToken" c' =
    Some (accessToken authInfo) ∧
  StateManagerOps.getSecretKey "vv:userId" c' =
    Some (toString (userId authInfo)) ∧
  StateManagerOps.context_secrets_get "vv:userId" c' =
    Some (toString (userId authInfo)) ∧
  StateManagerOps.getGlobalStateKey "vvUserInfo" c' = Some (VUserInfo userInfo) ∧
  StateManagerOps.context_globalState_get "vvUserInfo" c' =
    Some (VUserInfo userInfo).
Proof.
  intros c'. subst c'.
  afterLogin_cases w authInfo; repeat split; store_simpl; reflexivity.
Qed.

Lemma afterLogin_session w authInfo userInfo c :
  globalStateCleared "vv:authState" (afterLogin w authInfo userInfo c) ∧
  globalStateCleared "vv:codeVerifier" (afterLogin w authInfo userInfo c) ∧
  flushed (afterLogin w authInfo userInfo c).
Proof.
  unfold globalStateCleared, flushed.
  afterLogin_cases w authInfo; repeat split; store_simpl; reflexivity.
Qed.

Lemma handleAuthCallback_success_run w code state s c authInfo userInfo :
  _controller s = Some c ->
  accepted code s ->
  validSession state c ->
  VVAuthProvider.exchangeCodeForToken (_provider w) code
    (storedSession "vv:codeVerifier" c) state = Normal authInfo ->
  VVAuthProvider.getUserInfo (_provider w) (accessToken authInfo)
    (userId authInfo) = Normal userInfo ->
  ∃ t',
    handleAuthCallback w code state s =
    (Normal tt,
     with_processingAuthCallback false
       (with_trace
          (broadcastEvents (statusOf (afterLogin w authInfo userInfo c))
             (_activeAuthStatusUpdateSubscriptions s) ++ t')%list
          (with_subscriptions
             (filter (λ x, responseStream w x
                             (statusOf (afterLogin w authInfo userInfo c))
                           ≠ Throws)
                     (_activeAuthStatusUpdateSubscriptions s))
             (nextSubscription s)
             (with_authenticated true
                (with_lastProcessedCode (Some code)
                   (with_controller
                      (Some (afterLogin w authInfo userInfo c)) s)))))) ∧
    exchanges t' = S (exchanges (trace s)).
Proof.
  intros Hc [Hp Hl] (Hstate & Hstored & Hverifier) Hexchange Hui.
  rewrite (handleAuthCallback_run w code state s c Hc Hp Hl).
  destruct s as [c0 a subs p lc url n t]; simpl in *; subst.
  erewrite handleAuthCallback_try_unfold by reflexivity.
  rewrite Hstored, Hverifier, (truthy_VString state Hstate).
  rewrite bool_decide_true by reflexivity. cbn [negb].
  unfold bind at 1, call at 1. rewrite Hexchange. cbn [with_trace trace].
  edestruct (handleAuthCallback_login_run w code authInfo userInfo) as (t' & Hrun & Hex);
    [|exact Hui|rewrite Hrun]; [reflexivity|].
  exists t'. split; [reflexivity|]. exact Hex.
Qed.

Lemma statusOf_afterLogin w authInfo userInfo c :
  statusOf (afterLogin w authInfo userInfo c) =
  {| user := Some (VUserInfo userInfo) |}.
Proof.
  unfold statusOf.
  destruct (afterLogin_login w authInfo userInfo c) as (_ & _ & _ & _ & H & _).
  rewrite H. reflexivity.
Qed.

(** X1.  A callback that is not dropped, with a valid session, a
    successful exchange and a successful fetch of the user info, returns
    normally whatever the two optional fetches give.  Afterwards the token
    and the user id are stored as secrets and the user info as state, all
    three durably; the transient session is gone; the code is recorded;
    the guard is free; every subscriber was sent a status carrying the
    fetched user; [getInfo] reports that user; and exactly one token
    exchange was made. *)
Theorem handleAuthCallback_success w code state s c authInfo userInfo :
  _controller s = Some c ->
  accepted code s ->
  validSession state c ->
  VVAuthProvider.exchangeCodeForToken (_provider w) code
    (storedSession "vv:codeVerifier" c) state = Normal authInfo ->
  VVAuthProvider.getUserInfo (_provider w) (accessToken authInfo)
    (userId authInfo) = Normal userInfo ->
  ∃ s' c',
    handleAuthCallback w code state s = (Normal tt, s') ∧
    _controller s' = Some c' ∧
    StateManagerOps.getSecretKey "vv:accessToken" c' =
      Some (accessToken authInfo) ∧
    StateManagerOps.context_secrets_get "vv:accessToken" c' =
      Some (accessToken authInfo) ∧
    StateManagerOps.getSecretKey "vv:userId" c' =
      Some (toString (userId authInfo)) ∧
    StateManagerOps.context_secrets_get "vv:userId" c' =
      Some (toString (userId authInfo)) ∧
    StateManagerOps.getGlobalStateKey "vvUserInfo" c' =
      Some (VUserInfo userInfo) ∧
    StateManagerOps.context_globalState_get "vvUserInfo" c' =
      Some (VUserInfo userInfo) ∧
    globalStateCleared "vv:authState" c' ∧
    globalStateCleared "vv:codeVerifier" c' ∧
    flushed c' ∧
    _lastProcessedCode s' = Some code ∧
    _authenticated s' = true ∧
    _processingAuthCallback s' = false ∧
    (∀ x, x ∈ _activeAuthStatusUpdateSubscriptions s ->
          ResponseStream x {| user := Some (VUserInfo userInfo) |} ∈ trace s') ∧
    getInfo s' = (Normal {| user := Some (VUserInfo userInfo) |}, s') ∧
    exchanges (trace s') = S (exchanges (trace s)).
Proof.
  intros Hc Hacc Hvalid Hexchange Hui.
  destruct (handleAuthCallback_success_run w code state s c authInfo userInfo
              Hc Hacc Hvalid Hexchange Hui) as (t' & Hrun & Hex).
  rewrite Hrun. rewrite statusOf_afterLogin.
  destruct (afterLogin_login w authInfo userInfo c)
    as (H1 & H2 & H3 & H4 & H5 & H6).
  destruct (afterLogin_session w authInfo userInfo c) as (H7 & H8 & H9).
  destruct s as [c0 a subs p lc url n t]; simpl in *; subst.
  do 2 eexists. split; [reflexivity|]. cbn.
  split; [reflexivity|].
  repeat match goal with |- _ ∧ _ => split end; try assumption; try reflexivity.
  - intros x Hx. apply elem_of_app. left.
    apply elem_of_broadcastEvents. exists x. auto.
  - unfold getInfo. run. fold (statusOf (afterLogin w authInfo userInfo c)).
    rewrite statusOf_afterLogin. reflexivity.
  - unfold exchanges in *. rewrite List.filter_app, length_app.
    assert (Hb : ∀ l st, List.filter isExchange (broadcastEvents st l) = []).
    { intros l st. unfold broadcastEvents. induction l as [|y l IH]; [reflexivity|].
      cbn [map rev]. rewrite List.filter_app, IH. reflexivity. }
    rewrite Hb. exact Hex.
Qed.


(** ** Failures of the callback *)

Lemma sessionDropped_secrets key c :
  StateManagerOps.getSecretKey key (sessionDropped c) =
  StateManagerOps.getSecretKey key c.
Proof. reflexivity. Qed.

Lemma handleAuthCallback_not_found_run w code state s c :
  _controller s = Some c ->
  accepted code s ->
  truthy (storedSession "vv:authState" c) = false ->
  handleAuthCallback w code state s = (Thrown stateNotFoundError, failedAt s c).
Proof.
  intros Hc [Hp Hl] Hfalsy.
  rewrite (handleAuthCallback_run w code state s c Hc Hp Hl).
  destruct s as [c0 a subs p lc url n t]; simpl in *; subst.
  erewrite handleAuthCallback_try_unfold by reflexivity.
  rewrite Hfalsy. reflexivity.
Qed.

(** X2.  When a callback that is not dropped finds no stored state (no
    truthy value in the cache nor in the durable store), or finds the
    matching state but no code verifier, it throws the corresponding error,
    makes no provider call, writes no secret, and only deletes the session
    keys and flushes. *)
Theorem handleAuthCallback_session_incomplete w code state s c :
  _controller s = Some c ->
  accepted code s ->
  (truthy (storedSession "vv:authState" c) = false ->
   handleAuthCallback w code state s = (Thrown stateNotFoundError, failedAt s c)) ∧
  (state ≠ "" ->
   storedSession "vv:authState" c = Some (VString state) ->
   truthy (storedSession "vv:codeVerifier" c) = false ->
   handleAuthCallback w code state s = (Thrown verifierMissingError, failedAt s c)) ∧
  trace (failedAt s c) = FlushPendingState :: trace s ∧
  ∀ key, (StateManagerOps.getSecretKey key <$> _controller (failedAt s c)) =
         Some (StateManagerOps.getSecretKey key c).
Proof.
  intros Hc Hacc. split; [|split; [|split]].
  - apply handleAuthCallback_not_found_run; assumption.
  - intros Hstate Hstored Hverifier. destruct Hacc as [Hp Hl].
    rewrite (handleAuthCallback_run w code state s c Hc Hp Hl).
    destruct s as [c0 a subs p lc url n t]; simpl in *; subst.
    erewrite handleAuthCallback_try_unfold by reflexivity.
    rewrite Hstored, Hverifier, (truthy_VString state Hstate).
    rewrite bool_decide_true by reflexivity. reflexivity.
  - destruct s; reflexivity.
  - intros key. destruct s; reflexivity.
Qed.

Ltac side_trace :=
  let s := fresh "s" in let H := fresh "H" in
  intros s H; destruct s; cbn in *; first [exact H | right; exact H].

Lemma handleAuthCallback_login_keeps_trace w code authInfo e :
  preserves (λ s, e ∈ trace s) (handleAuthCallback_login w code authInfo).
Proof. unfold handleAuthCallback_login. preserves_walk side_trace. Qed.

Lemma handleAuthCallback_exchange_attempted w code state s c :
  _controller s = Some c ->
  accepted code s ->
  validSession state c ->
  ExchangeCodeForToken code (storedSession "vv:codeVerifier" c) state
    ∈ trace (handleAuthCallback w code state s).2.
Proof.
  intros Hc [Hp Hl] (Hstate & Hstored & Hverifier).
  rewrite (handleAuthCallback_run w code state s c Hc Hp Hl).
  destruct s as [c0 a subs p lc url n t]; simpl in *; subst.
  erewrite handleAuthCallback_try_unfold by reflexivity.
  rewrite Hstored, Hverifier, (truthy_VString state Hstate).
  rewrite bool_decide_true by reflexivity. cbn [negb].
  unfold bind at 1, call at 1. cbn [with_trace trace].
  set (e := ExchangeCodeForToken code _ state).
  destruct (VVAuthProvider.exchangeCodeForToken _ _ _ _) as [authInfo|msg].
  - pose proof (handleAuthCallback_login_keeps_trace w code authInfo e
                  {| _controller := Some c; _authenticated := a;
                     _activeAuthStatusUpdateSubscriptions := subs;
                     _processingAuthCallback := true;
                     _lastProcessedCode := lc; AUTH_PAGE_URL := url;
                     nextSubscription := n; trace := e :: t |}) as Hkeep.
    specialize (Hkeep (list_elem_of_here _ _)).
    destruct (handleAuthCallback_login w code authInfo _) as [[[]|msg] s1].
    + destruct s1; exact Hkeep.
    + destruct s1 as [[c1|] ? ? ? ? ? ? ?]; cbn in *; [right|]; exact Hkeep.
  - cbn. right. left.
Qed.

(** X3.  The fallback read path: when the cache holds no truthy session
    state or verifier but the durable store holds the state the callback
    carries and a verifier, the handshake goes on, and the provider is
    asked to exchange the code with the durable verifier. *)
Theorem handleAuthCallback_durable_session w code state verifier s c :
  _controller s = Some c ->
  accepted code s ->
  state ≠ "" ->
  truthy (StateManagerOps.getGlobalStateKey "vv:authState" c) = false ->
  StateManagerOps.context_globalState_get "vv:authState" c =
    Some (VString state) ->
  truthy (StateManagerOps.getGlobalStateKey "vv:codeVerifier" c) = false ->
  StateManagerOps.context_globalState_get "vv:codeVerifier" c = Some verifier ->
  truthy (Some verifier) = true ->
  ExchangeCodeForToken code (Some verifier) state
    ∈ trace (handleAuthCallback w code state s).2.
Proof.
  intros Hc Hacc Hstate H1 H2 H3 H4 H5.
  assert (Hs : storedSession "vv:authState" c = Some (VString state)).
  { unfold storedSession. rewrite H1. exact H2. }
  assert (Hv : storedSession "vv:codeVerifier" c = Some verifier).
  { unfold storedSession. rewrite H3. exact H4. }
  rewrite <- Hv. apply handleAuthCallback_exchange_attempted; try assumption.
  split; [exact Hstate|]. split; [exact Hs|]. rewrite Hv. exact H5.
Qed.

(** X4.  When the exchange itself fails, the callback throws the error of
    its [catch] block for that failure, having written no secret and no
    user info: apart from the recorded calls, only the session keys are
    deleted and flushed, and the code is not recorded.  A second delivery
    of the same code is therefore not dropped by the guards, but it finds
    no session any more and fails with the state-not-found error, without
    another exchange. *)
Theorem handleAuthCallback_exchange_fails w w2 code state state2 s c errorMessage :
  _controller s = Some c ->
  accepted code s ->
  validSession state c ->
  VVAuthProvider.exchangeCodeForToken (_provider w) code
    (storedSession "vv:codeVerifier" c) state = Thrown errorMessage ->
  let s1 := with_trace
              (ExchangeCodeForToken code (storedSession "vv:codeVerifier" c)
                 state :: trace s) s in
  handleAuthCallback w code state s =
    (Thrown (rethrownMessage errorMessage), failedAt s1 c) ∧
  _lastProcessedCode (failedAt s1 c) = _lastProcessedCode s ∧
  _authenticated (failedAt s1 c) = _authenticated s ∧
  handleAuthCallback w2 code state2 (failedAt s1 c) =
    (Thrown stateNotFoundError, failedAt (failedAt s1 c) (sessionDropped c)) ∧
  exchanges (trace (failedAt (failedAt s1 c) (sessionDropped c))) =
    S (exchanges (trace s)).
Proof.
  intros Hc [Hp Hl] (Hstate & Hstored & Hverifier) Hexchange s1. subst s1.
  split; [|split; [|split; [|split]]].
  - rewrite (handleAuthCallback_run w code state s c Hc Hp Hl).
    destruct s as [c0 a subs p lc url n t]; simpl in *; subst.
    erewrite handleAuthCallback_try_unfold by reflexivity.
    rewrite Hstored, Hverifier, (truthy_VString state Hstate).
    rewrite bool_decide_true by reflexivity. cbn [negb].
    unfold bind at 1, call at 1. rewrite Hexchange. reflexivity.
  - destruct s; reflexivity.
  - destruct s; reflexivity.
  - apply handleAuthCallback_not_found_run.
    + destruct s; reflexivity.
    + destruct s; simpl in *. split; [reflexivity|exact Hl].
    + rewrite storedSession_sessionDropped. reflexivity.
  - destruct s; reflexivity.
Qed.


(** ** The classification of errors *)

Lemma prefix_spec (p s : string) :
  String.prefix p s = true ↔ ∃ post, s = p +:+ post.
Proof.
  revert s. induction p as [|a p IH]; intros s; simpl.
  - split; [intros _; exists s; reflexivity|intros _; destruct s; reflexivity].
  - destruct s as [|b s]; simpl.
    + split; [discriminate|intros [post H]; discriminate H].
    + destruct (Ascii.ascii_dec a b) as [->|Hne].
      * rewrite IH. split; intros [post H]; exists post.
        -- rewrite H. reflexivity.
        -- injection H as H. exact H.
      * split; [discriminate|]. intros [post H]. injection H as H1 H2. congruence.
Qed.

(** [includes] finds exactly the substrings. *)
Lemma includes_spec (hay needle : string) :
  includes hay needle = true ↔ occursIn needle hay.
Proof.
  unfold occursIn. induction hay as [|c hay IH]; cbn [includes].
  - rewrite orb_false_r, prefix_spec. split.
    + intros [post H]. exists "", post. exact H.
    + intros (pre & post & H). destruct pre as [|a pre]; [|discriminate H].
      exists post. exact H.
  - rewrite orb_true_iff, prefix_spec, IH. split.
    + intros [[post H]|(pre & post & H)].
      * exists "", post. exact H.
      * exists (String c pre), post. rewrite H. reflexivity.
    + intros (pre & post & H). destruct pre as [|a pre].
      * left. exists post. exact H.
      * right. injection H as _ H. exists pre, post. exact H.
Qed.

(** X5.  The [catch] block of the callback throws the rate-limit message
    exactly for the caught messages in which [Too Many Requests] or [429]
    occurs somewhere, and otherwise [Authentication failed: ] followed by
    the caught message. *)
Theorem rethrownMessage_classifies errorMessage :
  (occursIn "Too Many Requests" errorMessage ∨ occursIn "429" errorMessage ->
   rethrownMessage errorMessage = rateLimitError) ∧
  (¬ occursIn "Too Many Requests" errorMessage ->
   ¬ occursIn "429" errorMessage ->
   rethrownMessage errorMessage = "Authentication failed: " +:+ errorMessage).
Proof.
  unfold rethrownMessage. split.
  - intros H.
    assert (Hb : includes errorMessage "Too Many Requests" ||
                 includes errorMessage "429" = true).
    { apply orb_true_iff. rewrite !includes_spec. exact H. }
    rewrite Hb. reflexivity.
  - intros H1 H2.
    assert (Hb : includes errorMessage "Too Many Requests" ||
                 includes errorMessage "429" = false).
    { apply orb_false_iff. split; apply not_true_is_false;
        rewrite includes_spec; assumption. }
    rewrite Hb. reflexivity.
Qed.


(** ** Switching groups *)

(** X6.  Without a stored group configuration [switchGroup] throws the
    not-logged-in error, and with a stored but empty one the
    group-not-found error (an empty array is truthy); either way the
    service is left exactly as it was. *)
Theorem switchGroup_without_groups w groupType s c :
  _controller s = Some c ->
  (StateManagerOps.getGlobalStateKey "vvGroupConfig" c = None ->
   switchGroup w groupType s =
     (Thrown "Group config not found. Please login first.", s)) ∧
  (StateManagerOps.getGlobalStateKey "vvGroupConfig" c = Some (VGroupConfig []) ->
   switchGroup w groupType s =
     (Thrown ("Group " +:+ dquote +:+ groupType +:+ dquote +:+ " not found"),
      s)).
Proof.
  intros Hc. destruct s as [c0 a subs p lc url n t]; simpl in *; subst.
  split; intros Hgc; unfold switchGroup; run; rewrite Hgc; reflexivity.
Qed.

Lemma map_markDefault_twice a b (groupConfig : VVGroupConfig) :
  map (markDefault b) (map (markDefault a) groupConfig) =
  map (markDefault b) groupConfig.
Proof. rewrite map_map. reflexivity. Qed.

Lemma find_markDefault a groupType (groupConfig : VVGroupConfig) :
  find (λ g, bool_decide (type g = groupType)) (map (markDefault a) groupConfig) =
  markDefault a <$> find (λ g, bool_decide (type g = groupType)) groupConfig.
Proof.
  induction groupConfig as [|g l IH]; [reflexivity|].
  cbn [map find markDefault type].
  destruct (bool_decide (type g = groupType)); [reflexivity|exact IH].
Qed.

Lemma switched_lookups w groupType groupConfig targetGroup c :
  let c' := switched w groupType groupConfig targetGroup c in
  StateManagerOps.getGlobalStateKey "vvGroupConfig" c' =
    Some (VGroupConfig (map (markDefault groupType) groupConfig)) ∧
  StateManagerOps.getSecretKey "apiKey" c' = apiKey targetGroup ∧
  StateManagerOps.getGlobalStateKey "planModeApiModelId" c' =
    Some (VString (defaultModelId targetGroup)) ∧
  StateManagerOps.getGlobalStateKey "actModeApiModelId" c' =
    Some (VString (defaultModelId targetGroup)) ∧
  StateManagerOps.getGlobalStateKey "anthropicBaseUrl" c' =
    (if isDev w then Some (VString (devBaseUrl w))
     else if truthyString (apiBaseUrl targetGroup)
          then VString <$> apiBaseUrl targetGroup
          else StateManagerOps.getGlobalStateKey "anthropicBaseUrl" c).
Proof.
  intros c'. subst c'. unfold switched, appliedGroup. cbv zeta.
  assert (Hbase : truthyString (if isDev w then Some (devBaseUrl w)
                                else apiBaseUrl targetGroup) =
                  if isDev w then true else truthyString (apiBaseUrl targetGroup)).
  { destruct (isDev w); [apply devBaseUrl_truthy|reflexivity]. }
  rewrite Hbase. clear Hbase.
  destruct (isDev w); [|destruct (truthyString (apiBaseUrl targetGroup))];
    repeat split; store_simpl; reflexivity.
Qed.

(** X7.  Two switches in a row: when both requested groups exist in the
    stored configuration with an API key, the second switch succeeds after
    the first, and the stored configuration, the [apiKey] secret and the
    two model ids are what the second switch alone would give; in
    particular switching to the same group twice changes nothing more.
    But outside development mode a second group without a base URL of its
    own leaves the base URL that the first switch wrote. *)
Theorem switchGroup_twice w a b s c groupConfig groupA groupB :
  _controller s = Some c ->
  StateManagerOps.getGlobalStateKey "vvGroupConfig" c =
    Some (VGroupConfig groupConfig) ->
  find (λ g, bool_decide (type g = a)) groupConfig = Some groupA ->
  truthyString (apiKey groupA) = true ->
  find (λ g, bool_decide (type g = b)) groupConfig = Some groupB ->
  truthyString (apiKey groupB) = true ->
  ∃ s1 c1 s2 c2,
    switchGroup w a s = (Normal tt, s1) ∧ _controller s1 = Some c1 ∧
    switchGroup w b s1 = (Normal tt, s2) ∧ _controller s2 = Some c2 ∧
    StateManagerOps.getGlobalStateKey "vvGroupConfig" c2 =
      Some (VGroupConfig (map (markDefault b) groupConfig)) ∧
    StateManagerOps.getSecretKey "apiKey" c2 = apiKey groupB ∧
    StateManagerOps.getGlobalStateKey "planModeApiModelId" c2 =
      Some (VString (defaultModelId groupB)) ∧
    StateManagerOps.getGlobalStateKey "actModeApiModelId" c2 =
      Some (VString (defaultModelId groupB)) ∧
    (isDev w = false -> truthyString (apiBaseUrl groupB) = false ->
     StateManagerOps.getGlobalStateKey "anthropicBaseUrl" c2 =
     StateManagerOps.getGlobalStateKey "anthropicBaseUrl" c1).
Proof.
  intros Hc Hgc Ha Hka Hb Hkb.
  pose proof (switchGroup_run w a s c groupConfig groupA Hc Hgc Ha Hka) as Hrun1.
  destruct (switched_lookups w a groupConfig groupA c) as (Hg1 & _).
  set (c1 := switched w a groupConfig groupA c) in *.
  set (s1 := with_trace _ _) in Hrun1.
  assert (Hc1 : _controller s1 = Some c1) by (destruct s; reflexivity).
  assert (Hb1 : find (λ g, bool_decide (type g = b))
                  (map (markDefault a) groupConfig) = Some (markDefault a groupB)).
  { rewrite find_markDefault, Hb. reflexivity. }
  pose proof (switchGroup_run w b s1 c1 (map (markDefault a) groupConfig)
                (markDefault a groupB) Hc1 Hg1 Hb1 Hkb) as Hrun2.
  destruct (switched_lookups w b (map (markDefault a) groupConfig)
              (markDefault a groupB) c1) as (Hg2 & Hk2 & Hp2 & Ha2 & Hu2).
  rewrite map_markDefault_twice in Hg2.
  eexists s1, c1, _, _. split; [exact Hrun1|]. split; [exact Hc1|].
  split; [exact Hrun2|]. split; [destruct s; reflexivity|].
  split; [exact Hg2|]. split; [exact Hk2|]. split; [exact Hp2|].
  split; [exact Ha2|].
  intros Hdev Hurl. rewrite Hu2, Hdev. cbn [apiBaseUrl markDefault].
  rewrite Hurl. reflexivity.
Qed.


(** ** Logout *)

Lemma loggedOut_other_secret key c :
  key ≠ "vv:accessToken" -> key ≠ "vv:refreshToken" ->
  StateManagerOps.getSecretKey key (loggedOut c) =
  StateManagerOps.getSecretKey key c.
Proof.
  intros H1 H2. unfold loggedOut. store_unfold.
  rewrite !lookup_store.
  rewrite !decide_False by (intros Heq; symmetry in Heq; contradiction).
  reflexivity.
Qed.

Lemma loggedOut_other_state key c :
  key ≠ "vvUserInfo" -> key ≠ "vvUserConfig" ->
  key ≠ "vv:authState" -> key ≠ "vv:codeVerifier" ->
  StateManagerOps.getGlobalStateKey key (loggedOut c) =
  StateManagerOps.getGlobalStateKey key c.
Proof.
  intros H1 H2 H3 H4. unfold loggedOut. store_unfold.
  rewrite !lookup_store.
  rewrite !decide_False by (intros Heq; symmetry in Heq; contradiction).
  reflexivity.
Qed.

(** X8.  What logout leaves behind: [handleDeauth] deletes the two tokens
    and the four state keys and nothing else.  Every other secret and
    every other state key reads as before, in particular the stored user
    id, the group configuration and the host's API settings (key, model
    ids, base URL) of the group that was applied; and the last processed
    code is kept. *)
Theorem handleDeauth_frame w s c :
  _controller s = Some c ->
  ∃ s' c',
    handleDeauth w s = (Normal tt, s') ∧
    _controller s' = Some c' ∧
    (∀ key, key ≠ "vv:accessToken" -> key ≠ "vv:refreshToken" ->
            StateManagerOps.getSecretKey key c' =
            StateManagerOps.getSecretKey key c) ∧
    (∀ key, key ≠ "vvUserInfo" -> key ≠ "vvUserConfig" ->
            key ≠ "vv:authState" -> key ≠ "vv:codeVerifier" ->
            StateManagerOps.getGlobalStateKey key c' =
            StateManagerOps.getGlobalStateKey key c) ∧
    StateManagerOps.getSecretKey "vv:userId" c' =
      StateManagerOps.getSecretKey "vv:userId" c ∧
    StateManagerOps.getGlobalStateKey "vvGroupConfig" c' =
      StateManagerOps.getGlobalStateKey "vvGroupConfig" c ∧
    hostSettingsUnchanged c c' ∧
    _lastProcessedCode s' = _lastProcessedCode s.
Proof.
  intros Hc. rewrite (handleDeauth_run w s c Hc).
  exists (with_trace
            (broadcastEvents {| user := None |}
               (_activeAuthStatusUpdateSubscriptions s)
             ++ FlushPendingState :: revokeEvents c ++ trace s)%list
            (with_subscriptions
               (filter (λ x, responseStream w x {| user := None |} ≠ Throws)
                  (_activeAuthStatusUpdateSubscriptions s))
               (nextSubscription s)
               (with_authenticated false
                  (with_controller (Some (loggedOut c)) s)))),
         (loggedOut c).
  split; [reflexivity|]. split; [destruct s; reflexivity|].
  split; [intros key; apply loggedOut_other_secret|].
  split; [intros key; apply loggedOut_other_state|].
  split; [apply loggedOut_other_secret; discriminate|].
  split; [apply loggedOut_other_state; discriminate|].
  split; [|destruct s; reflexivity].
  unfold hostSettingsUnchanged.
  split; [apply loggedOut_other_secret; discriminate|].
  repeat split; apply loggedOut_other_state; discriminate.
Qed.

(** X9.  The revoke call of logout: the provider's [logout] is called, with
    the stored token and before anything is cleared or flushed, exactly
    when a non-empty access token is stored; whatever it answers, also an
    error, the logout goes on in the same way. *)
Theorem handleDeauth_revoke w s c :
  _controller s = Some c ->
  ∃ s',
    handleDeauth w s = (Normal tt, s') ∧
    trace s' =
      (broadcastEvents {| user := None |} (_activeAuthStatusUpdateSubscriptions s)
       ++ FlushPendingState :: revokeEvents c ++ trace s)%list ∧
    (∀ token, StateManagerOps.getSecretKey "vv:accessToken" c = Some token ->
              token ≠ "" -> revokeEvents c = [Logout token]) ∧
    (truthyString (StateManagerOps.getSecretKey "vv:accessToken" c) = false ->
     revokeEvents c = []).
Proof.
  intros Hc. rewrite (handleDeauth_run w s c Hc). eexists.
  split; [reflexivity|]. split; [destruct s; reflexivity|]. split.
  - intros token Htoken Hne. unfold revokeEvents. rewrite Htoken. cbn.
    rewrite bool_decide_false by exact Hne. reflexivity.
  - unfold revokeEvents.
    destruct (StateManagerOps.getSecretKey "vv:accessToken" c) as [token|];
      [|reflexivity].
    intros ->. reflexivity.
Qed.

(** X10.  The record of the last processed code outlives a logout: after
    [handleDeauth], a callback carrying the code that was processed last is
    still dropped silently, so it returns normally while nobody is logged
    in. *)
Theorem handleAuthCallback_after_logout w w2 code state s c :
  _controller s = Some c ->
  _lastProcessedCode s = Some code ->
  ∃ s1,
    handleDeauth w s = (Normal tt, s1) ∧
    handleAuthCallback w2 code state s1 = (Normal tt, s1) ∧
    isAuthenticated s1 = (Normal false, s1) ∧
    getAccessToken s1 = (Normal None, s1).
Proof.
  intros Hc Hl. rewrite (handleDeauth_run w s c Hc). eexists.
  split; [reflexivity|].
  assert (Htoken : StateManagerOps.getSecretKey "vv:accessToken" (loggedOut c)
                   = None).
  { unfold loggedOut. store_simpl. reflexivity. }
  destruct s as [c0 a subs p lc url n t]; simpl in *; subst.
  split; [|split].
  - apply (handleAuthCallback_lastProcessed w2 code state _ (loggedOut c));
      reflexivity.
  - unfold isAuthenticated. run. rewrite Htoken. reflexivity.
  - unfold getAccessToken. run. rewrite Htoken. reflexivity.
Qed.


(** ** The user id as a string, and the refresh of the groups *)

Lemma pretty_N_char_digit d :
  (d < 10)%N ->
  digitValue (pretty_N_char d) = Some d ∧
  isWhiteSpace (pretty_N_char d) = false ∧
  Ascii.nat_of_ascii (pretty_N_char d) ≠ 45%nat ∧
  Ascii.nat_of_ascii (pretty_N_char d) ≠ 43%nat.
Proof.
  intros Hd.
  assert (d = 0 ∨ d = 1 ∨ d = 2 ∨ d = 3 ∨ d = 4 ∨ d = 5 ∨ d = 6 ∨ d = 7 ∨
          d = 8 ∨ d = 9)%N as Hcases by lia.
  repeat (destruct Hcases as [->|Hcases]); try subst d;
    (split; [|split; [|split]]); vm_compute; congruence.
Qed.

Lemma parseDigits_pretty_N_go x : ∀ acc s,
  ∃ k, parseDigits acc (pretty_N_go x s) = parseDigits (acc * 10 ^ k + x)%N s.
Proof.
  induction (N.lt_wf_0 x) as [x _ IH]. intros acc s.
  destruct (decide (x = 0)%N) as [->|Hx].
  - exists 0%N. rewrite pretty_N_go_0. f_equal. lia.
  - rewrite pretty_N_go_step by lia.
    destruct (IH (x `div` 10)%N
                ltac:(apply N.div_lt; lia) acc
                (String (pretty_N_char (x `mod` 10)) s)) as [k Hk].
    exists (k + 1)%N. rewrite Hk. cbn [parseDigits].
    destruct (pretty_N_char_digit (x `mod` 10)%N) as (Hd & _);
      [apply N.mod_lt; lia|].
    rewrite Hd. f_equal. rewrite N.pow_add_r, N.pow_1_r.
    pose proof (N.div_mod x 10 ltac:(lia)) as Hdm.
    clear IH Hk Hd Hx.
    set (q := (x `div` 10)%N) in *. set (r := (x `mod` 10)%N) in *.
    set (P := (10 ^ k)%N). clearbody q r P. lia.
Qed.

Lemma pretty_N_go_head x s :
  (0 < x)%N ->
  ∃ d rest, (d < 10)%N ∧ pretty_N_go x s = String (pretty_N_char d) rest.
Proof.
  revert s. induction (N.lt_wf_0 x) as [x _ IH]. intros s Hx.
  rewrite pretty_N_go_step by exact Hx.
  destruct (decide (x `div` 10 = 0)%N) as [Hz|Hz].
  - rewrite Hz, pretty_N_go_0. exists (x `mod` 10)%N, s.
    split; [apply N.mod_lt; lia|reflexivity].
  - apply IH; [apply N.div_lt; lia|apply N.neq_0_lt_0, Hz].
Qed.

Lemma parseInt_pretty_positive p :
  ∃ d rest, (d < 10)%N ∧
    pretty (N.pos p) = String (pretty_N_char d) rest ∧
    parseDigits 0 (pretty (N.pos p)) = N.pos p.
Proof.
  unfold pretty, pretty_N. rewrite decide_False by discriminate.
  destruct (pretty_N_go_head (N.pos p) "" ltac:(lia)) as (d & rest & Hd & Hhead).
  exists d, rest. split; [exact Hd|]. split; [exact Hhead|].
  destruct (parseDigits_pretty_N_go (N.pos p) 0 "") as [k Hk].
  rewrite Hk. cbn [parseDigits]. lia.
Qed.

Lemma parseInt_digits d rest :
  (d < 10)%N ->
  parseInt (String (pretty_N_char d) rest) =
  Some (numberValue (Z.of_N (parseDigits 0 (String (pretty_N_char d) rest)))).
Proof.
  intros Hd. destruct (pretty_N_char_digit d Hd) as (Hdigit & Hws & Hminus & Hplus).
  unfold parseInt. cbn [trimStart]. rewrite Hws.
  rewrite !bool_decide_false by assumption. rewrite Hdigit. reflexivity.
Qed.

Lemma parseInt_minus d rest :
  (d < 10)%N ->
  parseInt (String (Ascii.ascii_of_nat 45) (String (pretty_N_char d) rest)) =
  Some (numberValue (- Z.of_N (parseDigits 0 (String (pretty_N_char d) rest)))%Z).
Proof.
  intros Hd. destruct (pretty_N_char_digit d Hd) as (Hdigit & Hws & Hminus & Hplus).
  unfold parseInt. cbn [trimStart].
  replace (isWhiteSpace (Ascii.ascii_of_nat 45)) with false by (vm_compute; reflexivity).
  rewrite bool_decide_true by reflexivity. rewrite Hdigit. reflexivity.
Qed.

(** [parseInt] reads the decimal notation of an integer back, up to the
    rounding of the result. *)
Lemma parseInt_pretty_Z (n : Z) :
  parseInt (toString n) = Some (numberValue n).
Proof.
  unfold toString, pretty, pretty_Z. destruct n as [|p|p].
  - reflexivity.
  - destruct (parseInt_pretty_positive p) as (d & rest & Hd & Hhead & Hval).
    change (pretty p) with (pretty (N.pos p)).
    rewrite Hhead, (parseInt_digits d rest Hd), <- Hhead, Hval. reflexivity.
  - destruct (parseInt_pretty_positive p) as (d & rest & Hd & Hhead & Hval).
    change ("-" +:+ pretty p)
      with (String (Ascii.ascii_of_nat 45) (pretty (N.pos p))).
    rewrite Hhead, (parseInt_minus d rest Hd), <- Hhead, Hval. reflexivity.
Qed.

Lemma numberValue_safe (n : Z) : isSafeInteger n -> numberValue n = n.
Proof.
  unfold isSafeInteger, numberValue.
  change (2 ^ 53)%Z with 9007199254740992%Z. intros Hn.
  destruct (Z.ltb_spec (Z.abs n) 9007199254740992); [reflexivity|lia].
Qed.

(** X11.  The user id survives its storage as a string when it is a safe
    integer: [parseInt] reads back, exactly, the decimal string that
    [toString] wrote for it, so the refresh asks for the groups of the
    user id that the callback stored. *)
Theorem parseInt_toString (n : Z) :
  isSafeInteger n -> parseInt (toString n) = Some n.
Proof.
  intros Hsafe. rewrite parseInt_pretty_Z, (numberValue_safe n Hsafe).
  reflexivity.
Qed.

Lemma toString_nonempty (n : Z) : toString n ≠ "".
Proof.
  intros H. pose proof (parseInt_pretty_Z n) as Hp. rewrite H in Hp.
  discriminate Hp.
Qed.

(** X12.  Not logged in: when no non-empty access token, or no non-empty
    user id, is stored, [refreshGroupConfig] returns nothing without
    raising, calls nobody and changes nothing. *)
Theorem refreshGroupConfig_not_logged_in w h s c :
  _controller s = Some c ->
  truthyString (StateManagerOps.getSecretKey "vv:accessToken" c) = false ∨
  truthyString (StateManagerOps.getSecretKey "vv:userId" c) = false ->
  refreshGroupConfig w h s = (Normal None, s).
Proof.
  intros Hc Hmissing. destruct s as [c0 a subs p lc url n t]; simpl in *; subst.
  unfold refreshGroupConfig. run.
  destruct Hmissing as [H|H]; rewrite H; cbn [negb orb]; [reflexivity|].
  rewrite orb_true_r. reflexivity.
Qed.

Lemma refreshGroupConfig_success_run w h s c token userId uid groupConfig :
  _controller s = Some c ->
  credentials token userId c ->
  parseInt userId = Some uid ->
  VVAuthProvider.getGroupTokens (_provider w) token uid = Normal groupConfig ->
  refreshGroupConfig w h s =
    (Normal (Some groupConfig),
     with_trace (FlushPendingState :: GetGroupTokens token uid :: trace s)
       (with_controller (Some (refreshed groupConfig c)) s)).
Proof.
  intros Hc (Htoken & Htne & Hid & Hidne) Hparse Hgroups.
  destruct s as [c0 a subs p lc url n t]; simpl in *; subst.
  unfold refreshGroupConfig. run. rewrite Htoken, Hid. cbn [truthyString].
  rewrite !bool_decide_false by assumption.
  cbn [negb orb default from_option id].
  rewrite Hparse. unfold getGroupTokensFor. run. rewrite Hgroups. reflexivity.
Qed.

(** X13.  A successful refresh: with stored credentials whose user id
    reads as the integer [uid], when the provider answers [groupConfig],
    [refreshGroupConfig] returns it and stores it, in the cache and
    durably, with nothing left pending.  It makes that one provider call
    and one flush, sends no status to anybody, and does not touch the
    host's API settings: the default group of the new configuration is
    not applied. *)
Theorem refreshGroupConfig_success w h s c token userId uid groupConfig :
  _controller s = Some c ->
  credentials token userId c ->
  parseInt userId = Some uid ->
  VVAuthProvider.getGroupTokens (_provider w) token uid = Normal groupConfig ->
  refreshGroupConfig w h s =
    (Normal (Some groupConfig),
     with_trace (FlushPendingState :: GetGroupTokens token uid :: trace s)
       (with_controller (Some (refreshed groupConfig c)) s)) ∧
  StateManagerOps.getGlobalStateKey "vvGroupConfig" (refreshed groupConfig c) =
    Some (VGroupConfig groupConfig) ∧
  StateManagerOps.context_globalState_get "vvGroupConfig"
    (refreshed groupConfig c) = Some (VGroupConfig groupConfig) ∧
  flushed (refreshed groupConfig c) ∧
  hostSettingsUnchanged c (refreshed groupConfig c).
Proof.
  intros Hc Hcred Hparse Hgroups.
  split; [|split; [|split; [|split]]].
  - apply (refreshGroupConfig_success_run w h s c token userId uid groupConfig);
      assumption.
  - unfold refreshed. store_simpl. reflexivity.
  - unfold refreshed. store_simpl. reflexivity.
  - unfold refreshed, flushed. split; reflexivity.
  - unfold refreshed, hostSettingsUnchanged. repeat split; store_simpl; reflexivity.
Qed.

(** X14.  A failed refresh is swallowed: with stored credentials, when the
    provider's call fails, [refreshGroupConfig] returns nothing without
    raising and the controller is as before: the stored configuration is
    kept and nothing is flushed.  This holds also when the stored user id
    does not read as a number. *)
Theorem refreshGroupConfig_failure w h s c token userId :
  _controller s = Some c ->
  credentials token userId c ->
  (∀ uid e, parseInt userId = Some uid ->
     VVAuthProvider.getGroupTokens (_provider w) token uid = Thrown e ->
     refreshGroupConfig w h s =
       (Normal None, with_trace (GetGroupTokens token uid :: trace s) s)) ∧
  (∀ e, parseInt userId = None ->
     getGroupTokensNaN h token = Thrown e ->
     refreshGroupConfig w h s = (Normal None, s)).
Proof.
  intros Hc (Htoken & Htne & Hid & Hidne).
  destruct s as [c0 a subs p lc url n t]; simpl in *; subst.
  split.
  - intros uid e Hparse Hgroups.
    unfold refreshGroupConfig. run. rewrite Htoken, Hid. cbn [truthyString].
    rewrite !bool_decide_false by assumption. cbn [negb orb default from_option id].
    rewrite Hparse. unfold getGroupTokensFor. run. rewrite Hgroups. reflexivity.
  - intros e Hparse Hgroups.
    unfold refreshGroupConfig. run. rewrite Htoken, Hid. cbn [truthyString].
    rewrite !bool_decide_false by assumption. cbn [negb orb default from_option id].
    rewrite Hparse. unfold getGroupTokensFor. run. rewrite Hgroups. reflexivity.
Qed.

(** X15.  Login, then refresh: after a successful callback that stored a
    non-empty token for a user id that is a safe integer,
    [refreshGroupConfig] asks the provider for the groups of the very token
    and user id that the exchange returned, and stores what it answers. *)
Theorem refreshGroupConfig_after_login
    w w2 h code state s c authInfo userInfo groupConfig :
  _controller s = Some c ->
  accepted code s ->
  validSession state c ->
  VVAuthProvider.exchangeCodeForToken (_provider w) code
    (storedSession "vv:codeVerifier" c) state = Normal authInfo ->
  VVAuthProvider.getUserInfo (_provider w) (accessToken authInfo)
    (userId authInfo) = Normal userInfo ->
  accessToken authInfo ≠ "" ->
  isSafeInteger (userId authInfo) ->
  VVAuthProvider.getGroupTokens (_provider w2) (accessToken authInfo)
    (userId authInfo) = Normal groupConfig ->
  ∃ s1 c1,
    handleAuthCallback w code state s = (Normal tt, s1) ∧
    _controller s1 = Some c1 ∧
    refreshGroupConfig w2 h s1 =
      (Normal (Some groupConfig),
       with_trace
         (FlushPendingState
            :: GetGroupTokens (accessToken authInfo) (userId authInfo)
            :: trace s1)
         (with_controller (Some (refreshed groupConfig c1)) s1)).
Proof.
  intros Hc Hacc Hvalid Hexchange Hui Htoken Hsafe Hgroups.
  destruct (handleAuthCallback_success_run w code state s c authInfo userInfo
              Hc Hacc Hvalid Hexchange Hui) as (t' & Hrun & _).
  rewrite Hrun.
  destruct (afterLogin_login w authInfo userInfo c) as (H1 & _ & H3 & _).
  eexists _, (afterLogin w authInfo userInfo c).
  split; [reflexivity|]. split; [destruct s; reflexivity|].
  apply (refreshGroupConfig_success_run w2 h _ _ (accessToken authInfo)
           (toString (userId authInfo)) (userId authInfo) groupConfig).
  - destruct s; reflexivity.
  - split; [exact H1|]. split; [exact Htoken|]. split; [exact H3|].
    apply toString_nonempty.
  - rewrite parseInt_pretty_Z, (numberValue_safe _ Hsafe). reflexivity.
  - exact Hgroups.
Qed.

(** ** The optional fetches of the callback *)

(** X16.  The two optional fetches of a successful callback are best
    effort.  When the user-config fetch fails, the stored user config is
    what it was before the call; when the group fetch fails, the stored
    group configuration and the host's API settings are what they were
    before the call.  The login succeeds all the same. *)
Theorem handleAuthCallback_optional_fetches_fail
    w code state s c authInfo userInfo :
  _controller s = Some c ->
  accepted code s ->
  validSession state c ->
  VVAuthProvider.exchangeCodeForToken (_provider w) code
    (storedSession "vv:codeVerifier" c) state = Normal authInfo ->
  VVAuthProvider.getUserInfo (_provider w) (accessToken authInfo)
    (userId authInfo) = Normal userInfo ->
  ∃ s' c',
    handleAuthCallback w code state s = (Normal tt, s') ∧
    _controller s' = Some c' ∧
    _authenticated s' = true ∧
    (∀ e, VVAuthProvider.getUserConfig (_provider w) (accessToken authInfo)
            (userId authInfo) = Thrown e ->
          StateManagerOps.getGlobalStateKey "vvUserConfig" c' =
          StateManagerOps.getGlobalStateKey "vvUserConfig" c) ∧
    (∀ e, VVAuthProvider.getGroupTokens (_provider w) (accessToken authInfo)
            (userId authInfo) = Thrown e ->
          StateManagerOps.getGlobalStateKey "vvGroupConfig" c' =
          StateManagerOps.getGlobalStateKey "vvGroupConfig" c ∧
          hostSettingsUnchanged c c').
Proof.
  intros Hc Hacc Hvalid Hexchange Hui.
  destruct (handleAuthCallback_success_run w code state s c authInfo userInfo
              Hc Hacc Hvalid Hexchange Hui) as (t' & Hrun & _).
  rewrite Hrun. eexists _, (afterLogin w authInfo userInfo c).
  split; [reflexivity|]. split; [destruct s; reflexivity|].
  split; [destruct s; reflexivity|]. split.
  - intros e He. unfold afterLogin, sessionDropped, appliedGroup. cbv zeta.
    rewrite He.
    destruct (VVAuthProvider.getGroupTokens (_provider w) (accessToken authInfo)
                (userId authInfo)) as [groupConfig|];
      [destruct (find isDefault groupConfig) as [defaultGroup|];
       [destruct (truthyString (apiKey defaultGroup));
        [destruct (truthyString (if isDev w then _ else _))|]|]|];
      store_simpl; reflexivity.
  - intros e He. unfold afterLogin, sessionDropped, hostSettingsUnchanged.
    cbv zeta. rewrite He.
    destruct (VVAuthProvider.getUserConfig (_provider w) (accessToken authInfo)
                (userId authInfo));
      repeat split; store_simpl; reflexivity.
Qed.

(** ** From the login request to the callback *)

Lemma storedSession_sessionSaved w c :
  generateState w ≠ "" ->
  generateCodeVerifier w ≠ "" ->
  storedSession "vv:authState" (sessionSaved w c) =
    Some (VString (generateState w)) ∧
  storedSession "vv:codeVerifier" (sessionSaved w c) =
    Some (VString (generateCodeVerifier w)).
Proof.
  intros Hs Hv. unfold storedSession.
  assert (H1 : StateManagerOps.getGlobalStateKey "vv:authState"
                 (sessionSaved w c) = Some (VString (generateState w)))
    by (unfold sessionSaved; store_simpl; reflexivity).
  assert (H2 : StateManagerOps.getGlobalStateKey "vv:codeVerifier"
                 (sessionSaved w c) = Some (VString (generateCodeVerifier w)))
    by (unfold sessionSaved; store_simpl; reflexivity).
  rewrite H1, H2, !truthy_VString by assumption. split; reflexivity.
Qed.

Lemma handleAuthCallback_csrf_run w code state stored s c :
  _controller s = Some c ->
  accepted code s ->
  storedSession "vv:authState" c = Some (VString stored) ->
  stored ≠ "" ->
  state ≠ stored ->
  handleAuthCallback w code state s =
    (Thrown "Authentication failed: Invalid state parameter - possible CSRF attack",
     failedAt s c).
Proof.
  intros Hc [Hp Hl] Hstored Hne Hdiff.
  rewrite (handleAuthCallback_run w code state s c Hc Hp Hl).
  destruct s as [c0 a subs p lc url n t]; simpl in *; subst.
  erewrite handleAuthCallback_try_unfold by reflexivity.
  rewrite Hstored, (truthy_VString stored Hne).
  rewrite bool_decide_false by congruence. reflexivity.
Qed.

(** X17.  The session that [createAuthRequest] stores binds the callback,
    whether or not the browser could be opened.  A callback carrying the
    generated state has its code exchanged with the generated verifier; a
    callback carrying any other state is refused as a possible CSRF attack
    without any exchange. *)
Theorem createAuthRequest_binds_callback w w2 code state s c :
  _controller s = Some c ->
  accepted code s ->
  generateState w ≠ "" ->
  generateCodeVerifier w ≠ "" ->
  let s1 := (createAuthRequest w s).2 in
  (state = generateState w ->
   ExchangeCodeForToken code (Some (VString (generateCodeVerifier w))) state
     ∈ trace (handleAuthCallback w2 code state s1).2) ∧
  (state ≠ generateState w ->
   (handleAuthCallback w2 code state s1).1 =
     Thrown "Authentication failed: Invalid state parameter - possible CSRF attack" ∧
   exchanges (trace (handleAuthCallback w2 code state s1).2) =
     exchanges (trace s)).
Proof.
  intros Hc Hacc Hs Hv s1. subst s1.
  rewrite (createAuthRequest_run w s c Hc Hs Hv). cbn [snd].
  destruct (storedSession_sessionSaved w c Hs Hv) as [H1 H2].
  set (s1 := with_trace _ _).
  assert (Hc1 : _controller s1 = Some (sessionSaved w c))
    by (destruct s; reflexivity).
  assert (Hacc1 : accepted code s1)
    by (destruct s; exact Hacc).
  split.
  - intros ->. rewrite <- H2.
    apply handleAuthCallback_exchange_attempted; [exact Hc1|exact Hacc1|].
    split; [exact Hs|]. split; [exact H1|]. rewrite H2.
    apply truthy_VString, Hv.
  - intros Hne.
    rewrite (handleAuthCallback_csrf_run w2 code state (generateState w) s1
               (sessionSaved w c) Hc1 Hacc1 H1 Hs Hne).
    split; [reflexivity|]. destruct s; reflexivity.
Qed.

(** ** The authorization URL *)

Lemma filter_set_other (P : string * string -> Prop) `{∀ p, Decision (P p)}
    name value ps :
  (∀ p, P p -> p.1 ≠ name) ->
  filter P (URLSearchParams.set name value ps) = filter P ps.
Proof.
  intros Hq.
  assert (Hhead : ∀ v, ¬ P (name, v)).
  { intros v Hp. apply (Hq _ Hp). reflexivity. }
  induction ps as [|[n v] ps IH]; cbn [URLSearchParams.set].
  - rewrite filter_cons_False by apply Hhead. reflexivity.
  - destruct (decide (n = name)) as [->|Hne].
    + rewrite !filter_cons_False by apply Hhead.
      rewrite list_filter_filter. apply list_filter_iff.
      intros p. split; [tauto|]. intros Hp. split; [exact Hp|].
      apply Hq, Hp.
    + rewrite !filter_cons. rewrite IH. reflexivity.
Qed.

Lemma occurrences_set_eq name value ps :
  occurrences name (URLSearchParams.set name value ps) = 1%nat.
Proof.
  unfold occurrences. induction ps as [|[n v] ps IH]; cbn [URLSearchParams.set].
  - rewrite filter_cons_True by reflexivity. reflexivity.
  - destruct (decide (n = name)) as [->|Hne].
    + rewrite filter_cons_True by reflexivity. rewrite list_filter_filter.
      rewrite (list_filter_iff _ (λ _, False)); [|intros [n' v']; simpl; tauto].
      cbn [length]. f_equal.
      clear. induction ps as [|p ps IH]; [reflexivity|].
      rewrite filter_cons_False by tauto. exact IH.
    + rewrite filter_cons_False by exact Hne. exact IH.
Qed.

Lemma occurrences_set_ne name name' value ps :
  name ≠ name' ->
  occurrences name (URLSearchParams.set name' value ps) = occurrences name ps.
Proof.
  intros Hne. unfold occurrences.
  f_equal. apply filter_set_other.
  intros p Hp Heq. apply Hne. rewrite <- Hp. exact Heq.
Qed.

Lemma otherParams_set name value ps :
  name = "state" ∨ name = "code_challenge" ∨ name = "redirect_uri" ->
  otherParams (URLSearchParams.set name value ps) = otherParams ps.
Proof.
  intros Hname. unfold otherParams.
  apply filter_set_other.
  intros p (H1 & H2 & H3). destruct Hname as [->| [->| ->]]; assumption.
Qed.

(** X18.  The authorization URL that [createAuthRequest] opens and returns
    is the configured login page with exactly one [state], one
    [code_challenge] and one [redirect_uri] parameter, also when the
    configured page already carries parameters of these names; every other
    parameter of the page is kept, in its order. *)
Theorem createAuthRequest_url_parameters w s c :
  _controller s = Some c ->
  generateState w ≠ "" ->
  generateCodeVerifier w ≠ "" ->
  (∀ url, openExternal w url = Normal tt) ->
  ∃ authUrl,
    (createAuthRequest w s).1 = Normal authUrl ∧
    OpenExternal authUrl ∈ trace (createAuthRequest w s).2 ∧
    base authUrl = base (AUTH_PAGE_URL s) ∧
    occurrences "state" (searchParams authUrl) = 1%nat ∧
    occurrences "code_challenge" (searchParams authUrl) = 1%nat ∧
    occurrences "redirect_uri" (searchParams authUrl) = 1%nat ∧
    otherParams (searchParams authUrl) =
      otherParams (searchParams (AUTH_PAGE_URL s)).
Proof.
  intros Hc Hs Hv Hopen.
  rewrite (createAuthRequest_run w s c Hc Hs Hv), Hopen.
  exists (authorizationUrl w s). split; [reflexivity|].
  split; [destruct s; left|].
  unfold authorizationUrl. cbn [URL_set base searchParams].
  split; [reflexivity|].
  split; [rewrite !occurrences_set_ne by discriminate; apply occurrences_set_eq|].
  split; [rewrite occurrences_set_ne by discriminate; apply occurrences_set_eq|].
  split; [apply occurrences_set_eq|].
  rewrite !otherParams_set by tauto. reflexivity.
Qed.

(** ** Subscribing from a state in which the status cannot be sent *)

(** X19.  [subscribeToAuthStatusUpdate] registers the subscription before
    it reads the status.  When the controller is not bound, or when the
    stream throws on the first delivery, the call throws and hands out no
    unsubscribe function, yet the subscription stays registered: a later
    broadcast addresses it. *)
Theorem subscribeToAuthStatusUpdate_throws_registered w s :
  (_controller s = None ∨
   ∃ c, _controller s = Some c ∧
        responseStream w (nextSubscription s) (statusOf c) = Throws) ->
  ∃ e s',
    subscribeToAuthStatusUpdate w s = (Thrown e, s') ∧
    _activeAuthStatusUpdateSubscriptions s' =
      (_activeAuthStatusUpdateSubscriptions s ++ [nextSubscription s])%list ∧
    ∀ authState,
      ResponseStream (nextSubscription s) authState
        ∈ broadcastEvents authState (_activeAuthStatusUpdateSubscriptions s').
Proof.
  intros H.
  assert (Hin : ∀ l authState,
            ResponseStream (nextSubscription s) authState
              ∈ broadcastEvents authState (l ++ [nextSubscription s])%list).
  { intros l authState. apply elem_of_broadcastEvents.
    exists (nextSubscription s). split; [|reflexivity].
    apply elem_of_app. right. left. }
  destruct s as [c0 a subs p lc url n t]; simpl in *.
  destruct H as [->|(c & -> & Hthrows)].
  - do 2 eexists. split; [reflexivity|]. split; [reflexivity|]. apply Hin.
  - unfold subscribeToAuthStatusUpdate, getInfo. run. fold (statusOf c).
    rewrite Hthrows. do 2 eexists. split; [reflexivity|].
    split; [reflexivity|]. apply Hin.
Qed.

(** ** A service whose controller is not bound *)

(** X20.  Before [initialize] has bound a controller, every operation of
    the service throws the same error and changes nothing: the callback
    handler (also for a code it would otherwise drop, and without the
    [Authentication failed] prefix), logout, group switching, the login
    request, the refresh and the getters. *)
Theorem unbound_service_throws w h code state groupType s :
  _controller s = None ->
  let e := "Controller has not been initialized" in
  handleAuthCallback w code state s = (Thrown e, s) ∧
  handleDeauth w s = (Thrown e, s) ∧
  switchGroup w groupType s = (Thrown e, s) ∧
  createAuthRequest w s = (Thrown e, s) ∧
  refreshGroupConfig w h s = (Thrown e, s) ∧
  getInfo s = (Thrown e, s) ∧
  isAuthenticated s = (Thrown e, s) ∧
  getAccessToken s = (Thrown e, s) ∧
  getUserInfo s = (Thrown e, s) ∧
  getUserConfig s = (Thrown e, s) ∧
  getGroupConfig s = (Thrown e, s).
Proof.
  intros Hc e. destruct s as [c0 a subs p lc url n t]; simpl in Hc; subst c0.
  repeat split.
Qed.

(** ** The singleton and the refresh handler *)

Lemma refreshed_secrets key groupConfig c :
  StateManagerOps.getSecretKey key (refreshed groupConfig c) =
  StateManagerOps.getSecretKey key c.
Proof. reflexivity. Qed.

Lemma refreshGroupConfig_cases w h s c :
  _controller s = Some c ->
  ∃ r t' c',
    refreshGroupConfig w h s =
      (Normal r, with_trace t' (with_controller (Some c') s)) ∧
    (c' = c ∨ ∃ groupConfig, c' = refreshed groupConfig c) ∧
    (truthyString (StateManagerOps.getSecretKey "vv:accessToken" c) = false ->
     r = None ∧ t' = trace s ∧ c' = c).
Proof.
  intros Hc. destruct s as [c0 a subs p lc url n t]; simpl in *; subst.
  unfold refreshGroupConfig. run.
  destruct (truthyString (StateManagerOps.getSecretKey "vv:accessToken" c))
    eqn:Htoken; cbn [negb orb].
  2: { do 3 eexists. split; [reflexivity|]. split; [left; reflexivity|].
       intros _. repeat split. }
  destruct (truthyString (StateManagerOps.getSecretKey "vv:userId" c));
    cbn [negb].
  2: { do 3 eexists. split; [reflexivity|]. split; [left; reflexivity|].
       discriminate. }
  unfold getGroupTokensFor.
  destruct (parseInt _) as [uid|]; run.
  - destruct (VVAuthProvider.getGroupTokens _ _ _) as [groupConfig|e];
      do 3 eexists; (split; [reflexivity|]); (split; [|discriminate]).
    + right. exists groupConfig. reflexivity.
    + left. reflexivity.
  - destruct (getGroupTokensNaN h _) as [groupConfig|e];
      do 3 eexists; (split; [reflexivity|]); (split; [|discriminate]).
    + right. exists groupConfig. reflexivity.
    + left. reflexivity.
Qed.

Lemma initGroupConfigIfAuthenticated_cases w h s c :
  _controller s = Some c ->
  ∃ t' c',
    initGroupConfigIfAuthenticated w h s =
      (Normal tt, with_trace t' (with_controller (Some c') s)) ∧
    (c' = c ∨ ∃ groupConfig, c' = refreshed groupConfig c) ∧
    (truthyString (StateManagerOps.getSecretKey "vv:accessToken" c) = false ->
     t' = trace s ∧ c' = c).
Proof.
  intros Hc.
  destruct (refreshGroupConfig_cases w h s c Hc) as (r & t' & c' & Hrun & Hc' & Hno).
  destruct s as [c0 a subs p lc url n t]; simpl in *; subst.
  unfold initGroupConfigIfAuthenticated, isAuthenticated. run.
  destruct (truthyString (StateManagerOps.getSecretKey "vv:accessToken" c))
    eqn:Htoken; cbn [negb].
  - rewrite Hrun. exists t', c'. split; [reflexivity|]. split; [exact Hc'|].
    discriminate.
  - exists t, c. split; [reflexivity|]. split; [left; reflexivity|].
    intros _. split; reflexivity.
Qed.

(** X21.  [initialize] always leaves an instance that [getInstance]
    returns.  It binds the controller it is given, creating the instance
    only when there is none: an existing instance keeps its subscriptions,
    its record of the last processed code, its guard and its
    authenticated flag (so a new instance is unauthenticated even when a
    token is stored).  It never changes a secret, and when the controller
    holds no access token it calls no provider and stores nothing. *)
Theorem initialize_binds_controller w h controller instance :
  let s0 := default (newVVAuthService h w) instance in
  let s1 := initialize w h controller instance in
  getInstance (Some s1) = Normal s1 ∧
  (∀ key, (StateManagerOps.getSecretKey key <$> _controller s1) =
          Some (StateManagerOps.getSecretKey key controller)) ∧
  _activeAuthStatusUpdateSubscriptions s1 =
    _activeAuthStatusUpdateSubscriptions s0 ∧
  _lastProcessedCode s1 = _lastProcessedCode s0 ∧
  _processingAuthCallback s1 = _processingAuthCallback s0 ∧
  _authenticated s1 = _authenticated s0 ∧
  AUTH_PAGE_URL s1 = AUTH_PAGE_URL s0 ∧
  (truthyString (StateManagerOps.getSecretKey "vv:accessToken" controller)
     = false ->
   s1 = with_controller (Some controller) s0).
Proof.
  intros s0 s1.
  assert (Heq : s1 = (initGroupConfigIfAuthenticated w h
                        (with_controller (Some controller) s0)).2).
  { subst s0 s1. unfold initialize. destruct instance; reflexivity. }
  clearbody s1. subst s1. clearbody s0.
  destruct (initGroupConfigIfAuthenticated_cases w h
              (with_controller (Some controller) s0) controller)
    as (t' & c' & Hrun & Hc' & Hno); [destruct s0; reflexivity|].
  rewrite Hrun. cbn [snd].
  destruct s0 as [c0 a subs p lc url n t]; cbn.
  split; [reflexivity|]. split.
  { intros key. f_equal.
    destruct Hc' as [->|[groupConfig ->]]; reflexivity. }
  repeat (split; [reflexivity|]).
  intros Htoken. destruct (Hno Htoken) as [-> ->]. reflexivity.
Qed.

(** X22.  The refresh handler of the controller.  Without an initialised
    service it throws and nothing changes.  With one, a failure of the
    provider never reaches the caller: the state is posted to the webview
    in any case, and the handler completes as that post completes; the
    service stays initialised, with the same secrets. *)
Theorem vvRefreshGroupConfig_handler w h instance :
  (getInstance instance = Thrown "VVAuthService not initialized. Call VVAuthService.initialize(controller) first." ->
   vvRefreshGroupConfig w h instance =
     (Thrown "VVAuthService not initialized. Call VVAuthService.initialize(controller) first.",
      instance)) ∧
  (∀ s c,
     instance = Some s -> _controller s = Some c ->
     ∃ s' c',
       vvRefreshGroupConfig w h instance =
         (match postStateToWebview h with
          | Normal _ => Normal tt
          | Thrown e => Thrown e
          end, Some s') ∧
       getInstance (Some s') = Normal s' ∧
       _controller s' = Some c' ∧
       (c' = c ∨ ∃ groupConfig, c' = refreshed groupConfig c) ∧
       ∀ key, StateManagerOps.getSecretKey key c' =
              StateManagerOps.getSecretKey key c).
Proof.
  split.
  - intros Hget. unfold vvRefreshGroupConfig. rewrite Hget. reflexivity.
  - intros s c -> Hc.
    destruct (refreshGroupConfig_cases w h s c Hc) as (r & t' & c' & Hrun & Hc' & _).
    unfold vvRefreshGroupConfig, getInstance. rewrite Hc, Hrun.
    exists (with_trace t' (with_controller (Some c') s)), c'.
    split; [reflexivity|].
    split; [destruct s; reflexivity|].
    split; [destruct s; reflexivity|].
    split; [exact Hc'|].
    intros key. destruct Hc' as [->|[groupConfig ->]]; reflexivity.
Qed.

(** ** The getters after a login and the operations after a logout *)

Lemma afterLogin_userConfig w authInfo userInfo userConfig c :
  VVAuthProvider.getUserConfig (_provider w) (accessToken authInfo)
    (userId authInfo) = Normal userConfig ->
  StateManagerOps.getGlobalStateKey "vvUserConfig"
    (afterLogin w authInfo userInfo c) = Some (VUserConfig userConfig).
Proof.
  intros He. unfold afterLogin, sessionDropped, appliedGroup. cbv zeta.
  rewrite He.
  destruct (VVAuthProvider.getGroupTokens (_provider w) (accessToken authInfo)
              (userId authInfo)) as [groupConfig|];
    [destruct (find isDefault groupConfig) as [defaultGroup|];
     [destruct (truthyString (apiKey defaultGroup));
      [destruct (truthyString (if isDev w then _ else _))|]|]|];
    store_simpl; reflexivity.
Qed.

Lemma afterLogin_groupConfig w authInfo userInfo groupConfig c :
  VVAuthProvider.getGroupTokens (_provider w) (accessToken authInfo)
    (userId authInfo) = Normal groupConfig ->
  StateManagerOps.getGlobalStateKey "vvGroupConfig"
    (afterLogin w authInfo userInfo c) = Some (VGroupConfig groupConfig).
Proof.
  intros He. unfold afterLogin, sessionDropped, appliedGroup. cbv zeta.
  rewrite He.
  destruct (VVAuthProvider.getUserConfig (_provider w) (accessToken authInfo)
              (userId authInfo));
    (destruct (find isDefault groupConfig) as [defaultGroup|];
     [destruct (truthyString (apiKey defaultGroup));
      [destruct (truthyString (if isDev w then _ else _))|]|]);
    store_simpl; reflexivity.
Qed.

(** X23.  The getters after a successful callback: [getAccessToken] and
    [getUserInfo] return the exchanged token and the fetched user;
    [getUserConfig] and [getGroupConfig] return what the optional fetches
    gave when they succeeded, the group configuration as the provider sent
    it; and [isAuthenticated] follows the stored token, not the
    authenticated flag: for an empty token it answers [false] while the
    flag is set. *)
Theorem getters_after_login w code state s c authInfo userInfo :
  _controller s = Some c ->
  accepted code s ->
  validSession state c ->
  VVAuthProvider.exchangeCodeForToken (_provider w) code
    (storedSession "vv:codeVerifier" c) state = Normal authInfo ->
  VVAuthProvider.getUserInfo (_provider w) (accessToken authInfo)
    (userId authInfo) = Normal userInfo ->
  ∃ s',
    handleAuthCallback w code state s = (Normal tt, s') ∧
    getAccessToken s' = (Normal (Some (accessToken authInfo)), s') ∧
    getUserInfo s' = (Normal (Some (VUserInfo userInfo)), s') ∧
    isAuthenticated s' =
      (Normal (negb (bool_decide (accessToken authInfo = ""))), s') ∧
    _authenticated s' = true ∧
    (∀ userConfig,
       VVAuthProvider.getUserConfig (_provider w) (accessToken authInfo)
         (userId authInfo) = Normal userConfig ->
       getUserConfig s' = (Normal (Some (VUserConfig userConfig)), s')) ∧
    (∀ groupConfig,
       VVAuthProvider.getGroupTokens (_provider w) (accessToken authInfo)
         (userId authInfo) = Normal groupConfig ->
       getGroupConfig s' = (Normal (Some (VGroupConfig groupConfig)), s')).
Proof.
  intros Hc Hacc Hvalid Hexchange Hui.
  destruct (handleAuthCallback_success_run w code state s c authInfo userInfo
              Hc Hacc Hvalid Hexchange Hui) as (t' & Hrun & _).
  rewrite Hrun. eexists. split; [reflexivity|].
  destruct (afterLogin_login w authInfo userInfo c) as (H1 & _ & _ & _ & H5 & _).
  destruct s as [c0 a subs p lc url n t]; simpl in *; subst.
  split; [unfold getAccessToken; run; rewrite H1; reflexivity|].
  split; [unfold getUserInfo; run; rewrite H5; reflexivity|].
  split; [unfold isAuthenticated; run; rewrite H1; reflexivity|].
  split; [reflexivity|]. split.
  - intros userConfig He. unfold getUserConfig. run.
    rewrite (afterLogin_userConfig w authInfo userInfo userConfig c He).
    reflexivity.
  - intros groupConfig He. unfold getGroupConfig. run.
    rewrite (afterLogin_groupConfig w authInfo userInfo groupConfig c He).
    reflexivity.
Qed.

(** X24.  After a logout the stored group configuration is still there.
    A refresh then does nothing, without a provider call, although the
    user id is still stored; but [switchGroup] still succeeds for a group
    of the old configuration that has a key, and makes that key the
    host's API key while nobody is logged in. *)
Theorem operations_after_logout w w2 h groupType s c groupConfig targetGroup :
  _controller s = Some c ->
  StateManagerOps.getGlobalStateKey "vvGroupConfig" c =
    Some (VGroupConfig groupConfig) ->
  find (λ g, bool_decide (type g = groupType)) groupConfig = Some targetGroup ->
  truthyString (apiKey targetGroup) = true ->
  ∃ s1 s2 c2,
    handleDeauth w s = (Normal tt, s1) ∧
    refreshGroupConfig w2 h s1 = (Normal None, s1) ∧
    getGroupConfig s1 = (Normal (Some (VGroupConfig groupConfig)), s1) ∧
    switchGroup w2 groupType s1 = (Normal tt, s2) ∧
    _controller s2 = Some c2 ∧
    StateManagerOps.getSecretKey "apiKey" c2 = apiKey targetGroup ∧
    StateManagerOps.getSecretKey "vv:accessToken" c2 = None.
Proof.
  intros Hc Hgc Hfind Hkey. rewrite (handleDeauth_run w s c Hc).
  set (s1 := with_trace _ _).
  assert (Hc1 : _controller s1 = Some (loggedOut c)) by (destruct s; reflexivity).
  assert (Hgc1 : StateManagerOps.getGlobalStateKey "vvGroupConfig" (loggedOut c)
                 = Some (VGroupConfig groupConfig)).
  { rewrite loggedOut_other_state by discriminate. exact Hgc. }
  assert (Htoken : StateManagerOps.getSecretKey "vv:accessToken" (loggedOut c)
                   = None).
  { unfold loggedOut. store_simpl. reflexivity. }
  pose proof (switchGroup_run w2 groupType s1 (loggedOut c) groupConfig
                targetGroup Hc1 Hgc1 Hfind Hkey) as Hrun.
  destruct (switched_lookups w2 groupType groupConfig targetGroup (loggedOut c))
    as (_ & Hk & _).
  eexists s1, _, _. split; [reflexivity|].
  split.
  { subst s1. destruct s as [c0 a subs p lc url n t]; simpl in *.
    unfold refreshGroupConfig. run. rewrite Htoken. reflexivity. }
  split.
  { subst s1. destruct s as [c0 a subs p lc url n t]; simpl in *.
    unfold getGroupConfig. run. rewrite Hgc1. reflexivity. }
  split; [exact Hrun|].
  split; [subst s1; destruct s; reflexivity|].
  split; [exact Hk|].
  unfold switched, appliedGroup. cbv zeta.
  destruct (truthyString (if isDev w2 then _ else _)).
  - transitivity (StateManagerOps.getSecretKey "vv:accessToken" (loggedOut c));
      [|exact Htoken].
    store_simpl. reflexivity.
  - transitivity (StateManagerOps.getSecretKey "vv:accessToken" (loggedOut c));
      [|exact Htoken].
    store_simpl. reflexivity.
Qed.

(** ** The constructor's URLs *)

Lemma replace_eq pattern replacement s :
  replace pattern replacement s =
  if String.prefix pattern s
  then replacement +:+ dropString (String.length pattern) s
  else match s with
       | EmptyString => EmptyString
       | String c rest => String c (replace pattern replacement rest)
       end.
Proof. destruct s; reflexivity. Qed.

Lemma append_cons a (p s : string) : String a p +:+ s = String a (p +:+ s).
Proof. reflexivity. Qed.

Lemma append_nil (s : string) : "" +:+ s = s.
Proof. reflexivity. Qed.

Lemma prefix_append p s : String.prefix p (p +:+ s) = true.
Proof.
  induction p as [|a p IH]; [destruct s; reflexivity|].
  rewrite append_cons. cbn [String.prefix]. rewrite IH.
  destruct (Ascii.ascii_dec a a); [reflexivity|contradiction].
Qed.

Lemma dropString_append p s : dropString (String.length p) (p +:+ s) = s.
Proof. induction p as [|a p IH]; [reflexivity|exact IH]. Qed.

Lemma prefix_shorten p : ∀ x y,
  String.prefix p (x +:+ y) = true ->
  (String.length p ≤ String.length x)%nat ->
  String.prefix p x = true.
Proof.
  induction p as [|a p IH]; intros x y Hp Hlen.
  - destruct x; reflexivity.
  - destruct x as [|b x]; [cbn in Hlen; lia|].
    rewrite append_cons in Hp. cbn [String.prefix] in Hp |- *.
    destruct (Ascii.ascii_dec a b); [|discriminate].
    apply (IH x y Hp). cbn in Hlen. lia.
Qed.

Lemma append_assoc (a b c : string) : (a +:+ b) +:+ c = a +:+ b +:+ c.
Proof.
  induction a as [|x a IH]; [reflexivity|].
  rewrite !append_cons, IH. reflexivity.
Qed.

Lemma length_append (a b : string) :
  String.length (a +:+ b) = (String.length a + String.length b)%nat.
Proof.
  induction a as [|x a IH]; [reflexivity|].
  rewrite append_cons. cbn [String.length]. rewrite IH. reflexivity.
Qed.

Lemma replace_absent pattern replacement s :
  includes s pattern = false -> replace pattern replacement s = s.
Proof.
  induction s as [|a s IH]; intros H; rewrite replace_eq.
  - cbn [includes] in H. destruct (String.prefix pattern ""); [discriminate|].
    reflexivity.
  - cbn [includes] in H.
    destruct (String.prefix pattern (String a s)); [discriminate|].
    rewrite IH by exact H. reflexivity.
Qed.

(** The first occurrence is the one replaced: [init] is the pattern
    without its last character. *)
Lemma replace_first init last replacement pre post :
  includes (pre +:+ init) (init +:+ String last "") = false ->
  replace (init +:+ String last "") replacement
    (pre +:+ (init +:+ String last "") +:+ post) =
  pre +:+ replacement +:+ post.
Proof.
  set (pattern := init +:+ String last "").
  induction pre as [|a pre IH]; intros H; rewrite replace_eq.
  - rewrite !append_nil. rewrite prefix_append, dropString_append. reflexivity.
  - rewrite !append_cons in H |- *. cbn [includes] in H.
    destruct (String.prefix pattern (String a (pre +:+ init))) eqn:Hp;
      [discriminate|].
    destruct (String.prefix pattern (String a (pre +:+ pattern +:+ post)))
      eqn:Hq.
    + exfalso.
      assert (Hsplit : String a (pre +:+ pattern +:+ post) =
                       String a (pre +:+ init) +:+ (String last "" +:+ post)).
      { rewrite append_cons. f_equal. subst pattern.
        rewrite !append_assoc. reflexivity. }
      rewrite Hsplit in Hq. apply prefix_shorten in Hq; [congruence|].
      subst pattern. cbn [String.length]. rewrite !length_append.
      cbn [String.length]. lia.
    + rewrite IH by exact H. reflexivity.
Qed.

(** X25.  The constructor with [VV_API_BASE_URL] defined, whatever
    [IS_DEV] says.  The empty string does not count as an override but
    switches to the development address.  A non-empty value is the API
    base URL as it stands; the login page is that value without its first
    [/api] (and only the first: what follows it is kept), or the value
    itself when it has no [/api], followed by [/oauth/vscode/login]. *)
Theorem constructor_override w url :
  process_env w !! "VV_API_BASE_URL" = Some url ->
  (url = "" ->
   API_BASE_URL w = devBaseUrl w +:+ "/api" ∧
   AUTH_PAGE_URL_string w = devBaseUrl w +:+ "/oauth/vscode/login") ∧
  (url ≠ "" ->
   API_BASE_URL w = url ∧
   (includes url "/api" = false ->
    AUTH_PAGE_URL_string w = url +:+ "/oauth/vscode/login") ∧
   (∀ pre post,
      url = pre +:+ "/api" +:+ post ->
      includes (pre +:+ "/ap") "/api" = false ->
      AUTH_PAGE_URL_string w = (pre +:+ post) +:+ "/oauth/vscode/login")).
Proof.
  intros Henv. unfold API_BASE_URL, AUTH_PAGE_URL_string, isDevelopment.
  rewrite Henv. cbn [truthyString default from_option id]. split.
  - intros ->. rewrite bool_decide_true by reflexivity. cbn [negb].
    rewrite bool_decide_false by discriminate. rewrite orb_true_r.
    split; reflexivity.
  - intros Hne. rewrite bool_decide_false by exact Hne. cbn [negb].
    split; [reflexivity|]. split.
    + intros Habsent. rewrite (replace_absent "/api" "" url Habsent).
      reflexivity.
    + intros pre post -> Hfirst.
      pose proof (replace_first "/ap" (Ascii.ascii_of_nat 105) "" pre post
                    Hfirst) as Hr.
      change ("/ap" +:+ String (Ascii.ascii_of_nat 105) "") with "/api" in Hr.
      rewrite Hr. reflexivity.
Qed.

(** X26.  Without [VV_API_BASE_URL], the service and the config.ts that
    reads the environment use the same API address, and outside
    development mode it is the production one, [DEV_BASE_URL] playing no
    role.  The config.ts with the fixed address differs from the service
    there: its endpoint is plain [http] where the service uses [https]. *)
Theorem constructor_without_override w :
  process_env w !! "VV_API_BASE_URL" = None ->
  API_BASE_URL w = ConfigEnv.CONFIG_ENDPOINT w ∧
  AUTH_PAGE_URL_string w =
    ConfigEnv.API_BASE_URL w +:+ "/oauth/vscode/login" ∧
  (isDev w = false ->
   API_BASE_URL w = "https://vvcode.top/api" ∧
   AUTH_PAGE_URL_string w = "https://vvcode.top/oauth/vscode/login" ∧
   ConfigFixed.CONFIG_ENDPOINT = "http://vvcode.top/api" ∧
   API_BASE_URL w ≠ ConfigFixed.CONFIG_ENDPOINT).
Proof.
  intros Henv.
  unfold API_BASE_URL, AUTH_PAGE_URL_string, isDevelopment,
    ConfigEnv.CONFIG_ENDPOINT, ConfigEnv.API_BASE_URL.
  rewrite Henv. cbn [truthyString]. rewrite bool_decide_true by reflexivity.
  cbn [negb]. rewrite orb_false_r.
  destruct (isDev w); (split; [reflexivity|]); (split; [reflexivity|]);
    intros Hdev; [discriminate Hdev|].
  repeat split. discriminate.
Qed.

(** ** The configuration cache *)

(** X27.  [getDynamicConfig] always leaves its result in the cache, sends
    at most one request, and a following call without [forceRefresh]
    returns the same configuration without any request, whatever the
    network would answer. *)
Theorem getDynamicConfig_caches net net' forceRefresh m :
  let r := ConfigFetcher.getDynamicConfig net forceRefresh m in
  ConfigFetcher.getCachedConfig r.2 = Some r.1 ∧
  ConfigFetcher.getDynamicConfig net' false r.2 = r ∧
  (ConfigFetcher.requests m ≤ ConfigFetcher.requests r.2
     ≤ S (ConfigFetcher.requests m))%nat ∧
  (forceRefresh = false ->
   ∀ config, ConfigFetcher.getCachedConfig m = Some config -> r = (config, m)).
Proof.
  intros r. subst r.
  unfold ConfigFetcher.getDynamicConfig, ConfigFetcher.fetchRemoteConfig,
    ConfigFetcher.getCachedConfig.
  destruct m as [[config|] n]; cbn [ConfigFetcher.cachedConfig ConfigFetcher.requests].
  - destruct forceRefresh; cbn [negb].
    + destruct (net n) as [[st d]|e];
        cbn [ConfigFetcher.status ConfigFetcher.data];
        [destruct (bool_decide (st = 200%Z)); [destruct d|]|];
        cbn; (split; [reflexivity|]); (split; [reflexivity|]);
        (split; [lia|discriminate]).
    + cbn. split; [reflexivity|]. split; [reflexivity|]. split; [lia|].
      intros _ config' [= ->]. reflexivity.
  - destruct (net n) as [[st d]|e];
        cbn [ConfigFetcher.status ConfigFetcher.data];
        [destruct (bool_decide (st = 200%Z)); [destruct d|]|];
      cbn; (split; [reflexivity|]); (split; [reflexivity|]);
      (split; [lia|]); intros _ config'; discriminate.
Qed.

Lemma fetchRemoteConfig_failed net m :
  ConfigFetcher.failed (net (ConfigFetcher.requests m)) ->
  ConfigFetcher.fetchRemoteConfig net m =
    (None, {| ConfigFetcher.cachedConfig := ConfigFetcher.cachedConfig m;
              ConfigFetcher.requests := S (ConfigFetcher.requests m) |}).
Proof.
  intros Hfailed. unfold ConfigFetcher.fetchRemoteConfig.
  destruct (net (ConfigFetcher.requests m)) as [[st d]|e];
    cbn in Hfailed |- *; [|reflexivity].
  destruct Hfailed as [Hst| ->].
  - rewrite bool_decide_false by exact Hst. reflexivity.
  - destruct (bool_decide (st = 200%Z)); reflexivity.
Qed.

(** X28.  There is no fallback.  When the request fails (an error, a
    status other than 200, or no data), a first call and a forced refresh
    both cache and return the configuration without values: a forced
    refresh thereby discards a configuration fetched earlier, and later
    calls without [forceRefresh] return the empty configuration without
    trying again. *)
Theorem getDynamicConfig_failure net net' forceRefresh m :
  ConfigFetcher.cachedConfig m = None ∨ forceRefresh = true ->
  ConfigFetcher.failed (net (ConfigFetcher.requests m)) ->
  let m' := {| ConfigFetcher.cachedConfig := Some ConfigFetcher.noConfig;
               ConfigFetcher.requests := S (ConfigFetcher.requests m) |} in
  ConfigFetcher.getDynamicConfig net forceRefresh m =
    (ConfigFetcher.noConfig, m') ∧
  ConfigFetcher.getDynamicConfig net' false m' = (ConfigFetcher.noConfig, m').
Proof.
  intros Hfetch Hfailed m'. subst m'. split; [|reflexivity].
  unfold ConfigFetcher.getDynamicConfig.
  rewrite (fetchRemoteConfig_failed net m Hfailed).
  destruct Hfetch as [Hnone| ->].
  - rewrite Hnone. reflexivity.
  - destruct (ConfigFetcher.cachedConfig m); reflexivity.
Qed.

(** X29.  Clearing the cache makes the next call fetch again: after
    [clearConfigCache] nothing is cached, the next [getDynamicConfig]
    sends exactly one request, and when that request answers 200 with an
    [anthropic] entry, the call returns and caches that entry's key and
    base URL unchanged. *)
Theorem clearConfigCache_refetches net forceRefresh m entry :
  net (ConfigFetcher.requests m) =
    Normal {| ConfigFetcher.status := 200;
              ConfigFetcher.data :=
                Some {| ConfigFetcher.response_anthropic := Some entry |} |} ->
  let m0 := ConfigFetcher.clearConfigCache m in
  let r := ConfigFetcher.getDynamicConfig net forceRefresh m0 in
  ConfigFetcher.getCachedConfig m0 = None ∧
  r.1 = {| ConfigFetcher.anthropic := entry |} ∧
  ConfigFetcher.getCachedConfig r.2 =
    Some {| ConfigFetcher.anthropic := entry |} ∧
  ConfigFetcher.requests r.2 = S (ConfigFetcher.requests m).
Proof.
  intros Hnet m0 r. subst m0 r.
  unfold ConfigFetcher.getDynamicConfig, ConfigFetcher.fetchRemoteConfig,
    ConfigFetcher.clearConfigCache, ConfigFetcher.getCachedConfig.
  cbn [ConfigFetcher.cachedConfig ConfigFetcher.requests].
  rewrite Hnet. cbn. destruct entry. repeat split.
Qed.

(** ** The further properties on the sample inputs *)

Lemma handleAuthCallback_success_witness :
  ∃ s',
    handleAuthCallback Sample.world "abc" "S" Sample.pending = (Normal tt, s') ∧
    getInfo s' = (Normal {| user := Some (VUserInfo Sample.ann) |}, s') ∧
    _lastProcessedCode s' = Some "abc" ∧
    exchanges (trace s') = 1%nat.
Proof.
  destruct (handleAuthCallback_success Sample.world "abc" "S" Sample.pending
              Sample.pendingController Sample.authInfo Sample.ann)
    as (s' & c' & Hrun & _ & _ & _ & _ & _ & _ & _ & _ & _ & _ & Hcode & _ & _
        & _ & Hinfo & Hex).
  - reflexivity.
  - split; [reflexivity|discriminate].
  - split; [discriminate|]. split; vm_compute; reflexivity.
  - reflexivity.
  - reflexivity.
  - exists s'. split; [exact Hrun|]. split; [exact Hinfo|].
    split; [exact Hcode|exact Hex].
Defined.

Lemma handleAuthCallback_session_incomplete_witness :
  handleAuthCallback Sample.world "abc" "S" Sample.fresh =
    (Thrown stateNotFoundError, failedAt Sample.fresh Sample.freshController) ∧
  trace (failedAt Sample.fresh Sample.freshController) = [FlushPendingState].
Proof.
  destruct (handleAuthCallback_session_incomplete Sample.world "abc" "S"
              Sample.fresh Sample.freshController)
    as (Hnone & _ & Htrace & _).
  - reflexivity.
  - split; [reflexivity|discriminate].
  - split; [|exact Htrace]. apply Hnone. vm_compute. reflexivity.
Defined.

Lemma handleAuthCallback_durable_session_witness :
  ExchangeCodeForToken "abc" (Some (VString "V")) "S"
    ∈ trace (handleAuthCallback Sample.world "abc" "S" SampleHost.reloaded).2.
Proof.
  apply (handleAuthCallback_durable_session Sample.world "abc" "S" (VString "V")
           SampleHost.reloaded SampleHost.reloadedController).
  - reflexivity.
  - split; [reflexivity|discriminate].
  - discriminate.
  - vm_compute. reflexivity.
  - vm_compute. reflexivity.
  - vm_compute. reflexivity.
  - vm_compute. reflexivity.
  - vm_compute. reflexivity.
Defined.

Lemma handleAuthCallback_exchange_fails_witness :
  (handleAuthCallback SampleHost.worldBusy "abc" "S" Sample.pending).1 =
    Thrown rateLimitError ∧
  (handleAuthCallback Sample.world "abc" "S"
     (handleAuthCallback SampleHost.worldBusy "abc" "S" Sample.pending).2).1 =
    Thrown stateNotFoundError.
Proof.
  destruct (handleAuthCallback_exchange_fails SampleHost.worldBusy Sample.world
              "abc" "S" "S" Sample.pending Sample.pendingController
              "Request failed with status code 429")
    as (Hrun & _ & _ & Hagain & _).
  - reflexivity.
  - split; [reflexivity|discriminate].
  - split; [discriminate|]. split; vm_compute; reflexivity.
  - reflexivity.
  - rewrite Hrun. cbn [fst snd]. rewrite Hagain. split; reflexivity.
Defined.

Lemma rethrownMessage_classifies_witness :
  rethrownMessage "Request failed with status code 429" = rateLimitError.
Proof.
  destruct (rethrownMessage_classifies "Request failed with status code 429")
    as [Hlimit _].
  apply Hlimit. right. exists "Request failed with status code ", "".
  reflexivity.
Defined.

Lemma switchGroup_without_groups_witness :
  switchGroup Sample.world "daily" Sample.fresh =
    (Thrown "Group config not found. Please login first.", Sample.fresh).
Proof.
  destruct (switchGroup_without_groups Sample.world "daily" Sample.fresh
              Sample.freshController eq_refl) as [Hnone _].
  apply Hnone. vm_compute. reflexivity.
Defined.

Lemma switchGroup_twice_witness :
  ∃ s1 s2 c2,
    switchGroup Sample.world "daily" Sample.loggedInService = (Normal tt, s1) ∧
    switchGroup Sample.world "performance" s1 = (Normal tt, s2) ∧
    _controller s2 = Some c2 ∧
    StateManagerOps.getSecretKey "apiKey" c2 = Some "key-perf".
Proof.
  destruct (switchGroup_twice Sample.world "daily" "performance"
              Sample.loggedInService Sample.loggedInController Sample.groups
              Sample.daily Sample.performance)
    as (s1 & c1 & s2 & c2 & H1 & _ & H2 & Hc2 & _ & Hkey & _).
  - reflexivity.
  - vm_compute. reflexivity.
  - reflexivity.
  - reflexivity.
  - reflexivity.
  - reflexivity.
  - exists s1, s2, c2. split; [exact H1|]. split; [exact H2|].
    split; [exact Hc2|exact Hkey].
Defined.

Lemma handleDeauth_frame_witness :
  ∃ s' c',
    handleDeauth Sample.world Sample.loggedInService = (Normal tt, s') ∧
    _controller s' = Some c' ∧
    StateManagerOps.getSecretKey "vv:userId" c' =
      StateManagerOps.getSecretKey "vv:userId" Sample.loggedInController ∧
    StateManagerOps.getGlobalStateKey "vvGroupConfig" c' =
      StateManagerOps.getGlobalStateKey "vvGroupConfig"
        Sample.loggedInController.
Proof.
  destruct (handleDeauth_frame Sample.world Sample.loggedInService
              Sample.loggedInController eq_refl)
    as (s' & c' & Hrun & Hc' & _ & _ & Hid & Hgroups & _).
  exists s', c'. split; [exact Hrun|]. split; [exact Hc'|].
  split; [exact Hid|exact Hgroups].
Defined.

Lemma handleDeauth_revoke_witness :
  ∃ s',
    handleDeauth Sample.world Sample.loggedInService = (Normal tt, s') ∧
    revokeEvents Sample.loggedInController = [Logout "tok"].
Proof.
  destruct (handleDeauth_revoke Sample.world Sample.loggedInService
              Sample.loggedInController eq_refl)
    as (s' & Hrun & _ & Hrevoke & _).
  exists s'. split; [exact Hrun|].
  apply Hrevoke; [vm_compute; reflexivity|discriminate].
Defined.

Lemma handleAuthCallback_after_logout_witness :
  ∃ s1,
    handleDeauth Sample.world Sample.loggedInService = (Normal tt, s1) ∧
    handleAuthCallback Sample.world "abc" "S" s1 = (Normal tt, s1).
Proof.
  destruct (handleAuthCallback_after_logout Sample.world Sample.world "abc" "S"
              Sample.loggedInService Sample.loggedInController eq_refl eq_refl)
    as (s1 & Hout & Hdrop & _).
  exists s1. split; [exact Hout|exact Hdrop].
Defined.

Lemma parseInt_toString_witness : parseInt (toString (-42)) = Some (-42)%Z.
Proof.
  apply (parseInt_toString (-42)). split; vm_compute; discriminate.
Defined.

Lemma refreshGroupConfig_not_logged_in_witness :
  refreshGroupConfig Sample.world SampleHost.host Sample.fresh =
    (Normal None, Sample.fresh).
Proof.
  apply (refreshGroupConfig_not_logged_in Sample.world SampleHost.host
           Sample.fresh Sample.freshController eq_refl).
  left. vm_compute. reflexivity.
Defined.

Lemma refreshGroupConfig_success_witness :
  (refreshGroupConfig Sample.world SampleHost.host Sample.loggedInService).1 =
    Normal (Some Sample.groups).
Proof.
  destruct (refreshGroupConfig_success Sample.world SampleHost.host
              Sample.loggedInService Sample.loggedInController "tok" "7" 7
              Sample.groups)
    as (Hrun & _).
  - reflexivity.
  - split; [vm_compute; reflexivity|]. split; [discriminate|].
    split; [vm_compute; reflexivity|discriminate].
  - vm_compute. reflexivity.
  - reflexivity.
  - rewrite Hrun. reflexivity.
Defined.

Lemma refreshGroupConfig_failure_witness :
  refreshGroupConfig SampleHost.worldBare SampleHost.host Sample.loggedInService =
    (Normal None,
     with_trace [GetGroupTokens "tok" 7] Sample.loggedInService).
Proof.
  destruct (refreshGroupConfig_failure SampleHost.worldBare SampleHost.host
              Sample.loggedInService Sample.loggedInController "tok" "7")
    as (Hfail & _).
  - reflexivity.
  - split; [vm_compute; reflexivity|]. split; [discriminate|].
    split; [vm_compute; reflexivity|discriminate].
  - apply (Hfail 7%Z "Network Error"); [vm_compute; reflexivity|reflexivity].
Defined.

Lemma refreshGroupConfig_after_login_witness :
  ∃ s1,
    handleAuthCallback Sample.world "abc" "S" Sample.pending = (Normal tt, s1) ∧
    (refreshGroupConfig Sample.worldNoDefault SampleHost.host s1).1 =
      Normal (Some [Sample.daily]).
Proof.
  destruct (refreshGroupConfig_after_login Sample.world Sample.worldNoDefault
              SampleHost.host "abc" "S" Sample.pending Sample.pendingController
              Sample.authInfo Sample.ann [Sample.daily])
    as (s1 & c1 & Hrun & _ & Hrefresh).
  - reflexivity.
  - split; [reflexivity|discriminate].
  - split; [discriminate|]. split; vm_compute; reflexivity.
  - reflexivity.
  - reflexivity.
  - discriminate.
  - split; vm_compute; discriminate.
  - reflexivity.
  - exists s1. split; [exact Hrun|]. rewrite Hrefresh. reflexivity.
Defined.

Lemma handleAuthCallback_optional_fetches_fail_witness :
  ∃ s' c',
    handleAuthCallback SampleHost.worldBare "abc" "S" Sample.pending =
      (Normal tt, s') ∧
    _controller s' = Some c' ∧
    StateManagerOps.getGlobalStateKey "vvGroupConfig" c' =
      StateManagerOps.getGlobalStateKey "vvGroupConfig" Sample.pendingController ∧
    hostSettingsUnchanged Sample.pendingController c'.
Proof.
  destruct (handleAuthCallback_optional_fetches_fail SampleHost.worldBare "abc"
              "S" Sample.pending Sample.pendingController Sample.authInfo
              Sample.ann)
    as (s' & c' & Hrun & Hc' & _ & _ & Hgroups).
  - reflexivity.
  - split; [reflexivity|discriminate].
  - split; [discriminate|]. split; vm_compute; reflexivity.
  - reflexivity.
  - reflexivity.
  - exists s', c'. split; [exact Hrun|]. split; [exact Hc'|].
    apply (Hgroups "Network Error"). reflexivity.
Defined.

Lemma createAuthRequest_binds_callback_witness :
  ExchangeCodeForToken "abc" (Some (VString "V")) "S"
    ∈ trace (handleAuthCallback Sample.worldNoUserInfo "abc" "S"
               (createAuthRequest Sample.world Sample.fresh).2).2 ∧
  (handleAuthCallback Sample.worldNoUserInfo "abc" "wrong"
     (createAuthRequest Sample.world Sample.fresh).2).1 =
    Thrown "Authentication failed: Invalid state parameter - possible CSRF attack".
Proof.
  split.
  - apply (createAuthRequest_binds_callback Sample.world Sample.worldNoUserInfo
             "abc" "S" Sample.fresh Sample.freshController).
    + reflexivity.
    + split; [reflexivity|discriminate].
    + discriminate.
    + discriminate.
    + reflexivity.
  - apply (createAuthRequest_binds_callback Sample.world Sample.worldNoUserInfo
             "abc" "wrong" Sample.fresh Sample.freshController).
    + reflexivity.
    + split; [reflexivity|discriminate].
    + discriminate.
    + discriminate.
    + discriminate.
Defined.

Lemma createAuthRequest_url_parameters_witness :
  ∃ authUrl,
    (createAuthRequest Sample.world Sample.fresh).1 = Normal authUrl ∧
    occurrences "state" (searchParams authUrl) = 1%nat ∧
    otherParams (searchParams authUrl) = [].
Proof.
  destruct (createAuthRequest_url_parameters Sample.world Sample.fresh
              Sample.freshController)
    as (authUrl & Hrun & _ & _ & Hstate & _ & _ & Hother).
  - reflexivity.
  - discriminate.
  - discriminate.
  - intros url. reflexivity.
  - exists authUrl. split; [exact Hrun|]. split; [exact Hstate|exact Hother].
Defined.

Lemma subscribeToAuthStatusUpdate_throws_registered_witness :
  ∃ e s',
    subscribeToAuthStatusUpdate Sample.world
      (newVVAuthService SampleHost.host Sample.world) = (Thrown e, s') ∧
    _activeAuthStatusUpdateSubscriptions s' = [0%nat].
Proof.
  destruct (subscribeToAuthStatusUpdate_throws_registered Sample.world
              (newVVAuthService SampleHost.host Sample.world))
    as (e & s' & Hrun & Hsubs & _).
  - left. reflexivity.
  - exists e, s'. split; [exact Hrun|exact Hsubs].
Defined.

Lemma unbound_service_throws_witness :
  handleAuthCallback Sample.world "abc" "S"
    (newVVAuthService SampleHost.host Sample.world) =
    (Thrown "Controller has not been initialized",
     newVVAuthService SampleHost.host Sample.world).
Proof.
  destruct (unbound_service_throws Sample.world SampleHost.host "abc" "S" "daily"
              (newVVAuthService SampleHost.host Sample.world) eq_refl)
    as (Hcallback & _).
  exact Hcallback.
Defined.

Lemma vvRefreshGroupConfig_handler_witness :
  (vvRefreshGroupConfig SampleHost.worldBare SampleHost.host None).1 =
    Thrown "VVAuthService not initialized. Call VVAuthService.initialize(controller) first." ∧
  (vvRefreshGroupConfig SampleHost.worldBare SampleHost.host
     (Some Sample.loggedInService)).1 = Normal tt.
Proof.
  destruct (vvRefreshGroupConfig_handler SampleHost.worldBare SampleHost.host None)
    as (Hnone & _).
  destruct (vvRefreshGroupConfig_handler SampleHost.worldBare SampleHost.host
              (Some Sample.loggedInService))
    as (_ & Hsome).
  split.
  - rewrite Hnone; reflexivity.
  - destruct (Hsome Sample.loggedInService Sample.loggedInController
                eq_refl eq_refl) as (s' & c' & Hrun & _).
    rewrite Hrun. reflexivity.
Defined.

Lemma getters_after_login_witness :
  ∃ s',
    handleAuthCallback Sample.world "abc" "S" Sample.pending = (Normal tt, s') ∧
    getAccessToken s' = (Normal (Some "tok"), s') ∧
    isAuthenticated s' = (Normal true, s') ∧
    getGroupConfig s' = (Normal (Some (VGroupConfig Sample.groups)), s').
Proof.
  destruct (getters_after_login Sample.world "abc" "S" Sample.pending
              Sample.pendingController Sample.authInfo Sample.ann)
    as (s' & Hrun & Htoken & _ & Hauth & _ & _ & Hgroups).
  - reflexivity.
  - split; [reflexivity|discriminate].
  - split; [discriminate|]. split; vm_compute; reflexivity.
  - reflexivity.
  - reflexivity.
  - exists s'. split; [exact Hrun|]. split; [exact Htoken|].
    split; [exact Hauth|]. apply Hgroups. reflexivity.
Defined.

Lemma operations_after_logout_witness :
  ∃ s1 s2 c2,
    handleDeauth Sample.world Sample.loggedInService = (Normal tt, s1) ∧
    refreshGroupConfig Sample.world SampleHost.host s1 = (Normal None, s1) ∧
    switchGroup Sample.world "daily" s1 = (Normal tt, s2) ∧
    _controller s2 = Some c2 ∧
    StateManagerOps.getSecretKey "apiKey" c2 = Some "key-daily".
Proof.
  destruct (operations_after_logout Sample.world Sample.world SampleHost.host
              "daily" Sample.loggedInService Sample.loggedInController
              Sample.groups Sample.daily)
    as (s1 & s2 & c2 & Hout & Hrefresh & _ & Hswitch & Hc2 & Hkey & _).
  - reflexivity.
  - vm_compute. reflexivity.
  - reflexivity.
  - reflexivity.
  - exists s1, s2, c2. split; [exact Hout|]. split; [exact Hrefresh|].
    split; [exact Hswitch|]. split; [exact Hc2|exact Hkey].
Defined.

Lemma constructor_override_witness :
  API_BASE_URL SampleHost.worldOverride = "https://example.test/api/v1" ∧
  AUTH_PAGE_URL_string SampleHost.worldOverride =
    "https://example.test/v1/oauth/vscode/login" ∧
  API_BASE_URL SampleHost.worldEmptyOverride = "http://127.0.0.1:3000/api".
Proof.
  destruct (constructor_override SampleHost.worldOverride
              "https://example.test/api/v1" eq_refl)
    as (_ & Hurl).
  destruct (constructor_override SampleHost.worldEmptyOverride "" eq_refl)
    as (Hempty & _).
  destruct (Hurl ltac:(discriminate)) as (Hapi & _ & Hauth).
  destruct (Hempty eq_refl) as (Hdev & _).
  split; [exact Hapi|]. split; [|exact Hdev].
  apply (Hauth "https://example.test" "/v1"); reflexivity.
Defined.

Lemma constructor_without_override_witness :
  API_BASE_URL Sample.world = "https://vvcode.top/api" ∧
  API_BASE_URL Sample.worldDev = ConfigEnv.CONFIG_ENDPOINT Sample.worldDev.
Proof.
  destruct (constructor_without_override Sample.world eq_refl)
    as (_ & _ & Hprod).
  destruct (constructor_without_override Sample.worldDev eq_refl)
    as (Hsame & _).
  split; [|exact Hsame]. apply Hprod. reflexivity.
Defined.

Lemma getDynamicConfig_failure_witness :
  ConfigFetcher.getDynamicConfig SampleHost.network false SampleHost.unfetched =
    (ConfigFetcher.noConfig, SampleHost.fetched) ∧
  ConfigFetcher.getDynamicConfig SampleHost.network false SampleHost.fetched =
    (ConfigFetcher.noConfig, SampleHost.fetched).
Proof.
  apply (getDynamicConfig_failure SampleHost.network SampleHost.network false
           SampleHost.unfetched).
  - left. reflexivity.
  - simpl. exact I.
Defined.

Lemma clearConfigCache_refetches_witness :
  (ConfigFetcher.getDynamicConfig SampleHost.network false
     (ConfigFetcher.clearConfigCache SampleHost.fetched)).1 =
    {| ConfigFetcher.anthropic :=
         {| ConfigFetcher.apiKey := Some "key";
            ConfigFetcher.baseUrl := None |} |}.
Proof.
  destruct (clearConfigCache_refetches SampleHost.network false
              SampleHost.fetched
              {| ConfigFetcher.apiKey := Some "key";
                 ConfigFetcher.baseUrl := None |} eq_refl)
    as (_ & Hresult & _).
  exact Hresult.
Defined.
